(** * short-film: the resumable generation pipeline

    A shallow embedding of the Python package [short_film] (models.py,
    state.py, video_gen.py, image_gen.py, stitcher.py, generator.py) and
    the properties of its orchestrator.

    Conventions of the embedding.
    - [float] fields are binary64 values (Rocq's primitive floats); an
      [int] is a [Z]; a [str] is a [string]; [Optional[T]] is [option T].
    - A [pathlib.Path] is represented by its [str()] form.  A [Path]
      object is always truthy in Python, so [if clip.output_path] only
      tests for [None].
    - A raised exception is a value of [exn]; a call that may raise
      returns a [result].
    - The collaborators the orchestrator does not implement itself (the
      image and video back ends behind their retry decorators, OpenCV,
      ffmpeg) are oracles of a record [Collaborators]: they decide from
      the current [World] and the arguments of the call whether the call
      succeeds or which exception it raises.  The embedding performs the
      file-system effect of a successful call and appends every call to
      the log of the world.
    - The file system carries out what the process asks of it: a write,
      a [mkdir] or an [unlink] of the process does not fail, and memory
      does not run out. *)

From Stdlib Require Import ZArith Floats Lia Ascii String.
From stdpp Require Import gmap strings list pretty.

Open Scope Z_scope.

(** ** Python values *)

Inductive exn_kind :=
| ValueError | TypeError | RuntimeError | ZeroDivisionError | OverflowError
| ValidationError | JSONDecodeError | UnicodeDecodeError | IsADirectoryError
| CalledProcessError | GenericException.

(** An exception: its class and [str(e)]. *)
Record exn := mk_exn { exn_class : exn_kind; exn_str : string }.

Inductive result (A : Type) :=
| Ok (a : A)
| Raise (e : exn).
Arguments Ok {A} a.
Arguments Raise {A} e.

(** [f"{n}"] for an [int]. *)
Definition str_int (n : Z) : string := pretty n.

(** Truthiness of a [str] and of an [Optional[str]]. *)
Definition str_truthy (s : string) : bool :=
  match s with EmptyString => false | String _ _ => true end.

Definition opt_str_truthy (o : option string) : bool :=
  match o with None => false | Some s => str_truthy s end.

(** [needle in hay] on strings. *)
Fixpoint str_startswith (needle hay : string) : bool :=
  match needle, hay with
  | EmptyString, _ => true
  | String a n, String b h => if Ascii.eqb a b then str_startswith n h else false
  | String _ _, EmptyString => false
  end.

Fixpoint str_contains (needle hay : string) : bool :=
  str_startswith needle hay ||
  match hay with
  | EmptyString => false
  | String _ h => str_contains needle h
  end.

(** [repr(s)] for a [str].  The text is quoted with ['], or with the
    double quote when it holds a ['] and no double quote; the quote in use
    and the backslash are escaped by a backslash; tab, line feed and
    carriage return are written [\t], [\n], [\r] and every other control
    character [\xhh].  A string of the embedding is the UTF-8 text of the
    [str]: a byte above 127 belongs to a character outside ASCII, which
    [repr] leaves as it is when it is printable. *)
Definition hex_digit (n : nat) : ascii :=
  match n with
  | 0 => "0" | 1 => "1" | 2 => "2" | 3 => "3" | 4 => "4" | 5 => "5" | 6 => "6"
  | 7 => "7" | 8 => "8" | 9 => "9" | 10 => "a" | 11 => "b" | 12 => "c"
  | 13 => "d" | 14 => "e" | _ => "f"
  end%nat%char.

Definition double_quote : ascii := "034"%char.
Definition backslash : ascii := "092"%char.

Definition repr_char (quote c : ascii) : string :=
  let code := nat_of_ascii c in
  if Ascii.eqb c quote || Ascii.eqb c backslash then String backslash (String c "")
  else if Ascii.eqb c "009" then String backslash "t"
  else if Ascii.eqb c "010" then String backslash "n"
  else if Ascii.eqb c "013" then String backslash "r"
  else if (code <? 32)%nat || (code =? 127)%nat then
    String backslash
      (String "x" (String (hex_digit (code / 16)) (String (hex_digit (code mod 16)) "")))
  else String c "".

Fixpoint repr_body (quote : ascii) (s : string) : string :=
  match s with
  | EmptyString => EmptyString
  | String c r => repr_char quote c +:+ repr_body quote r
  end.

Definition py_repr (s : string) : string :=
  let quote :=
    if str_contains "'" s && negb (str_contains (String double_quote "") s)
    then double_quote else "'"%char in
  String quote (repr_body quote s +:+ String quote "").

(** ** pathlib *)

Definition Path := string.

(** The text before the last slash of [s], when [s] has a slash. *)
Fixpoint before_last_slash (s : string) : option string :=
  match s with
  | EmptyString => None
  | String c r =>
      match before_last_slash r with
      | Some d => Some (String c d)
      | None => if Ascii.eqb c "/"%char then Some EmptyString else None
      end
  end.

(** [p.parent] *)
Definition parent (p : Path) : Path :=
  match before_last_slash p with
  | None => "."
  | Some EmptyString => "/"
  | Some d => d
  end.

(** [d / name] for a relative, single-component [name]. *)
Definition joinpath (d : Path) (name : string) : Path :=
  if String.eqb d "." then name
  else if String.eqb d "/" then "/" +:+ name
  else d +:+ "/" +:+ name.

(** The directories that the text [prefix ++ rest] names above itself,
    read off at the slashes of [rest]: for [a/b/c] these are [a] and
    [a/b]. *)
Fixpoint ancestors_from (prefix rest : string) : list Path :=
  match rest with
  | EmptyString => []
  | String c r =>
      (if Ascii.eqb c "/" && str_truthy prefix then [prefix] else [])
      ++ ancestors_from (prefix +:+ String c EmptyString) r
  end.

(** [p] below the directories above it. *)
Definition dir_chain (p : Path) : list Path := ancestors_from "" p ++ [p].

(** ** models.py *)

Module Models.

Inductive FilmStyle :=
| CINEMATIC | NOIR | ANIME | DOCUMENTARY | SCIFI | FANTASY | HORROR | COMEDY.

Inductive MusicVibe :=
| EPIC | SUSPENSEFUL | CALM | UPBEAT | DARK | WHIMSICAL | NONE.

Inductive VideoProvider := OPENAI | GEMINI.

Inductive ClipStatus := PENDING | GENERATING | COMPLETED | FAILED.

Record VideoClip := mkVideoClip {
  index : Z;
  status : ClipStatus;
  prompt : string;
  start_image_path : option Path;
  output_path : option Path;
  last_frame_path : option Path;
  duration : float;
  error : option string }.

Record FilmConfig := mkFilmConfig {
  premise : string;
  style : FilmStyle;
  music_vibe : MusicVibe;
  target_duration : float;
  clip_duration : float;
  provider : VideoProvider;
  openai_api_key : option string;
  gemini_api_key : option string }.

Record FilmState := mkFilmState {
  config : FilmConfig;
  output_dir : Path;
  starting_frame_path : option Path;
  clips : list VideoClip;
  final_video_path : option Path;
  completed : bool }.

Definition status_eqb (a b : ClipStatus) : bool :=
  match a, b with
  | PENDING, PENDING | GENERATING, GENERATING
  | COMPLETED, COMPLETED | FAILED, FAILED => true
  | _, _ => false
  end.

(** Attribute assignment on a clip. *)
Definition set_status (s : ClipStatus) (c : VideoClip) : VideoClip :=
  mkVideoClip (index c) s (prompt c) (start_image_path c) (output_path c)
              (last_frame_path c) (duration c) (error c).
Definition set_prompt (p : string) (c : VideoClip) : VideoClip :=
  mkVideoClip (index c) (status c) p (start_image_path c) (output_path c)
              (last_frame_path c) (duration c) (error c).
Definition set_start_image_path (p : option Path) (c : VideoClip) : VideoClip :=
  mkVideoClip (index c) (status c) (prompt c) p (output_path c)
              (last_frame_path c) (duration c) (error c).
Definition set_output_path (p : option Path) (c : VideoClip) : VideoClip :=
  mkVideoClip (index c) (status c) (prompt c) (start_image_path c) p
              (last_frame_path c) (duration c) (error c).
Definition set_last_frame_path (p : option Path) (c : VideoClip) : VideoClip :=
  mkVideoClip (index c) (status c) (prompt c) (start_image_path c) (output_path c)
              p (duration c) (error c).
Definition set_error (e : option string) (c : VideoClip) : VideoClip :=
  mkVideoClip (index c) (status c) (prompt c) (start_image_path c) (output_path c)
              (last_frame_path c) (duration c) e.

(** Attribute assignment on the state. *)
Definition set_config (cfg : FilmConfig) (s : FilmState) : FilmState :=
  mkFilmState cfg (output_dir s) (starting_frame_path s) (clips s)
              (final_video_path s) (completed s).
Definition set_starting_frame_path (p : option Path) (s : FilmState) : FilmState :=
  mkFilmState (config s) (output_dir s) p (clips s) (final_video_path s) (completed s).
Definition set_clips (l : list VideoClip) (s : FilmState) : FilmState :=
  mkFilmState (config s) (output_dir s) (starting_frame_path s) l
              (final_video_path s) (completed s).
Definition set_final_video_path (p : option Path) (s : FilmState) : FilmState :=
  mkFilmState (config s) (output_dir s) (starting_frame_path s) (clips s) p (completed s).
Definition set_completed (b : bool) (s : FilmState) : FilmState :=
  mkFilmState (config s) (output_dir s) (starting_frame_path s) (clips s)
              (final_video_path s) b.

End Models.
Import Models.

(** ** video_gen.py: the prompt of a clip *)

Definition opening_framing : string :=
  ". Opening scene, establishing shot. Smooth camera movement.".
Definition final_framing : string :=
  ". Final scene, resolution. Dramatic conclusion.".
Definition continuation_framing (scene : Z) : string :=
  ". Continuing the story (scene " +:+ str_int scene +:+ "). Build tension and progression.".

(** [a / b] on two [int]s.  Python computes the quotient rounded to the
    nearest binary64 value, ties to even.  It raises [ZeroDivisionError]
    when [b] is zero, and [OverflowError] when the rounded quotient is
    beyond the largest float, that is when [|a / b|] reaches
    [2^1024 - 2^970], the midpoint of the largest float [2^1024 - 2^971]
    and [2^1024].  The one caller in this package, [create_video_prompt],
    drops the value, so the embedding returns no float and keeps the
    exceptions. *)
Definition int_truediv (a b : Z) : result unit :=
  if b =? 0 then Raise (mk_exn ZeroDivisionError "division by zero")
  else if (2 ^ 1025 - 2 ^ 971) * Z.abs b <=? 2 * Z.abs a then
    Raise (mk_exn OverflowError "integer division result too large for a float")
  else Ok tt.

(** The [else] branch first computes
    [progress = (clip_index / total_clips) * 100], which is not used
    afterwards but can raise; the product of a float by [100] cannot. *)
Definition create_video_prompt (premise : string) (clip_index total_clips : Z)
  : result string :=
  if clip_index =? 0 then Ok (premise +:+ opening_framing)
  else if clip_index =? total_clips - 1 then Ok (premise +:+ final_framing)
  else
    match int_truediv clip_index total_clips with
    | Raise e => Raise e
    | Ok _ => Ok (premise +:+ continuation_framing (clip_index + 1))
    end.

(** ** JSON documents and pydantic's (de)serialisation *)

(** A parsed JSON document, as [json.load] returns it and [json.dump]
    takes it. *)
#[local] Unset Elimination Schemes.
Inductive json :=
| JNull
| JBool (b : bool)
| JInt (n : Z)
| JFloat (x : float)
| JStr (s : string)
| JArr (items : list json)
| JObj (fields : list (string * json)).
#[local] Set Elimination Schemes.

(** [d.get(k)] on a parsed object: the last binding of a key wins. *)
Fixpoint obj_get (k : string) (fields : list (string * json)) : option json :=
  match fields with
  | [] => None
  | (k', v) :: rest =>
      match obj_get k rest with
      | Some v' => Some v'
      | None => if String.eqb k k' then Some v else None
      end
  end.

Definition result_bind {A B} (f : A -> result B) (r : result A) : result B :=
  match r with Ok a => f a | Raise e => Raise e end.

#[global] Instance result_ret : MRet result := fun _ a => Ok a.
#[global] Instance result_mbind : MBind result := fun _ _ f r => result_bind f r.
#[global] Instance result_fmap : FMap result :=
  fun _ _ f r => match r with Ok a => Ok (f a) | Raise e => Raise e end.

Fixpoint result_mapM {A B} (f : A -> result B) (l : list A) : result (list B) :=
  match l with
  | [] => Ok []
  | a :: r => b ← f a; bs ← result_mapM f r; Ok (b :: bs)
  end.

Module Pydantic.

Definition validation_error (what : string) : exn :=
  mk_exn ValidationError what.

(** *** [model_dump(mode="json")]

    Enums are written as their values, paths as their [str()] form,
    [None] as [null]; a [float] is written as a JSON number and carried
    as the binary64 value it is ([json.dump] writes a float so that
    [json.load] reads the same float back). *)

Definition FilmStyle_value (s : FilmStyle) : string :=
  match s with
  | CINEMATIC => "cinematic" | NOIR => "noir" | ANIME => "anime"
  | DOCUMENTARY => "documentary" | SCIFI => "scifi" | FANTASY => "fantasy"
  | HORROR => "horror" | COMEDY => "comedy"
  end.

Definition MusicVibe_value (m : MusicVibe) : string :=
  match m with
  | EPIC => "epic" | SUSPENSEFUL => "suspenseful" | CALM => "calm"
  | UPBEAT => "upbeat" | DARK => "dark" | WHIMSICAL => "whimsical"
  | NONE => "none"
  end.

Definition VideoProvider_value (p : VideoProvider) : string :=
  match p with OPENAI => "openai" | GEMINI => "gemini" end.

Definition ClipStatus_value (s : ClipStatus) : string :=
  match s with
  | PENDING => "pending" | GENERATING => "generating"
  | COMPLETED => "completed" | FAILED => "failed"
  end.

Definition dump_opt_str (o : option string) : json :=
  match o with None => JNull | Some s => JStr s end.

Definition dump_VideoClip (c : VideoClip) : json :=
  JObj [ ("index", JInt (index c));
         ("status", JStr (ClipStatus_value (status c)));
         ("prompt", JStr (prompt c));
         ("start_image_path", dump_opt_str (start_image_path c));
         ("output_path", dump_opt_str (output_path c));
         ("last_frame_path", dump_opt_str (last_frame_path c));
         ("duration", JFloat (duration c));
         ("error", dump_opt_str (error c)) ].

Definition dump_FilmConfig (c : FilmConfig) : json :=
  JObj [ ("premise", JStr (premise c));
         ("style", JStr (FilmStyle_value (style c)));
         ("music_vibe", JStr (MusicVibe_value (music_vibe c)));
         ("target_duration", JFloat (target_duration c));
         ("clip_duration", JFloat (clip_duration c));
         ("provider", JStr (VideoProvider_value (provider c)));
         ("openai_api_key", dump_opt_str (openai_api_key c));
         ("gemini_api_key", dump_opt_str (gemini_api_key c)) ].

Definition model_dump (s : FilmState) : json :=
  JObj [ ("config", dump_FilmConfig (config s));
         ("output_dir", JStr (output_dir s));
         ("starting_frame_path", dump_opt_str (starting_frame_path s));
         ("clips", JArr (map dump_VideoClip (clips s)));
         ("final_video_path", dump_opt_str (final_video_path s));
         ("completed", JBool (completed s)) ].

(** *** [model_validate]

    Each field accepts the JSON type its annotation names; the further
    coercions of pydantic's lax mode (a numeric string for an [int], an
    [int] for a [float], ...) are rejected here.  A key that is missing
    takes the default of the field when it has one; unknown keys are
    ignored. *)

Definition FilmStyle_of (s : string) : result FilmStyle :=
  if String.eqb s "cinematic" then Ok CINEMATIC
  else if String.eqb s "noir" then Ok NOIR
  else if String.eqb s "anime" then Ok ANIME
  else if String.eqb s "documentary" then Ok DOCUMENTARY
  else if String.eqb s "scifi" then Ok SCIFI
  else if String.eqb s "fantasy" then Ok FANTASY
  else if String.eqb s "horror" then Ok HORROR
  else if String.eqb s "comedy" then Ok COMEDY
  else Raise (validation_error "style").

Definition MusicVibe_of (s : string) : result MusicVibe :=
  if String.eqb s "epic" then Ok EPIC
  else if String.eqb s "suspenseful" then Ok SUSPENSEFUL
  else if String.eqb s "calm" then Ok CALM
  else if String.eqb s "upbeat" then Ok UPBEAT
  else if String.eqb s "dark" then Ok DARK
  else if String.eqb s "whimsical" then Ok WHIMSICAL
  else if String.eqb s "none" then Ok NONE
  else Raise (validation_error "music_vibe").

Definition VideoProvider_of (s : string) : result VideoProvider :=
  if String.eqb s "openai" then Ok OPENAI
  else if String.eqb s "gemini" then Ok GEMINI
  else Raise (validation_error "provider").

Definition ClipStatus_of (s : string) : result ClipStatus :=
  if String.eqb s "pending" then Ok PENDING
  else if String.eqb s "generating" then Ok GENERATING
  else if String.eqb s "completed" then Ok COMPLETED
  else if String.eqb s "failed" then Ok FAILED
  else Raise (validation_error "status").

Definition as_str (what : string) (j : json) : result string :=
  match j with JStr s => Ok s | _ => Raise (validation_error what) end.
Definition as_int (what : string) (j : json) : result Z :=
  match j with JInt n => Ok n | _ => Raise (validation_error what) end.
Definition as_float (what : string) (j : json) : result float :=
  match j with JFloat x => Ok x | _ => Raise (validation_error what) end.
Definition as_bool (what : string) (j : json) : result bool :=
  match j with JBool b => Ok b | _ => Raise (validation_error what) end.

(** A required field. *)
Definition required {A} (v : string -> json -> result A)
    (k : string) (fields : list (string * json)) : result A :=
  match obj_get k fields with
  | Some j => v k j
  | None => Raise (validation_error k)
  end.

(** A field with a default. *)
Definition defaulted {A} (v : string -> json -> result A) (d : A)
    (k : string) (fields : list (string * json)) : result A :=
  match obj_get k fields with
  | Some j => v k j
  | None => Ok d
  end.

(** An [Optional[...] = None] field. *)
Definition optional {A} (v : string -> json -> result A)
    (k : string) (fields : list (string * json)) : result (option A) :=
  match obj_get k fields with
  | None | Some JNull => Ok None
  | Some j => a ← v k j; Ok (Some a)
  end.

Definition as_enum {A} (parse : string -> result A) (what : string) (j : json)
  : result A :=
  s ← as_str what j; parse s.

Definition validate_VideoClip (j : json) : result VideoClip :=
  match j with
  | JObj f =>
      index ← required as_int "index" f;
      status ← defaulted (as_enum ClipStatus_of) PENDING "status" f;
      prompt ← required as_str "prompt" f;
      start_image_path ← optional as_str "start_image_path" f;
      output_path ← optional as_str "output_path" f;
      last_frame_path ← optional as_str "last_frame_path" f;
      duration ← defaulted as_float 10%float "duration" f;
      error ← optional as_str "error" f;
      Ok (mkVideoClip index status prompt start_image_path output_path
                      last_frame_path duration error)
  | _ => Raise (validation_error "clip")
  end.

Definition validate_FilmConfig (what : string) (j : json) : result FilmConfig :=
  match j with
  | JObj f =>
      premise ← required as_str "premise" f;
      style ← required (as_enum FilmStyle_of) "style" f;
      music_vibe ← required (as_enum MusicVibe_of) "music_vibe" f;
      target_duration ← defaulted as_float 60%float "target_duration" f;
      clip_duration ← defaulted as_float 10%float "clip_duration" f;
      provider ← defaulted (as_enum VideoProvider_of) OPENAI "provider" f;
      openai_api_key ← optional as_str "openai_api_key" f;
      gemini_api_key ← optional as_str "gemini_api_key" f;
      Ok (mkFilmConfig premise style music_vibe target_duration clip_duration
                       provider openai_api_key gemini_api_key)
  | _ => Raise (validation_error what)
  end.

Definition as_clips (what : string) (j : json) : result (list VideoClip) :=
  match j with
  | JArr items => result_mapM validate_VideoClip items
  | _ => Raise (validation_error what)
  end.

Definition model_validate (j : json) : result FilmState :=
  match j with
  | JObj f =>
      config ← required validate_FilmConfig "config" f;
      output_dir ← required as_str "output_dir" f;
      starting_frame_path ← optional as_str "starting_frame_path" f;
      clips ← defaulted as_clips [] "clips" f;
      final_video_path ← optional as_str "final_video_path" f;
      completed ← defaulted as_bool false "completed" f;
      Ok (mkFilmState config output_dir starting_frame_path clips
                      final_video_path completed)
  | _ => Raise (validation_error "state")
  end.

End Pydantic.

(** ** The world outside the process *)

(** What a path of the file system holds: a media artefact (image or
    video), a JSON text, ffmpeg's list of inputs, or a directory. *)
Inductive content :=
| Media
| Document (j : json)
| ConcatList (videos : list Path)
| Directory.

(** What the process does to the outside, in order: the calls to the
    collaborators and two of the console messages of the clip loop,
    [ClipAttempt i] for [progress.update(task, description="Generating
    clip {i + 1}/{total_clips}...")], which precedes every call of
    [generate_clip], and [ClipFailureNotice i msg] for the warning
    [Clip {i + 1} failed: {e}] of the [except] branch. *)
Inductive event :=
| ImageRequest (prompt api_key : string) (out : Path)
| VideoRequest (backend : VideoProvider) (prompt api_key : string) (out : Path)
               (start_image : option Path) (duration : float)
| FrameExtraction (video out : Path)
| Concatenation (videos : list Path) (out : Path)
| ClipAttempt (i : nat)
| ClipFailureNotice (i : nat) (msg : string).

(** The file system lists every path that exists, directories
    included. *)
Record World := mkWorld {
  fs : gmap string content;
  log : list event }.

Definition path_exists (w : World) (p : Path) : bool :=
  match fs w !! p with Some _ => true | None => false end.

Definition write_file (p : Path) (c : content) (w : World) : World :=
  mkWorld (<[p := c]> (fs w)) (log w).

Definition unlink (p : Path) (w : World) : World :=
  mkWorld (delete p (fs w)) (log w).

(** A directory at [p] if nothing is there. *)
Definition touch_dir (p : Path) (files : gmap string content) : gmap string content :=
  match files !! p with
  | Some _ => files
  | None => <[p := Directory]> files
  end.

(** [p.mkdir(parents=True, exist_ok=True)]: the directory [p] and every
    directory above it that is missing. *)
Definition mkdir_parents (p : Path) (w : World) : World :=
  mkWorld (foldr touch_dir (fs w) (dir_chain p)) (log w).

Definition record (e : event) (w : World) : World :=
  mkWorld (fs w) (log w ++ [e]).

(** The events of a run that started in [w] and ended in [w']. *)
Definition new_events (w w' : World) : list event :=
  drop (length (log w)) (log w').

Inductive outcome :=
| Succeeds
| Fails (e : exn).

(** The collaborators.  One call of [image_backend] or [video_backend]
    stands for one call of the decorated function, retries included.
    The back ends and the frame extractor write their output as the last
    thing they do, so a call of theirs that fails has written nothing;
    ffmpeg, which runs with [-y], may have written to its output before it
    fails, and [ffmpeg_leaves_output] tells whether it has. *)
Record Collaborators := mkCollaborators {
  image_backend : World -> string -> string -> Path -> outcome;
  video_backend : World -> VideoProvider -> string -> string -> Path ->
                  option Path -> float -> outcome;
  frame_extractor : World -> Path -> Path -> outcome;
  ffmpeg_installed : World -> bool;
  ffmpeg_concat : World -> list Path -> Path -> outcome;
  ffmpeg_leaves_output : World -> list Path -> Path -> bool }.

(** ** state.py *)

Module StateManager.

Record t := mk { output_dir : Path; state_file : Path }.

Definition __init__ (output_dir : Path) : t :=
  mk output_dir (joinpath output_dir "state.json").

Definition save (self : t) (state : FilmState) (w : World) : World :=
  let w := mkdir_parents (output_dir self) w in
  let state_dict := Pydantic.model_dump state in
  write_file (state_file self) (Document state_dict) w.

(** A state file that holds no JSON text stops [open] or [json.load]:
    ffmpeg's list of inputs begins with [file] and is no JSON value; a
    media file is not UTF-8 text (the message names the offending byte,
    which the world does not hold, and is cut short here); a directory
    cannot be opened. *)
Definition load (self : t) (w : World) : result (option FilmState) :=
  match fs w !! state_file self with
  | None => Ok None
  | Some (ConcatList _) =>
      Raise (mk_exn JSONDecodeError "Expecting value: line 1 column 1 (char 0)")
  | Some Media =>
      Raise (mk_exn UnicodeDecodeError "'utf-8' codec can't decode byte")
  | Some Directory =>
      Raise (mk_exn IsADirectoryError
               ("[Errno 21] Is a directory: " +:+ py_repr (state_file self)))
  | Some (Document state_dict) =>
      state ← Pydantic.model_validate state_dict; Ok (Some state)
  end.

Definition clear (self : t) (w : World) : World :=
  if path_exists w (state_file self) then unlink (state_file self) w else w.

End StateManager.

(** ** image_gen.py *)

Definition create_image_prompt (premise : string) (style : FilmStyle) : string :=
  let style_desc :=
    match style with
    | CINEMATIC => "cinematic, dramatic lighting, film grain, anamorphic lens"
    | NOIR => "film noir, high contrast black and white, dramatic shadows"
    | ANIME => "anime style, vibrant colors, detailed illustration"
    | DOCUMENTARY => "documentary style, realistic, natural lighting"
    | SCIFI => "sci-fi, futuristic, neon lights, high tech"
    | FANTASY => "fantasy, magical, ethereal, dramatic"
    | HORROR => "horror, dark, ominous, unsettling atmosphere"
    | COMEDY => "bright, colorful, whimsical, fun"
    end in
  premise +:+ ". " +:+ style_desc
    +:+ ". Opening shot, establishing scene. High quality, detailed.".

Section Collaborating.

Context (env : Collaborators).

Definition generate_image_openai (prompt api_key : string) (output_path : Path)
    (w : World) : result Path * World :=
  let w1 := record (ImageRequest prompt api_key output_path) w in
  match image_backend env w prompt api_key output_path with
  | Succeeds =>
      (Ok output_path, write_file output_path Media (mkdir_parents (parent output_path) w1))
  | Fails e => (Raise e, w1)
  end.

Definition generate_starting_frame (config : FilmConfig) (output_path : Path)
    (w : World) : result Path * World :=
  match openai_api_key config with
  | Some api_key =>
      if str_truthy api_key then
        let prompt := create_image_prompt (premise config) (style config) in
        generate_image_openai prompt api_key output_path w
      else (Raise (mk_exn ValueError "OpenAI API key required for image generation"), w)
  | None => (Raise (mk_exn ValueError "OpenAI API key required for image generation"), w)
  end.

(** ** video_gen.py *)

Definition extract_last_frame (video_path output_path : Path) (w : World)
  : result Path * World :=
  let w1 := record (FrameExtraction video_path output_path) w in
  match frame_extractor env w video_path output_path with
  | Succeeds =>
      (Ok output_path, write_file output_path Media (mkdir_parents (parent output_path) w1))
  | Fails e => (Raise e, w1)
  end.

(** [generate_video_openai] and [generate_video_gemini] differ in the
    service they call only. *)
Definition generate_video (backend : VideoProvider) (prompt api_key : string)
    (output_path : Path) (start_image_path : option Path) (duration : float)
    (w : World) : result Path * World :=
  let w1 := record (VideoRequest backend prompt api_key output_path
                                 start_image_path duration) w in
  match video_backend env w backend prompt api_key output_path
                      start_image_path duration with
  | Succeeds =>
      (Ok output_path, write_file output_path Media (mkdir_parents (parent output_path) w1))
  | Fails e => (Raise e, w1)
  end.

Definition generate_video_openai := generate_video OPENAI.
Definition generate_video_gemini := generate_video GEMINI.

(** The choice of [generate_fn] and [api_key], or the [ValueError] of a
    missing key. *)
Definition select_backend (config : FilmConfig)
  : result ((string -> string -> Path -> option Path -> float -> World ->
             result Path * World) * string) :=
  match provider config with
  | OPENAI =>
      match openai_api_key config with
      | Some k => if str_truthy k then Ok (generate_video_openai, k)
                  else Raise (mk_exn ValueError "OpenAI API key required")
      | None => Raise (mk_exn ValueError "OpenAI API key required")
      end
  | GEMINI =>
      match gemini_api_key config with
      | Some k => if str_truthy k then Ok (generate_video_gemini, k)
                  else Raise (mk_exn ValueError "Gemini API key required")
      | None => Raise (mk_exn ValueError "Gemini API key required")
      end
  end.

(** [generate_clip] mutates the clip it is given and returns that same
    object.  The caller keeps a reference to the object, so the
    embedding returns its final contents on the raising paths too. *)
Definition generate_clip (clip : VideoClip) (config : FilmConfig)
    (total_clips : Z) (w : World) : result unit * VideoClip * World :=
  match select_backend config with
  | Raise e => (Raise e, clip, w)
  | Ok (generate_fn, api_key) =>
      (* try: *)
      match output_path clip with
      | None =>
          let e := mk_exn TypeError
                     "expected str, bytes or os.PathLike object, not NoneType" in
          (Raise e, set_error (Some (exn_str e)) clip, w)
      | Some out =>
          match generate_fn (prompt clip) api_key out (start_image_path clip)
                            (duration clip) w with
          | (Raise e, w1) => (Raise e, set_error (Some (exn_str e)) clip, w1)
          | (Ok output_path, w1) =>
              let clip := set_output_path (Some output_path) clip in
              if index clip <? total_clips - 1 then
                let last_frame_path :=
                  joinpath (parent output_path)
                           ("clip_" +:+ str_int (index clip) +:+ "_last_frame.png") in
                match extract_last_frame output_path last_frame_path w1 with
                | (Raise e, w2) => (Raise e, set_error (Some (exn_str e)) clip, w2)
                | (Ok frame, w2) => (Ok tt, set_last_frame_path (Some frame) clip, w2)
                end
              else (Ok tt, clip, w1)
          end
      end
  end.

(** ** stitcher.py *)

Definition check_ffmpeg (w : World) : bool := ffmpeg_installed env w.

Definition ffmpeg_required : string :=
  "ffmpeg is required for video stitching. "
  +:+ "Install with: sudo dnf install ffmpeg (Amazon Linux) "
  +:+ "or brew install ffmpeg (macOS) "
  +:+ "or apt install ffmpeg (Ubuntu)".

(** The orchestrator never passes [music_path]; the branch that mixes an
    audio track is left out.  The list file exists when the [finally]
    clause tests for it, so the clause removes it. *)
Definition stitch_videos (video_paths : list Path) (output_path : Path)
    (w : World) : result Path * World :=
  if negb (check_ffmpeg w) then (Raise (mk_exn RuntimeError ffmpeg_required), w)
  else
    match video_paths with
    | [] => (Raise (mk_exn ValueError "No video clips to stitch"), w)
    | _ :: _ =>
        let w0 := mkdir_parents (parent output_path) w in
        let concat_file := joinpath (parent output_path) "concat_list.txt" in
        let w1 := write_file concat_file (ConcatList video_paths) w0 in
        let w2 := record (Concatenation video_paths output_path) w1 in
        match ffmpeg_concat env w1 video_paths output_path with
        | Succeeds =>
            (Ok output_path, unlink concat_file (write_file output_path Media w2))
        | Fails e =>
            let w3 :=
              if ffmpeg_leaves_output env w1 video_paths output_path
              then write_file output_path Media w2 else w2 in
            (Raise e, unlink concat_file w3)
        end
    end.

End Collaborating.

(** ** generator.py *)

(** [a / b] on floats. *)
Definition py_truediv (a b : float) : result float :=
  if (b =? 0)%float then Raise (mk_exn ZeroDivisionError "float division by zero")
  else Ok (a / b)%float.

(** [math.ceil]: the least integer not below the value [(-1)^s * m * 2^e]
    of a finite float. *)
Definition math_ceil (x : float) : result Z :=
  match Prim2SF x with
  | S754_zero _ => Ok 0
  | S754_finite s m e =>
      let sm := if s then Z.neg m else Z.pos m in
      Ok (if 0 <=? e then sm * 2 ^ e else - ((- sm) / 2 ^ (- e)))
  | S754_infinity _ =>
      Raise (mk_exn OverflowError "cannot convert float infinity to integer")
  | S754_nan => Raise (mk_exn ValueError "cannot convert float NaN to integer")
  end.

(** [range(n)] as positions of a list. *)
Definition py_range (n : Z) : list nat := seq 0 (Z.to_nat n).

Module FilmGenerator.

Record t := mk {
  config : FilmConfig;
  output_dir : Path;
  state_manager : StateManager.t;
  state : FilmState }.

Definition set_state (s : FilmState) (self : t) : t :=
  mk (config self) (output_dir self) (state_manager self) s.

Definition _create_new_state (config : FilmConfig) (output_dir : Path)
  : result FilmState :=
  q ← py_truediv (target_duration config) (clip_duration config);
  num_clips ← math_ceil q;
  let clips :=
    map (fun i : nat =>
           mkVideoClip (Z.of_nat i) PENDING "" None
             (Some (joinpath output_dir
                      ("clip_" +:+ str_int (Z.of_nat i) +:+ ".mp4")))
             None (clip_duration config) None)
        (py_range num_clips) in
  Ok (mkFilmState config output_dir None clips None false).

Definition __init__ (config : FilmConfig) (output_dir : Path) (resume : bool)
    (w : World) : result t :=
  let state_manager := StateManager.__init__ output_dir in
  if resume then
    existing_state ← StateManager.load state_manager w;
    match existing_state with
    | Some existing_state =>
        Ok (mk config output_dir state_manager (set_config config existing_state))
    | None =>
        state ← _create_new_state config output_dir;
        Ok (mk config output_dir state_manager state)
    end
  else
    state ← _create_new_state config output_dir;
    Ok (mk config output_dir state_manager state).

Definition _save_state (self : t) (w : World) : World :=
  StateManager.save (state_manager self) (state self) w.

(** The list comprehension of [_stitch_clips]. *)
Definition completed_clips (st : FilmState) : list Path :=
  flat_map (fun clip =>
              match status clip, output_path clip with
              | COMPLETED, Some p => [p]
              | _, _ => []
              end) (clips st).

(** The skip test of the clip loop. *)
Definition already_completed (clip : VideoClip) (w : World) : bool :=
  status_eqb (status clip) COMPLETED &&
  match output_path clip with
  | Some p => path_exists w p
  | None => false
  end.

Section Run.

Context (env : Collaborators).

Definition _generate_starting_frame (self : t) (w : World)
  : result unit * t * World :=
  let output_path := joinpath (output_dir self) "starting_frame.png" in
  match generate_starting_frame env (config self) output_path w with
  | (Ok starting_frame, w1) =>
      (Ok tt, set_state (set_starting_frame_path (Some starting_frame) (state self)) self, w1)
  | (Raise e, w1) => (Raise e, self, w1)
  end.

(** One turn of [for i, clip in enumerate(self.state.clips)].  The
    prompt is built before the [try] statement: an exception of
    [create_video_prompt] leaves the loop, with the clip, the state and
    the checkpoint as they were. *)
Definition clip_iteration (total_clips : Z) (i : nat) (self : t) (w : World)
  : result unit * t * World :=
  match clips (state self) !! i with
  | None => (Ok tt, self, w)
  | Some clip =>
      if already_completed clip w then (Ok tt, self, w)
      else
        match (if str_truthy (prompt clip) then Ok clip
               else
                 match create_video_prompt (premise (config self))
                                           (index clip) total_clips with
                 | Ok prompt => Ok (set_prompt prompt clip)
                 | Raise e => Raise e
                 end) with
        | Raise e => (Raise e, self, w)
        | Ok clip =>
            let clip :=
              match i with
              | O => set_start_image_path (starting_frame_path (state self)) clip
              | S j =>
                  match clips (state self) !! j with
                  | Some prev_clip =>
                      match last_frame_path prev_clip with
                      | Some frame => set_start_image_path (Some frame) clip
                      | None => clip
                      end
                  | None => clip
                  end
              end in
            let clip := set_status GENERATING clip in
            let w := record (ClipAttempt i) w in
            let '(r, clip, w) := generate_clip env clip (config self) total_clips w in
            let '(clip, w) :=
              match r with
              | Ok _ => (set_status COMPLETED clip, w)
              | Raise e =>
                  (set_error (Some (exn_str e)) (set_status FAILED clip),
                   record (ClipFailureNotice i (exn_str e)) w)
              end in
            let self := set_state (set_clips (<[i := clip]> (clips (state self)))
                                             (state self)) self in
            (Ok tt, self, _save_state self w)
        end
  end.

Fixpoint clips_loop (total_clips : Z) (positions : list nat) (self : t)
    (w : World) : result unit * t * World :=
  match positions with
  | [] => (Ok tt, self, w)
  | i :: rest =>
      match clip_iteration total_clips i self w with
      | (Ok _, self, w) => clips_loop total_clips rest self w
      | (Raise e, self, w) => (Raise e, self, w)
      end
  end.

Definition _generate_clips (self : t) (w : World) : result unit * t * World :=
  let total_clips := length (clips (state self)) in
  clips_loop (Z.of_nat total_clips) (seq 0 total_clips) self w.

Definition _stitch_clips (self : t) (w : World) : result Path * World :=
  match completed_clips (state self) with
  | [] => (Raise (mk_exn GenericException "No completed clips to stitch"), w)
  | paths =>
      let final_output := joinpath (output_dir self) "final_film.mp4" in
      stitch_videos env paths final_output w
  end.

(** Step 1 of [generate]. *)
Definition starting_frame_step (self : t) (w : World) : result unit * t * World :=
  match starting_frame_path (state self) with
  | None =>
      match _generate_starting_frame self w with
      | (Ok _, self, w) => (Ok tt, self, _save_state self w)
      | (Raise e, self, w) => (Raise e, self, w)
      end
  | Some _ => (Ok tt, self, w)
  end.

Definition generate (self : t) (w : World) : result Path * t * World :=
  (* try: *)
  match starting_frame_step self w with
  | (Raise e, self, w) => (Raise e, self, _save_state self w)
  | (Ok _, self, w) =>
      match _generate_clips self w with
      | (Raise e, self, w) => (Raise e, self, _save_state self w)
      | (Ok _, self, w) =>
          match _stitch_clips self w with
          | (Raise e, w) => (Raise e, self, _save_state self w)
          | (Ok final_video, w) =>
              let self :=
                set_state (set_completed true
                             (set_final_video_path (Some final_video) (state self)))
                          self in
              (Ok final_video, self, _save_state self w)
          end
      end
  end.

End Run.

End FilmGenerator.

(** ** config.py *)

Module Config.

(** [os.environ] is a map from names to values. *)
Definition load_api_keys (environ : gmap string string)
  : option string * option string :=
  let openai_key := environ !! "OPENAI_API_KEY" in
  let gemini_key := environ !! "GEMINI_API_KEY" in
  (openai_key, gemini_key).

(** The [ValueError] of calling an enum class on a string that is not one
    of its values: [%r is not a valid %s] of the value and the name of
    the class. *)
Definition not_a_valid (value cls : string) : exn :=
  mk_exn ValueError (py_repr value +:+ " is not a valid " +:+ cls).

(** [FilmStyle(style)], [MusicVibe(music_vibe)], [VideoProvider(provider)]:
    the member with that value. *)
Definition FilmStyle_call (value : string) : result FilmStyle :=
  match Pydantic.FilmStyle_of value with
  | Ok member => Ok member
  | Raise _ => Raise (not_a_valid value "FilmStyle")
  end.

Definition MusicVibe_call (value : string) : result MusicVibe :=
  match Pydantic.MusicVibe_of value with
  | Ok member => Ok member
  | Raise _ => Raise (not_a_valid value "MusicVibe")
  end.

Definition VideoProvider_call (value : string) : result VideoProvider :=
  match Pydantic.VideoProvider_of value with
  | Ok member => Ok member
  | Raise _ => Raise (not_a_valid value "VideoProvider")
  end.

(** [clip_duration] is not passed and takes the default of the model. *)
Definition create_film_config (environ : gmap string string)
    (premise style music_vibe provider : string) (target_duration : float)
  : result FilmConfig :=
  let '(openai_key, gemini_key) := load_api_keys environ in
  style ← FilmStyle_call style;
  music_vibe ← MusicVibe_call music_vibe;
  provider ← VideoProvider_call provider;
  Ok (mkFilmConfig premise style music_vibe target_duration 10 provider
                   openai_key gemini_key).

End Config.

(** ** Vocabulary of the statements *)

(** Every file of [w] is a file of [w']. *)
Definition fs_le (w w' : World) : Prop :=
  forall p, path_exists w p = true -> path_exists w' p = true.

(** A request to a video back end or to the frame extractor. *)
Definition backend_event (e : event) : Prop :=
  match e with
  | VideoRequest _ _ _ _ _ _ | FrameExtraction _ _ => True
  | _ => False
  end.

(** A network-like call: a request to the image or to a video service. *)
Definition network_call (e : event) : Prop :=
  match e with
  | ImageRequest _ _ _ | VideoRequest _ _ _ _ _ _ => True
  | _ => False
  end.

(** An event the clip loop can produce while it works on one of the
    positions [ps]. *)
Definition loop_event (ps : list nat) (e : event) : Prop :=
  match e with
  | VideoRequest _ _ _ _ _ _ | FrameExtraction _ _ => True
  | ClipAttempt j | ClipFailureNotice j _ => j ∈ ps
  | _ => False
  end.

(** The seed image the loop gives the clip [clip] at position [i]. *)
Definition seed_image (i : nat) (st : FilmState) (clip : VideoClip) : option Path :=
  match i with
  | O => starting_frame_path st
  | S j =>
      match clips st !! j with
      | Some prev_clip =>
          match last_frame_path prev_clip with
          | Some frame => Some frame
          | None => start_image_path clip
          end
      | None => start_image_path clip
      end
  end.

(** The credential of the selected provider is absent ([None] or empty). *)
Definition credential_absent (config : FilmConfig) : Prop :=
  match provider config with
  | OPENAI => opt_str_truthy (openai_api_key config) = false
  | GEMINI => opt_str_truthy (gemini_api_key config) = false
  end.

(** The message of the [ValueError] that [generate_clip] raises for the
    missing key of the selected provider. *)
Definition missing_key_message (config : FilmConfig) : string :=
  match provider config with
  | OPENAI => "OpenAI API key required"
  | GEMINI => "Gemini API key required"
  end.

(** The loop over the positions before [i]: when it ends with [Ok], the
    state and the world in which the clip loop comes to position [i]. *)
Definition loop_reaches (env : Collaborators) (i : nat)
    (self : FilmGenerator.t) (w : World) : result unit * FilmGenerator.t * World :=
  FilmGenerator.clips_loop env
    (Z.of_nat (length (clips (FilmGenerator.state self)))) (seq 0 i) self w.

(** The clip as the loop hands it to [generate_clip]: prompt assigned if it
    was empty, seed image set, status [GENERATING]; or the exception of
    [create_video_prompt]. *)
Definition prepared_clip (total_clips : Z) (i : nat) (self : FilmGenerator.t)
    (clip : VideoClip) : result VideoClip :=
  match (if str_truthy (prompt clip) then Ok clip
         else
           match create_video_prompt (premise (FilmGenerator.config self))
                                     (index clip) total_clips with
           | Ok prompt => Ok (set_prompt prompt clip)
           | Raise e => Raise e
           end) with
  | Raise e => Raise e
  | Ok clip =>
      let clip :=
        match i with
        | O => set_start_image_path (starting_frame_path (FilmGenerator.state self)) clip
        | S j =>
            match clips (FilmGenerator.state self) !! j with
            | Some prev_clip =>
                match last_frame_path prev_clip with
                | Some frame => set_start_image_path (Some frame) clip
                | None => clip
                end
            | None => clip
            end
        end in
      Ok (set_status GENERATING clip)
  end.

(** What the loop stores at the position of a clip when the call [call]
    of [generate_clip] for it has ended: the clip the call leaves,
    completed if the call returned, failed with the message of the
    exception if it raised. *)
Definition clip_after_attempt (call : result unit * VideoClip * World) : VideoClip :=
  match call with
  | (Ok _, clip, _) => set_status COMPLETED clip
  | (Raise e, clip, _) => set_error (Some (exn_str e)) (set_status FAILED clip)
  end.

(** The world when the [try] statement around the call has ended, before
    the checkpoint is saved. *)
Definition world_after_attempt (i : nat) (call : result unit * VideoClip * World)
  : World :=
  match call with
  | (Ok _, _, w) => w
  | (Raise e, _, w) => record (ClipFailureNotice i (exn_str e)) w
  end.

(** The clip and the world with which the loop calls [generate_clip] at
    position [i], when it does: the loop has come to the position, the clip
    there is not skipped and its prompt is set or could be built. *)
Definition loop_attempt (env : Collaborators) (i : nat) (self : FilmGenerator.t)
    (w : World) : option (VideoClip * World) :=
  match loop_reaches env i self w with
  | (Ok _, self_i, w_i) =>
      match clips (FilmGenerator.state self_i) !! i with
      | Some clip =>
          if FilmGenerator.already_completed clip w_i then None
          else
            match prepared_clip (Z.of_nat (length (clips (FilmGenerator.state self))))
                                i self_i clip with
            | Ok arg => Some (arg, record (ClipAttempt i) w_i)
            | Raise _ => None
            end
      | None => None
      end
  | (Raise _, _, _) => None
  end.

(** The call of [generate_clip] that the loop makes at position [i]. *)
Definition loop_call (env : Collaborators) (i : nat) (self : FilmGenerator.t)
    (w : World) : option (result unit * VideoClip * World) :=
  match loop_attempt env i self w with
  | Some (arg, w_i) =>
      Some (generate_clip env arg (FilmGenerator.config self)
              (Z.of_nat (length (clips (FilmGenerator.state self)))) w_i)
  | None => None
  end.

(** The state [self'] and the world [w'] come after the call [call] for
    position [i]: the state holds the outcome of the call at [i], the files
    the call left are there, and the log goes on from the log of the
    call. *)
Definition records_call (i : nat) (call : result unit * VideoClip * World)
    (self' : FilmGenerator.t) (w' : World) : Prop :=
  clips (FilmGenerator.state self') !! i = Some (clip_after_attempt call)
  /\ fs_le call.2 w'
  /\ exists rest, log w' = log call.2 ++ rest.

(** The loop generates the clip at position [i]: it calls [generate_clip]
    for it, and the state and the world it ends with come after that
    call. *)
Definition generated_by_loop (env : Collaborators) (i : nat) (self : FilmGenerator.t)
    (w : World) : Prop :=
  exists call,
    loop_call env i self w = Some call
    /\ records_call i call (FilmGenerator._generate_clips env self w).1.2
                     (FilmGenerator._generate_clips env self w).2.

(** The generator after [self.state.clips[i] = clip]. *)
Definition with_clip (i : nat) (clip : VideoClip) (self : FilmGenerator.t)
  : FilmGenerator.t :=
  FilmGenerator.set_state
    (set_clips (<[i := clip]> (clips (FilmGenerator.state self)))
               (FilmGenerator.state self)) self.

(** [self'] differs from [self] in the contents of the clip list at most:
    same generator fields, same state fields, same number of clips. *)
Definition clips_only (self self' : FilmGenerator.t) : Prop :=
  exists l,
    self' = FilmGenerator.set_state (set_clips l (FilmGenerator.state self)) self
    /\ length l = length (clips (FilmGenerator.state self)).

(** The test of the filter of [_stitch_clips] on the status. *)
Definition is_completed (clip : VideoClip) : bool :=
  status_eqb (status clip) COMPLETED.

(** An event of the first or of the last stage of [generate]. *)
Definition stage_event (e : event) : Prop :=
  match e with
  | ImageRequest _ _ _ | Concatenation _ _ => True
  | _ => False
  end.

(** One of the two console messages of the clip loop. *)
Definition console_event (e : event) : Prop :=
  match e with
  | ClipAttempt _ | ClipFailureNotice _ _ => True
  | _ => False
  end.

(** The positions for which the clip loop announced an attempt, in the
    order of the announcements. *)
Fixpoint attempted (evs : list event) : list nat :=
  match evs with
  | [] => []
  | ClipAttempt i :: rest => i :: attempted rest
  | _ :: rest => attempted rest
  end.

(** The number of requests to a video back end among [evs]. *)
Fixpoint video_requests (evs : list event) : nat :=
  match evs with
  | [] => O
  | VideoRequest _ _ _ _ _ _ :: rest => S (video_requests rest)
  | _ :: rest => video_requests rest
  end.

(** The last character of a string. *)
Fixpoint str_last (s : string) : option ascii :=
  match s with
  | EmptyString => None
  | String c EmptyString => Some c
  | String _ rest => str_last rest
  end.



(** The clip has a prompt, or [create_video_prompt] returns one for it. *)
Definition prompt_at_hand (premise : string) (n : Z) (clip : VideoClip) : Prop :=
  str_truthy (prompt clip) = true
  \/ exists text, create_video_prompt premise (index clip) n = Ok text.

(** Every collaborator answers every call with success. *)
Definition always_succeeds (env : Collaborators) : Prop :=
  (forall w prompt key out, image_backend env w prompt key out = Succeeds)
  /\ (forall w b prompt key out seed d,
        video_backend env w b prompt key out seed d = Succeeds)
  /\ (forall w video out, frame_extractor env w video out = Succeeds)
  /\ (forall w, ffmpeg_installed env w = true)
  /\ (forall w videos out, ffmpeg_concat env w videos out = Succeeds).

(** The key of the selected provider, as the config holds it. *)
Definition selected_key (config : FilmConfig) : option string :=
  match provider config with
  | OPENAI => openai_api_key config
  | GEMINI => gemini_api_key config
  end.

(** The file in which [generate_clip] stores the last frame of the clip
    with index [i] whose video is [out]. *)
Definition last_frame_file (out : Path) (i : Z) : Path :=
  joinpath (parent out) ("clip_" +:+ str_int i +:+ "_last_frame.png").

(** ** Scenarios *)

Module Scenarios.

(** Every collaborator succeeds. *)
Definition reliable : Collaborators :=
  mkCollaborators (fun _ _ _ _ => Succeeds) (fun _ _ _ _ _ _ _ => Succeeds)
                  (fun _ _ _ => Succeeds) (fun _ => true) (fun _ _ _ => Succeeds)
                  (fun _ _ _ => false).



(** The video service refuses the first clip of the film, always. *)
Definition first_clip_refused : Collaborators :=
  mkCollaborators
    (fun _ _ _ _ => Succeeds)
    (fun _ _ _ _ out _ _ =>
       if String.eqb out "out/clip_0.mp4"
       then Fails (mk_exn GenericException "content policy")
       else Succeeds)
    (fun _ _ _ => Succeeds) (fun _ => true) (fun _ _ _ => Succeeds)
                  (fun _ _ _ => false).

(** The video service refuses the second clip of the film, always. *)
Definition second_clip_refused : Collaborators :=
  mkCollaborators
    (fun _ _ _ _ => Succeeds)
    (fun _ _ _ _ out _ _ =>
       if String.eqb out "out/clip_1.mp4"
       then Fails (mk_exn GenericException "content policy")
       else Succeeds)
    (fun _ _ _ => Succeeds) (fun _ => true) (fun _ _ _ => Succeeds)
                  (fun _ _ _ => false).

(** The video service is down. *)
Definition video_down : Collaborators :=
  mkCollaborators
    (fun _ _ _ _ => Succeeds)
    (fun _ _ _ _ _ _ _ => Fails (mk_exn GenericException "service unavailable"))
    (fun _ _ _ => Succeeds) (fun _ => true) (fun _ _ _ => Succeeds)
                  (fun _ _ _ => false).

(** The working directory exists and is empty; nothing was called. *)
Definition empty_world : World := mkWorld {[ "." := Directory ]} [].

(** A film of [seconds] seconds in clips of ten, with the OpenAI key. *)
Definition openai_config (seconds : float) : FilmConfig :=
  mkFilmConfig "A robot explores" SCIFI EPIC seconds 10 OPENAI (Some "sk-test") None.

(** Gemini selected, its key absent, the OpenAI key present. *)
Definition gemini_without_key : FilmConfig :=
  mkFilmConfig "A robot explores" SCIFI EPIC 10 10 GEMINI (Some "sk-test") None.

(** Gemini selected and its key present, the OpenAI key absent. *)
Definition gemini_only : FilmConfig :=
  mkFilmConfig "A robot explores" SCIFI EPIC 10 10 GEMINI None (Some "g-test").

(** One run of the command: construct the generator over [out], then
    [generate]. *)
Definition run (env : Collaborators) (config : FilmConfig) (w : World)
  : result (result Path * FilmGenerator.t * World) :=
  self ← FilmGenerator.__init__ config "out" true w;
  Ok (FilmGenerator.generate env self w).

(** The world a run leaves behind ([w] itself if the constructor raised). *)
Definition world_after (env : Collaborators) (config : FilmConfig) (w : World)
  : World :=
  match run env config w with
  | Ok (_, _, w') => w'
  | Raise _ => w
  end.

(** A generator resumed from a run whose only clip had failed under an
    older premise. *)
Definition resumed_with_old_prompt : FilmGenerator.t :=
  let config := mkFilmConfig "A new premise" NOIR DARK 10 10 OPENAI (Some "sk-test") None in
  FilmGenerator.mk config "out" (StateManager.__init__ "out")
    (mkFilmState config "out" (Some "out/starting_frame.png")
       [mkVideoClip 0 FAILED "An old premise. Opening scene." None
                    (Some "out/clip_0.mp4") None 10 (Some "service unavailable")]
       None false).

(** The generator of a run over the checkpoint that [w] holds (over an
    empty state if the constructor raises). *)
Definition generator_over (config : FilmConfig) (w : World) : FilmGenerator.t :=
  match FilmGenerator.__init__ config "out" true w with
  | Ok self => self
  | Raise _ =>
      FilmGenerator.mk config "out" (StateManager.__init__ "out")
                       (mkFilmState config "out" None [] None false)
  end.

(** A film of two clips after a first run in which the first clip was
    refused. *)
Definition after_refusal : World :=
  world_after first_clip_refused (openai_config 20) empty_world.


(** A film of two clips after a run in which nothing failed. *)
Definition after_success : World :=
  world_after reliable (openai_config 20) empty_world.

(** ... and the video of its second clip deleted since. *)
Definition second_clip_deleted : World :=
  unlink "out/clip_1.mp4" after_success.

(** ... and the videos of both clips deleted since. *)
Definition both_clips_deleted : World :=
  unlink "out/clip_1.mp4" (unlink "out/clip_0.mp4" after_success).

(** A world that holds the checkpoint [st] of a film in [out] and nothing
    else. *)
Definition checkpoint_of (st : FilmState) : World :=
  StateManager.save (StateManager.__init__ "out") st empty_world.

(** A state file in which the [index] of the second of three clips was
    set to [10^400]; the third clip is recorded as completed. *)
Definition edited_index : FilmState :=
  mkFilmState (openai_config 30) "out" (Some "out/starting_frame.png")
    [mkVideoClip 0 PENDING "" None (Some "out/clip_0.mp4") None 10 None;
     mkVideoClip (10 ^ 400) PENDING "" None (Some "out/clip_1.mp4") None 10 None;
     mkVideoClip 2 COMPLETED
       "A robot explores. Final scene, resolution. Dramatic conclusion."
       None (Some "out/clip_2.mp4") None 10 None]
    None false.

(** The same state file before any clip was generated. *)
Definition edited_index_unfinished : FilmState :=
  mkFilmState (openai_config 30) "out" (Some "out/starting_frame.png")
    [mkVideoClip 0 PENDING "" None (Some "out/clip_0.mp4") None 10 None;
     mkVideoClip (10 ^ 400) PENDING "" None (Some "out/clip_1.mp4") None 10 None;
     mkVideoClip 2 PENDING "" None (Some "out/clip_2.mp4") None 10 None]
    None false.


End Scenarios.


(** * Properties *)

(** ** The prompt of a clip *)

Lemma str_contains_app_r (needle a b : string) :
  str_contains needle b = true -> str_contains needle (a +:+ b) = true.
Proof.
  intros Hb. induction a as [|c a IH]; [exact Hb|].
  change (String c a +:+ b) with (String c (a +:+ b)).
  cbn [str_contains]. rewrite IH. apply orb_true_r.
Qed.

(** A quotient of absolute value at most one is within the floats. *)
Lemma int_truediv_small (a b : Z) :
  b <> 0 -> Z.abs a <= Z.abs b -> int_truediv a b = Ok tt.
Proof.
  intros Hb Hab. unfold int_truediv.
  destruct (Z.eqb_spec b 0) as [|_]; [contradiction|].
  destruct (Z.leb_spec ((2 ^ 1025 - 2 ^ 971) * Z.abs b) (2 * Z.abs a)) as [Hle|_];
    [|reflexivity].
  exfalso.
  assert (H2 : 2 < 2 ^ 1025 - 2 ^ 971) by (vm_compute; reflexivity).
  assert (0 < Z.abs b) by lia. nia.
Qed.

Lemma create_video_prompt_in_range (premise : string) (i n : Z) :
  0 <= i < n -> exists prompt, create_video_prompt premise i n = Ok prompt.
Proof.
  intros Hi. unfold create_video_prompt.
  destruct (i =? 0); [eauto|]. destruct (i =? n - 1); [eauto|].
  rewrite int_truediv_small by lia. eauto.
Qed.

Lemma create_video_prompt_nonempty (premise : string) (i n : Z) (prompt : string) :
  create_video_prompt premise i n = Ok prompt -> str_truthy prompt = true.
Proof.
  assert (H : forall s c t, str_truthy (s +:+ String c t) = true)
    by (intros s c t; destruct s; reflexivity).
  unfold create_video_prompt.
  destruct (i =? 0); [intros [= <-]; apply H|].
  destruct (i =? n - 1); [intros [= <-]; apply H|].
  destruct (int_truediv i n); [intros [= <-]; apply H|discriminate].
Qed.

Example create_video_prompt_middle_of_five :
  create_video_prompt "A robot explores" 2 5
  = Ok "A robot explores. Continuing the story (scene 3). Build tension and progression.".
Proof. vm_compute. reflexivity. Qed.

(** The largest quotient that is still a float, and the first one that is
    not. *)
Example int_truediv_at_the_largest_float :
  int_truediv (2 ^ 1024 - 2 ^ 970 - 1) 1 = Ok tt
  /\ int_truediv (2 ^ 1024 - 2 ^ 970) 1
     = Raise (mk_exn OverflowError "integer division result too large for a float")
  /\ int_truediv (3 * (2 ^ 1024 - 2 ^ 970) - 1) (- 3) = Ok tt.
Proof. vm_compute. repeat split; reflexivity. Qed.

(** C8, as stated, fails for a film of one clip: index 0 is then the last
    index, and the prompt has the opening framing and no final or
    resolution framing.  It also fails where the function does not return:
    for an index that is neither 0 nor the last one, the function first
    divides the index by the total count, and the division raises for an
    index [10^400], which a state file can hold, and for a total of 0. *)
Lemma create_video_prompt_single_clip :
  let p := "A robot explores. Opening scene, establishing shot. Smooth camera movement." in
  (0 = 1 - 1
   /\ create_video_prompt "A robot explores" 0 1 = Ok p
   /\ str_contains "Final" p = false
   /\ str_contains "final" p = false
   /\ str_contains "resolution" p = false)
  /\ create_video_prompt "A robot explores" (10 ^ 400) 3
     = Raise (mk_exn OverflowError "integer division result too large for a float")
  /\ create_video_prompt "A robot explores" 1 0
     = Raise (mk_exn ZeroDivisionError "division by zero").
Proof. vm_compute. repeat split; reflexivity. Qed.

(** C8 (amended).  [create_video_prompt] is a function of the premise, the
    index and the total count alone (it takes no world).  Index 0 gets the
    opening framing; the last index, when it is not 0, gets the final
    framing; every other index of the film, [0 < index < total - 1], gets
    the continuation framing with scene number [index + 1], and for an
    index outside the film that is what the function returns whenever it
    returns.  With three clips, the prompt of clip 0 contains the opening
    marker, that of clip 2 the final marker, and that of clip 1 names
    scene 2. *)
Theorem create_video_prompt_framing (premise : string) (i n : Z) :
  (i = 0 -> create_video_prompt premise i n = Ok (premise +:+ opening_framing))
  /\ (i <> 0 -> i = n - 1 ->
      create_video_prompt premise i n = Ok (premise +:+ final_framing))
  /\ (0 < i < n - 1 ->
      create_video_prompt premise i n
      = Ok (premise +:+ ". Continuing the story (scene " +:+ str_int (i + 1)
                    +:+ "). Build tension and progression."))
  /\ (i <> 0 -> i <> n - 1 ->
      forall prompt,
        create_video_prompt premise i n = Ok prompt ->
        prompt = premise +:+ ". Continuing the story (scene " +:+ str_int (i + 1)
                         +:+ "). Build tension and progression.")
  /\ (exists p0 p1 p2,
        create_video_prompt premise 0 3 = Ok p0
        /\ create_video_prompt premise 1 3 = Ok p1
        /\ create_video_prompt premise 2 3 = Ok p2
        /\ str_contains "Opening scene" p0 = true
        /\ str_contains "Final scene" p2 = true
        /\ str_contains "scene 2" p1 = true).
Proof.
  split; [|split; [|split; [|split]]].
  - intros ->. reflexivity.
  - intros H0 Hl. unfold create_video_prompt.
    apply Z.eqb_neq in H0. rewrite H0.
    apply Z.eqb_eq in Hl. rewrite Hl. reflexivity.
  - intros Hi. unfold create_video_prompt.
    destruct (Z.eqb_spec i 0) as [|_]; [lia|].
    destruct (Z.eqb_spec i (n - 1)) as [|_]; [lia|].
    rewrite int_truediv_small by lia. reflexivity.
  - intros H0 Hl prompt. unfold create_video_prompt.
    apply Z.eqb_neq in H0, Hl. rewrite H0, Hl.
    destruct (int_truediv i n); [|discriminate].
    intros [= <-]. reflexivity.
  - eexists _, _, _.
    split; [reflexivity|]. split; [reflexivity|]. split; [reflexivity|].
    split; [|split]; apply str_contains_app_r; vm_compute; reflexivity.
Qed.

Lemma create_video_prompt_framing_witness :
  create_video_prompt "A robot explores" 4 5
  = Ok ("A robot explores" +:+ final_framing)
  /\ create_video_prompt "A robot explores" 2 5
     = Ok ("A robot explores" +:+ ". Continuing the story (scene " +:+ str_int (2 + 1)
             +:+ "). Build tension and progression.").
Proof.
  split.
  - apply (create_video_prompt_framing "A robot explores" 4 5); [lia | reflexivity].
  - apply (create_video_prompt_framing "A robot explores" 2 5). lia.
Defined.

(** ** The checkpoint store *)

Section RoundTrip.

Import Pydantic.

Lemma FilmStyle_of_value s : FilmStyle_of (FilmStyle_value s) = Ok s.
Proof. destruct s; reflexivity. Qed.

Lemma MusicVibe_of_value m : MusicVibe_of (MusicVibe_value m) = Ok m.
Proof. destruct m; reflexivity. Qed.

Lemma VideoProvider_of_value p : VideoProvider_of (VideoProvider_value p) = Ok p.
Proof. destruct p; reflexivity. Qed.

Lemma ClipStatus_of_value s : ClipStatus_of (ClipStatus_value s) = Ok s.
Proof. destruct s; reflexivity. Qed.

Lemma validate_dump_VideoClip c : validate_VideoClip (dump_VideoClip c) = Ok c.
Proof.
  destruct c as [i st p simg out lf d err].
  unfold validate_VideoClip, dump_VideoClip, required, defaulted, optional, as_enum.
  cbn. rewrite ClipStatus_of_value. cbn.
  destruct simg, out, lf, err; reflexivity.
Qed.

Lemma validate_dump_FilmConfig what c :
  validate_FilmConfig what (dump_FilmConfig c) = Ok c.
Proof.
  destruct c as [p s m t d pr ok gk].
  unfold validate_FilmConfig, dump_FilmConfig, required, defaulted, optional, as_enum.
  cbn. rewrite FilmStyle_of_value. cbn. rewrite MusicVibe_of_value. cbn.
  rewrite VideoProvider_of_value. cbn.
  destruct ok, gk; reflexivity.
Qed.

Lemma validate_dump_clips l :
  result_mapM validate_VideoClip (map dump_VideoClip l) = Ok l.
Proof.
  induction l as [|c l IH]; [reflexivity|].
  cbn [map result_mapM]. rewrite validate_dump_VideoClip.
  cbn [mbind result_mbind result_bind]. rewrite IH. reflexivity.
Qed.

Lemma model_validate_dump st : model_validate (model_dump st) = Ok st.
Proof.
  destruct st as [cfg out sf cl fv done].
  unfold model_validate, model_dump, required, defaulted, optional.
  cbn [obj_get String.eqb Ascii.eqb Bool.eqb].
  rewrite validate_dump_FilmConfig.
  cbn [mbind result_mbind result_bind as_str as_clips as_bool].
  rewrite validate_dump_clips.
  destruct sf, fv; reflexivity.
Qed.

End RoundTrip.

(** C5.  Saving a state and loading it back returns that state: the same
    config, output root, starting frame, clips (statuses, prompts, paths,
    errors), final video and completion flag. *)
Theorem save_then_load (mgr : StateManager.t) (st : FilmState) (w : World) :
  StateManager.load mgr (StateManager.save mgr st w) = Ok (Some st).
Proof.
  unfold StateManager.load, StateManager.save, write_file. cbn [fs].
  rewrite lookup_insert_eq, model_validate_dump. reflexivity.
Qed.

(** ** The number of clips *)

Section CeilOfQuotient.









End CeilOfQuotient.

Example num_clips_30_10 : math_ceil (30 / 10) = Ok 3.
Proof. vm_compute. reflexivity. Qed.

Example num_clips_25_10 : math_ceil (25 / 10) = Ok 3.
Proof. vm_compute. reflexivity. Qed.

Example num_clips_overflow : math_ceil (infinity / 10) =
  Raise (mk_exn OverflowError "cannot convert float infinity to integer").
Proof. vm_compute. reflexivity. Qed.

(** ** Files and directories *)

Lemma fs_le_refl w : fs_le w w.
Proof. intros p H. exact H. Qed.

Lemma fs_le_trans w1 w2 w3 : fs_le w1 w2 -> fs_le w2 w3 -> fs_le w1 w3.
Proof. intros H12 H23 p H. apply H23, H12, H. Qed.

Lemma fs_le_record e w : fs_le w (record e w).
Proof. intros p H. exact H. Qed.

Lemma fs_le_write p c w : fs_le w (write_file p c w).
Proof.
  intros q. unfold path_exists, write_file. cbn [fs].
  destruct (decide (p = q)) as [->|Hne].
  - rewrite lookup_insert_eq. reflexivity.
  - rewrite lookup_insert_ne by exact Hne. intros H. exact H.
Qed.

Lemma path_exists_write p c w : path_exists (write_file p c w) p = true.
Proof. unfold path_exists, write_file. cbn [fs]. rewrite lookup_insert_eq. reflexivity. Qed.

Lemma touch_dir_keeps (p q : Path) (c : content) (files : gmap string content) :
  files !! q = Some c -> touch_dir p files !! q = Some c.
Proof.
  intros Hq. unfold touch_dir. destruct (files !! p) eqn:Hp; [exact Hq|].
  rewrite lookup_insert_ne; [exact Hq|]. congruence.
Qed.


Lemma mkdir_keeps (l : list Path) (q : Path) (c : content) (files : gmap string content) :
  files !! q = Some c -> foldr touch_dir files l !! q = Some c.
Proof. intros Hq. induction l as [|p l IH]; [exact Hq|]. apply touch_dir_keeps, IH. Qed.


Lemma mkdir_present (l : list Path) (files : gmap string content) :
  (forall p, p ∈ l -> is_Some (files !! p)) -> foldr touch_dir files l = files.
Proof.
  induction l as [|p l IH]; [reflexivity|]. intros Hall. cbn [foldr].
  rewrite IH by (intros p' Hp'; apply Hall, list_elem_of_further, Hp').
  unfold touch_dir. destruct (Hall p (list_elem_of_here _ _)) as [c ->]. reflexivity.
Qed.

Lemma touch_dir_made (p : Path) (files : gmap string content) :
  is_Some (touch_dir p files !! p).
Proof.
  unfold touch_dir. destruct (files !! p) eqn:Hp; [rewrite Hp; eauto|].
  rewrite lookup_insert_eq. eauto.
Qed.

Lemma mkdir_made (l : list Path) (q : Path) (files : gmap string content) :
  q ∈ l -> is_Some (foldr touch_dir files l !! q).
Proof.
  induction l as [|p l IH]; intros Hin; [apply elem_of_nil in Hin; contradiction|].
  cbn [foldr]. destruct (decide (q = p)) as [->|Hne].
  - apply touch_dir_made.
  - apply elem_of_cons in Hin as [Hin|Hin]; [contradiction|].
    destruct (IH Hin) as [c Hc]. exists c. apply touch_dir_keeps, Hc.
Qed.

Lemma fs_le_mkdir p w : fs_le w (mkdir_parents p w).
Proof.
  intros q. unfold path_exists, mkdir_parents. cbn [fs].
  destruct (fs w !! q) as [c|] eqn:Hq; [|discriminate].
  rewrite (mkdir_keeps _ _ _ _ Hq). reflexivity.
Qed.

(** A file written below a directory that was made for it. *)
Lemma fs_le_write_in_dir d p c w : fs_le w (write_file p c (mkdir_parents d w)).
Proof. eapply fs_le_trans; [apply fs_le_mkdir|apply fs_le_write]. Qed.

(** ** One call of [generate_clip] *)

Section GenerateClip.

Context (env : Collaborators).

Lemma generate_video_effect b prompt key out seed d w r w' :
  generate_video env b prompt key out seed d w = (r, w') ->
  fs_le w w'
  /\ log w' = log w ++ [VideoRequest b prompt key out seed d]
  /\ (forall p, r = Ok p -> p = out /\ path_exists w' out = true).
Proof.
  unfold generate_video.
  destruct (video_backend env w b prompt key out seed d); intros [= <- <-].
  - split; [|split]; [|reflexivity|].
    + eapply fs_le_trans; [apply fs_le_record|apply fs_le_write_in_dir].
    + intros p [= <-]. split; [reflexivity|apply path_exists_write].
  - split; [|split]; [apply fs_le_record|reflexivity|discriminate].
Qed.

Lemma extract_last_frame_effect video out w r w' :
  extract_last_frame env video out w = (r, w') ->
  fs_le w w' /\ log w' = log w ++ [FrameExtraction video out]
  /\ (forall p, r = Ok p -> p = out /\ path_exists w' out = true).
Proof.
  unfold extract_last_frame.
  destruct (frame_extractor env w video out); intros [= <- <-].
  - split; [|split]; [|reflexivity|].
    + eapply fs_le_trans; [apply fs_le_record|apply fs_le_write_in_dir].
    + intros p [= <-]. split; [reflexivity|apply path_exists_write].
  - split; [|split]; [apply fs_le_record|reflexivity|discriminate].
Qed.

Lemma select_backend_ok config f k :
  select_backend env config = Ok (f, k) -> exists b, f = generate_video env b.
Proof.
  unfold select_backend.
  destruct (provider config).
  - destruct (openai_api_key config) as [s|]; [|discriminate].
    destruct (str_truthy s); [|discriminate].
    intros [= <- <-]. exists OPENAI. reflexivity.
  - destruct (gemini_api_key config) as [s|]; [|discriminate].
    destruct (str_truthy s); [|discriminate].
    intros [= <- <-]. exists GEMINI. reflexivity.
Qed.

Lemma select_backend_absent config :
  credential_absent config ->
  select_backend env config = Raise (mk_exn ValueError (missing_key_message config)).
Proof.
  unfold credential_absent, select_backend, missing_key_message, opt_str_truthy.
  destruct (provider config).
  - destruct (openai_api_key config) as [s|]; [|reflexivity]. intros ->. reflexivity.
  - destruct (gemini_api_key config) as [s|]; [|reflexivity]. intros ->. reflexivity.
Qed.

Lemma select_backend_selected config f k :
  select_backend env config = Ok (f, k) ->
  f = generate_video env (provider config)
  /\ selected_key config = Some k /\ str_truthy k = true.
Proof.
  unfold select_backend, selected_key.
  destruct (provider config).
  - destruct (openai_api_key config) as [s|]; [|discriminate].
    destruct (str_truthy s) eqn:Hs; [|discriminate].
    intros [= <- <-]. auto.
  - destruct (gemini_api_key config) as [s|]; [|discriminate].
    destruct (str_truthy s) eqn:Hs; [|discriminate].
    intros [= <- <-]. auto.
Qed.

Lemma select_backend_present config :
  ~ credential_absent config -> exists f k, select_backend env config = Ok (f, k).
Proof.
  unfold credential_absent, select_backend, opt_str_truthy.
  destruct (provider config).
  - destruct (openai_api_key config) as [s|]; [|congruence].
    destruct (str_truthy s); [eauto|congruence].
  - destruct (gemini_api_key config) as [s|]; [|congruence].
    destruct (str_truthy s); [eauto|congruence].
Qed.

(** What a call leaves alone, and what it may do to the world. *)
Lemma generate_clip_frame clip config n w r clip' w' :
  generate_clip env clip config n w = (r, clip', w') ->
  index clip' = index clip /\ status clip' = status clip
  /\ prompt clip' = prompt clip
  /\ start_image_path clip' = start_image_path clip
  /\ fs_le w w'
  /\ exists evs, log w' = log w ++ evs /\ Forall backend_event evs.
Proof.
  unfold generate_clip.
  destruct (select_backend env config) as [[f k]|e] eqn:Hs.
  2:{ intros [= <- <- <-]. repeat split; try apply fs_le_refl.
      exists []. rewrite app_nil_r. split; [reflexivity|constructor]. }
  destruct (select_backend_ok _ _ _ Hs) as [b ->].
  destruct (output_path clip) as [out|].
  2:{ intros [= <- <- <-]. repeat split; try apply fs_le_refl.
      exists []. rewrite app_nil_r. split; [reflexivity|constructor]. }
  destruct (generate_video env b _ _ _ _ _ w) as [[p|e] w1] eqn:Hv;
    apply generate_video_effect in Hv as (Hfs1 & Hlog1 & Hp).
  2:{ intros [= <- <- <-]. repeat split; try assumption.
      eexists. split; [exact Hlog1|]. repeat constructor. }
  cbn [set_output_path index].
  destruct (index clip <? n - 1).
  - destruct (extract_last_frame env p _ w1) as [[frame|e] w2] eqn:He;
      apply extract_last_frame_effect in He as (Hfs2 & Hlog2 & _);
      intros [= <- <- <-]; (repeat split; [eapply fs_le_trans; eassumption|]);
      eexists; (split; [rewrite Hlog2, Hlog1, <- app_assoc; reflexivity|]);
      repeat constructor.
  - intros [= <- <- <-]. repeat split; try assumption.
    eexists. split; [exact Hlog1|]. repeat constructor.
Qed.

(** A call that returns has written the video to the output path of the
    clip, and the key of the selected provider was present. *)
Lemma generate_clip_returns clip config n w u clip' w' :
  generate_clip env clip config n w = (Ok u, clip', w') ->
  (exists out, output_path clip' = Some out /\ path_exists w' out = true)
  /\ exists f k, select_backend env config = Ok (f, k).
Proof.
  unfold generate_clip.
  destruct (select_backend env config) as [[f k]|e] eqn:Hs; [|discriminate].
  destruct (select_backend_ok _ _ _ Hs) as [b ->].
  destruct (output_path clip) as [out|]; [|discriminate].
  destruct (generate_video env b _ _ _ _ _ w) as [[p|e] w1] eqn:Hv; [|discriminate].
  apply generate_video_effect in Hv as (_ & _ & Hp).
  destruct (Hp p eq_refl) as (-> & Hfile).
  cbn [set_output_path index].
  destruct (index clip <? n - 1).
  - destruct (extract_last_frame env out _ w1) as [[frame|e] w2] eqn:He; [|discriminate].
    apply extract_last_frame_effect in He as (Hfs & _).
    intros Heq. inversion Heq; subst. split; [|eauto].
    exists out. split; [reflexivity|apply Hfs, Hfile].
  - intros Heq. inversion Heq; subst. split; [|eauto].
    exists out. split; [reflexivity|exact Hfile].
Qed.

(** Without the key of the selected provider the call raises at once. *)
Lemma generate_clip_absent clip config n w :
  credential_absent config ->
  generate_clip env clip config n w
  = (Raise (mk_exn ValueError (missing_key_message config)), clip, w).
Proof.
  intros H. unfold generate_clip. rewrite (select_backend_absent _ H). reflexivity.
Qed.

End GenerateClip.

(** ** One turn of the clip loop *)

Section ClipIteration.

Context (env : Collaborators).

Local Abbreviation state := FilmGenerator.state.
Local Abbreviation clip_iteration := (FilmGenerator.clip_iteration env).

Lemma clip_iteration_unfold n i self w :
  clip_iteration n i self w =
  match clips (state self) !! i with
  | None => (Ok tt, self, w)
  | Some clip =>
      if FilmGenerator.already_completed clip w then (Ok tt, self, w)
      else
        match prepared_clip n i self clip with
        | Raise e => (Raise e, self, w)
        | Ok arg =>
            let call := generate_clip env arg (FilmGenerator.config self) n
                          (record (ClipAttempt i) w) in
            let self' := with_clip i (clip_after_attempt call) self in
            (Ok tt, self', FilmGenerator._save_state self' (world_after_attempt i call))
        end
  end.
Proof.
  unfold FilmGenerator.clip_iteration, prepared_clip, with_clip, clip_after_attempt,
    world_after_attempt.
  destruct (clips (state self) !! i) as [clip|]; [|reflexivity].
  destruct (FilmGenerator.already_completed clip w); [reflexivity|].
  destruct (str_truthy (prompt clip)).
  - cbv zeta. destruct (generate_clip env _ _ n _) as [[[u|e] clip'] w']; reflexivity.
  - destruct (create_video_prompt _ _ n) as [p|e]; [|reflexivity].
    cbv zeta. destruct (generate_clip env _ _ n _) as [[[u|e] clip'] w']; reflexivity.
Qed.

Lemma prepared_clip_fields n i self clip arg :
  prepared_clip n i self clip = Ok arg ->
  index arg = index clip
  /\ (if str_truthy (prompt clip) then prompt arg = prompt clip
      else create_video_prompt (premise (FilmGenerator.config self)) (index clip) n
           = Ok (prompt arg))
  /\ start_image_path arg = seed_image i (state self) clip
  /\ output_path arg = output_path clip.
Proof.
  unfold prepared_clip, seed_image.
  destruct (str_truthy (prompt clip)).
  - intros [= <-]. destruct i as [|j]; cbn;
      try (destruct (clips (state self) !! j) as [prev|]; [destruct (last_frame_path prev)|]);
      repeat split; reflexivity.
  - destruct (create_video_prompt _ _ n) as [p|e]; [|discriminate].
    intros [= <-]. destruct i as [|j]; cbn;
      try (destruct (clips (state self) !! j) as [prev|]; [destruct (last_frame_path prev)|]);
      repeat split; reflexivity.
Qed.

(** The clip can be prepared when it has a prompt or its index is an index
    of the film. *)
Lemma prepared_clip_returns n i self clip :
  prompt_at_hand (premise (FilmGenerator.config self)) n clip ->
  exists arg, prepared_clip n i self clip = Ok arg.
Proof.
  unfold prompt_at_hand, prepared_clip. intros [Hp|[text Hi]].
  - rewrite Hp. eauto.
  - destruct (str_truthy (prompt clip)); [eauto|]. rewrite Hi. eauto.
Qed.

Lemma prompt_at_hand_in_range premise n clip :
  0 <= index clip < n -> prompt_at_hand premise n clip.
Proof. intros Hi. right. apply create_video_prompt_in_range, Hi. Qed.

Lemma save_state_effect self w :
  fs_le w (FilmGenerator._save_state self w)
  /\ log (FilmGenerator._save_state self w) = log w.
Proof. split; [apply fs_le_write_in_dir|reflexivity]. Qed.

(** What comes of one call of [generate_clip] in the loop. *)
Lemma attempt_effect i arg config n w call :
  call = generate_clip env arg config n (record (ClipAttempt i) w) ->
  index (clip_after_attempt call) = index arg
  /\ prompt (clip_after_attempt call) = prompt arg
  /\ start_image_path (clip_after_attempt call) = start_image_path arg
  /\ fs_le w call.2 /\ fs_le call.2 (world_after_attempt i call)
  /\ exists evs,
       log (world_after_attempt i call) = log w ++ ClipAttempt i :: evs
       /\ (exists rest, log (world_after_attempt i call) = log call.2 ++ rest)
       /\ ((status (clip_after_attempt call) = COMPLETED
            /\ (exists out, output_path (clip_after_attempt call) = Some out
                            /\ path_exists call.2 out = true)
            /\ Forall backend_event evs
            /\ ~ credential_absent config)
           \/ exists msg evs0,
                status (clip_after_attempt call) = FAILED
                /\ error (clip_after_attempt call) = Some msg
                /\ evs = evs0 ++ [ClipFailureNotice i msg]
                /\ Forall backend_event evs0
                /\ (credential_absent config ->
                    evs0 = [] /\ msg = missing_key_message config)).
Proof.
  intros Hcall. symmetry in Hcall.
  destruct call as [[r clip1] w1].
  pose proof (generate_clip_frame env _ _ _ _ _ _ _ Hcall)
    as (Hidx & Hst & Hpr & Hseed & Hfs & evs & Hlog & Hevs).
  cbn [log record] in Hlog. cbn [snd].
  destruct r as [u|e]; cbn [clip_after_attempt world_after_attempt].
  - split; [exact Hidx|]. split; [exact Hpr|]. split; [exact Hseed|].
    split; [eapply fs_le_trans; [apply fs_le_record|exact Hfs]|].
    split; [apply fs_le_refl|].
    exists evs. split; [rewrite Hlog, <- app_assoc; reflexivity|].
    split; [exists []; rewrite app_nil_r; reflexivity|].
    left. destruct (generate_clip_returns env _ _ _ _ _ _ _ Hcall)
      as ((out & Hout & Hfile) & f & k & Hsel).
    split; [reflexivity|]. split; [exists out; split; assumption|].
    split; [exact Hevs|].
    intros Habs. rewrite (select_backend_absent env _ Habs) in Hsel. discriminate.
  - split; [exact Hidx|]. split; [exact Hpr|]. split; [exact Hseed|].
    split; [eapply fs_le_trans; [apply fs_le_record|exact Hfs]|].
    split; [apply fs_le_record|].
    exists (evs ++ [ClipFailureNotice i (exn_str e)]).
    split; [cbn; rewrite Hlog, <- !app_assoc; reflexivity|].
    split; [eexists; reflexivity|].
    right. exists (exn_str e), evs.
    split; [reflexivity|]. split; [reflexivity|]. split; [reflexivity|].
    split; [exact Hevs|].
    intros Habs. rewrite (generate_clip_absent env _ _ _ _ Habs) in Hcall.
    injection Hcall as He _ Hw. split.
    + rewrite <- Hw in Hlog. cbn in Hlog.
      apply (f_equal length) in Hlog. rewrite !length_app in Hlog.
      destruct evs; [reflexivity|cbn in Hlog; lia].
    + rewrite <- He. reflexivity.
Qed.

(** A turn leaves the state and the world alone (it finds no clip, skips
    the clip, or leaves the loop with the exception of the prompt), or it
    stores the outcome of one call of [generate_clip] and saves. *)
Lemma clip_iteration_cases n i self w r self' w' :
  clip_iteration n i self w = (r, self', w') ->
  (self' = self /\ w' = w
   /\ match clips (state self) !! i with
      | Some clip =>
          (r = Ok tt /\ FilmGenerator.already_completed clip w = true)
          \/ (FilmGenerator.already_completed clip w = false
              /\ exists e, r = Raise e /\ prepared_clip n i self clip = Raise e)
      | None => r = Ok tt
      end)
  \/ exists clip arg call,
       clips (state self) !! i = Some clip
       /\ FilmGenerator.already_completed clip w = false
       /\ prepared_clip n i self clip = Ok arg
       /\ r = Ok tt
       /\ call = generate_clip env arg (FilmGenerator.config self) n
                   (record (ClipAttempt i) w)
       /\ self' = with_clip i (clip_after_attempt call) self
       /\ w' = FilmGenerator._save_state self' (world_after_attempt i call).
Proof.
  rewrite clip_iteration_unfold.
  destruct (clips (state self) !! i) as [clip|] eqn:Hclip.
  2:{ intros [= <- <- <-]. left. auto. }
  destruct (FilmGenerator.already_completed clip w) eqn:Hskip.
  1:{ intros [= <- <- <-]. left. auto. }
  destruct (prepared_clip n i self clip) as [arg|e] eqn:Hprep.
  2:{ intros [= <- <- <-]. left. split; [reflexivity|]. split; [reflexivity|].
      right. eauto. }
  cbv zeta. intros [= <- <- <-]. right.
  exists clip, arg, (generate_clip env arg (FilmGenerator.config self) n
                       (record (ClipAttempt i) w)).
  repeat split; assumption || reflexivity.
Qed.

End ClipIteration.

(** ** The clip loop *)

Lemma triple_eta {A B C : Type} (x : A * B * C) : x = (x.1.1, x.1.2, x.2).
Proof. destruct x as [[a b] c]. reflexivity. Qed.

Section ClipLoop.

Context (env : Collaborators).

#[local] Set Warnings "-clear-no-such-hyp".

Local Abbreviation state := FilmGenerator.state.
Local Abbreviation clips_loop := (FilmGenerator.clips_loop env).

Lemma clips_only_refl self : clips_only self self.
Proof.
  exists (clips (state self)). split; [|reflexivity].
  destruct self as [c o m [c' o' s l f d]]. reflexivity.
Qed.

Lemma clips_only_trans s1 s2 s3 :
  clips_only s1 s2 -> clips_only s2 s3 -> clips_only s1 s3.
Proof.
  intros (l1 & -> & H1) (l2 & -> & H2). exists l2. split; [reflexivity|].
  cbn in H2. congruence.
Qed.

Lemma clips_only_with_clip i clip self : clips_only self (with_clip i clip self).
Proof. eexists. split; [reflexivity|]. apply length_insert. Qed.

Lemma clips_only_fields self self' :
  clips_only self self' ->
  FilmGenerator.config self' = FilmGenerator.config self
  /\ FilmGenerator.output_dir self' = FilmGenerator.output_dir self
  /\ FilmGenerator.state_manager self' = FilmGenerator.state_manager self
  /\ starting_frame_path (state self') = starting_frame_path (state self)
  /\ final_video_path (state self') = final_video_path (state self)
  /\ completed (state self') = completed (state self)
  /\ length (clips (state self')) = length (clips (state self)).
Proof. intros (l & -> & Hl). cbn. repeat split; assumption. Qed.

Lemma loop_event_mono ps qs e :
  (forall j, j ∈ ps -> j ∈ qs) -> loop_event ps e -> loop_event qs e.
Proof. intros H. destruct e; cbn; auto. Qed.

Lemma backend_loop_event ps e : backend_event e -> loop_event ps e.
Proof. destruct e; cbn; tauto. Qed.

(** The events of one attempt are events of its position. *)
Lemma attempt_events (i : nat) (evs : list event) :
  (Forall backend_event evs
   \/ exists msg evs0, evs = evs0 ++ [ClipFailureNotice i msg] /\ Forall backend_event evs0) ->
  Forall (loop_event [i]) (ClipAttempt i :: evs).
Proof.
  intros Hevs. constructor; [cbn; set_solver|].
  destruct Hevs as [Hevs|(msg & evs0 & -> & Hevs)].
  - eapply Forall_impl; [exact Hevs|]. intros e. apply backend_loop_event.
  - apply Forall_app. split.
    + eapply Forall_impl; [exact Hevs|]. intros e. apply backend_loop_event.
    + constructor; [cbn; set_solver|constructor].
Qed.

(** The frame of one turn. *)
Lemma clip_iteration_frame n i self w r self' w' :
  FilmGenerator.clip_iteration env n i self w = (r, self', w') ->
  clips_only self self'
  /\ (forall j, j <> i -> clips (state self') !! j = clips (state self) !! j)
  /\ fs_le w w'
  /\ exists evs, log w' = log w ++ evs /\ Forall (loop_event [i]) evs.
Proof.
  intros H. apply clip_iteration_cases in H
    as [(-> & -> & _)|(clip & arg & call & Hc & _ & _ & _ & Hcall & -> & ->)].
  - split; [apply clips_only_refl|]. split; [reflexivity|].
    split; [apply fs_le_refl|]. exists []. rewrite app_nil_r. split; constructor.
  - destruct (attempt_effect env _ _ _ _ _ _ Hcall)
      as (_ & _ & _ & Hfs1 & Hfs2 & evs & Hlog & _ & Hout).
    split; [apply clips_only_with_clip|].
    split; [intros j Hj; cbn; apply list_lookup_insert_ne; congruence|].
    split.
    { eapply fs_le_trans; [exact Hfs1|].
      eapply fs_le_trans; [exact Hfs2|apply save_state_effect]. }
    exists (ClipAttempt i :: evs). split; [exact Hlog|].
    apply (attempt_events i evs).
    destruct Hout as [(_ & _ & Hevs & _)|(msg & evs0 & _ & _ & -> & Hevs & _)];
      [left; exact Hevs|right; eauto].
Qed.

(** The frame of the loop over the positions [ps]. *)
Lemma clips_loop_frame n ps self w r self' w' :
  clips_loop n ps self w = (r, self', w') ->
  clips_only self self'
  /\ (forall j, j ∉ ps -> clips (state self') !! j = clips (state self) !! j)
  /\ fs_le w w'
  /\ exists evs, log w' = log w ++ evs /\ Forall (loop_event ps) evs.
Proof.
  revert self w. induction ps as [|i ps IH]; intros self w.
  - intros [= <- <- <-]. split; [apply clips_only_refl|]. split; [reflexivity|].
    split; [apply fs_le_refl|]. exists []. rewrite app_nil_r. split; constructor.
  - cbn [FilmGenerator.clips_loop].
    destruct (FilmGenerator.clip_iteration env n i self w) as [[r1 self1] w1] eqn:H1.
    apply clip_iteration_frame in H1 as (Ho1 & Hc1 & Hfs1 & evs1 & Hlog1 & Hevs1).
    destruct r1 as [u|e].
    + intros H2.
      apply IH in H2 as (Ho2 & Hc2 & Hfs2 & evs2 & Hlog2 & Hevs2).
      split; [eapply clips_only_trans; eassumption|].
      split.
      { intros j Hj. rewrite Hc2, Hc1; [reflexivity| |]; set_solver. }
      split; [eapply fs_le_trans; eassumption|].
      exists (evs1 ++ evs2). split; [rewrite Hlog2, Hlog1, app_assoc; reflexivity|].
      apply Forall_app. split.
      * eapply Forall_impl; [exact Hevs1|]. intros e. apply loop_event_mono. set_solver.
      * eapply Forall_impl; [exact Hevs2|]. intros e. apply loop_event_mono. set_solver.
    + intros [= <- <- <-].
      split; [exact Ho1|].
      split; [intros j Hj; apply Hc1; set_solver|].
      split; [exact Hfs1|].
      exists evs1. split; [exact Hlog1|].
      eapply Forall_impl; [exact Hevs1|]. intros e'. apply loop_event_mono. set_solver.
Qed.

Lemma clips_loop_app n ps qs self w :
  clips_loop n (ps ++ qs) self w
  = match clips_loop n ps self w with
    | (Ok _, self1, w1) => clips_loop n qs self1 w1
    | (Raise e, self1, w1) => (Raise e, self1, w1)
    end.
Proof.
  revert self w. induction ps as [|i ps IH]; intros self w; [reflexivity|].
  cbn [app FilmGenerator.clips_loop].
  destruct (FilmGenerator.clip_iteration env n i self w) as [[[u|e] self1] w1];
    [apply IH|reflexivity].
Qed.

(** The loop, cut at the position [i]. *)
Lemma generate_clips_at i self w :
  (i < length (clips (state self)))%nat ->
  let n := Z.of_nat (length (clips (state self))) in
  FilmGenerator._generate_clips env self w
  = match loop_reaches env i self w with
    | (Ok _, self_i, w_i) =>
        match FilmGenerator.clip_iteration env n i self_i w_i with
        | (Ok _, self_t, w_t) =>
            clips_loop n (seq (S i) (length (clips (state self)) - S i)) self_t w_t
        | (Raise e, self_t, w_t) => (Raise e, self_t, w_t)
        end
    | (Raise e, self_i, w_i) => (Raise e, self_i, w_i)
    end.
Proof.
  intros Hi n. unfold FilmGenerator._generate_clips, loop_reaches.
  replace (seq 0 (length (clips (state self))))
    with (seq 0 i ++ [i] ++ seq (S i) (length (clips (state self)) - S i)).
  2:{ change [i] with (seq i 1).
      replace (S i) with (i + 1)%nat by lia.
      rewrite <- seq_app. change i with (0 + i)%nat at 2.
      rewrite <- seq_app. f_equal. lia. }
  rewrite clips_loop_app. fold n.
  destruct (clips_loop n (seq 0 i) self w) as [[[u|e] self_i] w_i]; [|reflexivity].
  reflexivity.
Qed.

(** The loop comes to a position with the clip of that position as it
    found it. *)
Lemma loop_reaches_frame i clip self w r self_i w_i :
  clips (state self) !! i = Some clip ->
  loop_reaches env i self w = (r, self_i, w_i) ->
  clips (state self_i) !! i = Some clip
  /\ clips_only self self_i
  /\ (forall j, (i <= j)%nat -> clips (state self_i) !! j = clips (state self) !! j)
  /\ fs_le w w_i
  /\ exists before, log w_i = log w ++ before /\ Forall (loop_event (seq 0 i)) before.
Proof.
  intros Hclip Hreach. unfold loop_reaches in Hreach.
  apply clips_loop_frame in Hreach as (Ho & Hc & Hfs & before & Hlog & Hev).
  split; [rewrite Hc; [exact Hclip|rewrite elem_of_seq; lia]|].
  split; [exact Ho|].
  split; [intros j Hj; apply Hc; rewrite elem_of_seq; lia|].
  split; [exact Hfs|]. eauto.
Qed.

Lemma already_completed_mono (clip : VideoClip) (w w' : World) :
  fs_le w w' ->
  FilmGenerator.already_completed clip w = true ->
  FilmGenerator.already_completed clip w' = true.
Proof.
  intros Hfs. unfold FilmGenerator.already_completed.
  destruct (status_eqb (status clip) COMPLETED); [|discriminate].
  destruct (output_path clip) as [p|]; [|discriminate].
  cbn. apply Hfs.
Qed.

(** What the loop does at the position [i], and what the rest of the
    loop leaves of it.  Either the loop leaves the clip alone and makes no
    call for it: it skips the clip, or it is left by an exception before
    the call; or it calls [generate_clip] on the prepared clip and stores
    the outcome. *)
Lemma loop_position i clip self w :
  clips (state self) !! i = Some clip ->
  let n := length (clips (state self)) in
  let final := FilmGenerator._generate_clips env self w in
  clips_only self final.1.2
  /\ fs_le w final.2
  /\ exists before during after,
       log final.2 = log w ++ before ++ during ++ after
       /\ Forall (loop_event (seq 0 i)) before
       /\ Forall (loop_event (seq (S i) (n - S i))) after
       /\ ((during = []
            /\ clips (state final.1.2) !! i = Some clip
            /\ loop_attempt env i self w = None
            /\ (final.1.1 = Ok tt ->
                FilmGenerator.already_completed clip final.2 = true))
           \/ exists self_i w_i arg evs call clip',
                loop_reaches env i self w = (Ok tt, self_i, w_i)
                /\ fs_le w w_i
                /\ log w_i = log w ++ before
                /\ FilmGenerator.already_completed clip w_i = false
                /\ prepared_clip (Z.of_nat n) i self_i clip = Ok arg
                /\ loop_attempt env i self w = Some (arg, record (ClipAttempt i) w_i)
                /\ call = generate_clip env arg (FilmGenerator.config self) (Z.of_nat n)
                            (record (ClipAttempt i) w_i)
                /\ clip' = clip_after_attempt call
                /\ during = ClipAttempt i :: evs
                /\ records_call i call final.1.2 final.2
                /\ index clip' = index clip
                /\ (if str_truthy (prompt clip) then prompt clip' = prompt clip
                    else create_video_prompt (premise (FilmGenerator.config self))
                           (index clip) (Z.of_nat n) = Ok (prompt clip'))
                /\ start_image_path clip' = seed_image i (state final.1.2) clip
                /\ start_image_path arg = start_image_path clip'
                /\ ((status clip' = COMPLETED
                     /\ (exists out, output_path clip' = Some out
                                     /\ path_exists final.2 out = true)
                     /\ Forall backend_event evs
                     /\ ~ credential_absent (FilmGenerator.config self))
                    \/ exists msg evs0,
                         status clip' = FAILED /\ error clip' = Some msg
                         /\ evs = evs0 ++ [ClipFailureNotice i msg]
                         /\ Forall backend_event evs0
                         /\ (credential_absent (FilmGenerator.config self) ->
                             evs0 = []
                             /\ msg = missing_key_message
                                        (FilmGenerator.config self)))).
Proof.
  intros Hclip n final.
  assert (Hi : (i < n)%nat) by (eapply lookup_lt_Some; exact Hclip).
  destruct (clips_loop_frame _ _ self w _ _ _
              (triple_eta (FilmGenerator._generate_clips env self w)))
    as (Hoall & _ & Hfsall & _).
  fold final in Hoall, Hfsall.
  split; [exact Hoall|]. split; [exact Hfsall|].
  pose proof (generate_clips_at i self w Hi) as Hcut. cbv zeta in Hcut.
  fold n final in Hcut.
  destruct (loop_reaches env i self w) as [[r_i self_i] w_i] eqn:Hreach.
  destruct (loop_reaches_frame i clip self w _ _ _ Hclip Hreach)
    as (Hclip_i & Ho1 & Hc1 & Hfs1 & before & Hlog1 & Hev1).
  destruct (clips_only_fields _ _ Ho1) as (Hcfg1 & _ & _ & Hsf1 & _ & _ & Hlen1).
  destruct r_i as [[]|e].
  2:{ (* the loop was left before it came to [i] *)
      exists before, [], []. rewrite Hcut. cbn [fst snd]. rewrite !app_nil_r.
      split; [exact Hlog1|]. split; [exact Hev1|]. split; [constructor|].
      left. split; [reflexivity|]. split; [exact Hclip_i|].
      split; [unfold loop_attempt; rewrite Hreach; reflexivity|discriminate]. }
  destruct (FilmGenerator.clip_iteration env (Z.of_nat n) i self_i w_i)
    as [[r_t self_t] w_t] eqn:Hturn.
  pose proof (clip_iteration_frame _ _ _ _ _ _ _ Hturn) as (Ho2 & Hc2 & Hfs2 & _).
  apply clip_iteration_cases in Hturn
    as [(-> & -> & Hcase)
       |(c & arg & call & Hc & Hnoskip & Hprep & -> & Hcall & Hself_t & Hw_t)].
  - rewrite Hclip_i in Hcase.
    destruct Hcase as [(-> & Hskip)|(Hnoskip & e & -> & Hprep)].
    + (* the clip is skipped *)
      destruct (clips_loop (Z.of_nat n) (seq (S i) (n - S i)) self_i w_i) as [[r3 self3] w3] eqn:Hrest.
      apply clips_loop_frame in Hrest as (Ho3 & Hc3 & Hfs3 & after & Hlog3 & Hev3).
      exists before, [], after. rewrite Hcut. cbn [fst snd app].
      split; [rewrite Hlog3, Hlog1, app_assoc; reflexivity|].
      split; [exact Hev1|]. split; [exact Hev3|].
      left. split; [reflexivity|].
      split; [rewrite Hc3; [exact Hclip_i|rewrite elem_of_seq; lia]|].
      split.
      { unfold loop_attempt. rewrite Hreach, Hclip_i, Hskip. reflexivity. }
      intros _. eapply already_completed_mono; [exact Hfs3|exact Hskip].
    + (* the prompt of the clip cannot be built *)
      exists before, [], []. rewrite Hcut. cbn [fst snd]. rewrite !app_nil_r.
      split; [exact Hlog1|]. split; [exact Hev1|]. split; [constructor|].
      left. split; [reflexivity|]. split; [exact Hclip_i|].
      split; [|discriminate].
      unfold loop_attempt. rewrite Hreach, Hclip_i, Hnoskip. fold n.
      rewrite Hprep. reflexivity.
  - (* the clip is attempted *)
    rewrite Hclip_i in Hc. injection Hc as <-.
    destruct (clips_loop (Z.of_nat n) (seq (S i) (n - S i)) self_t w_t) as [[r3 self3] w3] eqn:Hrest.
    apply clips_loop_frame in Hrest as (Ho3 & Hc3 & Hfs3 & after & Hlog3 & Hev3).
    destruct (attempt_effect env _ _ _ _ _ _ Hcall)
      as (Hidx & Hpr & Hsd & Hfsa & Hfsb & evs & Hlog2 & (rest & Hrest) & Hout).
    destruct (prepared_clip_fields _ _ _ _ _ Hprep) as (Pidx & Ppr & Pseed & _).
    assert (Hlast : clips (state self3) !! i = Some (clip_after_attempt call)).
    { rewrite Hc3 by (rewrite elem_of_seq; lia). rewrite Hself_t. cbn.
      apply list_lookup_insert_eq. rewrite Hlen1. exact Hi. }
    assert (Hseed : seed_image i (state self3) clip = seed_image i (state self_i) clip).
    { destruct (clips_only_fields _ _ Ho2) as (_ & _ & _ & Hsf2 & _).
      destruct (clips_only_fields _ _ Ho3) as (_ & _ & _ & Hsf3 & _).
      destruct i as [|j]; cbn [seed_image]; [congruence|].
      rewrite Hc3 by (rewrite elem_of_seq; lia).
      rewrite Hc2 by lia. reflexivity. }
    assert (Hlogt : log w_t = log (world_after_attempt i call)) by (rewrite Hw_t; reflexivity).
    assert (Hfst : fs_le (world_after_attempt i call) w_t)
      by (rewrite Hw_t; apply save_state_effect).
    exists before, (ClipAttempt i :: evs), after. rewrite Hcut. cbn [fst snd].
    split; [rewrite Hlog3, Hlogt, Hlog2, Hlog1, <- !app_assoc; reflexivity|].
    split; [exact Hev1|]. split; [exact Hev3|].
    right. exists self_i, w_i, arg, evs, call, (clip_after_attempt call).
    split; [reflexivity|]. split; [exact Hfs1|]. split; [exact Hlog1|].
    split; [exact Hnoskip|]. split; [exact Hprep|].
    split.
    { unfold loop_attempt. rewrite Hreach, Hclip_i, Hnoskip. fold n.
      rewrite Hprep. reflexivity. }
    split; [rewrite Hcall, Hcfg1; reflexivity|].
    split; [reflexivity|]. split; [reflexivity|].
    assert (Hfsc : fs_le call.2 w3).
    { eapply fs_le_trans; [exact Hfsb|]. eapply fs_le_trans; [exact Hfst|exact Hfs3]. }
    split.
    { split; [exact Hlast|]. split; [exact Hfsc|].
      exists (rest ++ after). rewrite Hlog3, Hlogt, Hrest, <- app_assoc. reflexivity. }
    split; [congruence|].
    split.
    { rewrite Hpr. rewrite Hcfg1 in Ppr. exact Ppr. }
    split; [rewrite Hseed; congruence|].
    split; [congruence|].
    rewrite <- Hcfg1.
    destruct Hout as [(Hst & (out & Hout & Hfile) & Hevs & Hkey)|Hfailed];
      [left|right; exact Hfailed].
    split; [exact Hst|]. split; [|split; assumption].
    exists out. split; [exact Hout|apply Hfsc, Hfile].
Qed.

End ClipLoop.

(** ** Events of a run *)

Lemma new_events_app (w w' : World) (evs : list event) :
  log w' = log w ++ evs -> new_events w w' = evs.
Proof. intros H. unfold new_events. rewrite H. apply drop_app_length. Qed.

Lemma attempt_not_elsewhere (i : nat) (ps : list nat) (evs : list event) :
  i ∉ ps -> Forall (loop_event ps) evs -> ClipAttempt i ∉ evs.
Proof.
  intros Hi Hevs Hin. rewrite Forall_forall in Hevs.
  apply Hi. exact (Hevs _ Hin).
Qed.

Lemma failure_not_elsewhere (i : nat) (msg : string) (ps : list nat) (evs : list event) :
  i ∉ ps -> Forall (loop_event ps) evs -> ClipFailureNotice i msg ∉ evs.
Proof.
  intros Hi Hevs Hin. rewrite Forall_forall in Hevs.
  apply Hi. exact (Hevs _ Hin).
Qed.

Lemma backend_event_not_attempt (i : nat) (evs : list event) :
  Forall backend_event evs -> ClipAttempt i ∉ evs.
Proof.
  intros Hevs Hin. rewrite Forall_forall in Hevs. exact (Hevs _ Hin).
Qed.

Lemma backend_event_not_failure (i : nat) (msg : string) (evs : list event) :
  Forall backend_event evs -> ClipFailureNotice i msg ∉ evs.
Proof.
  intros Hevs Hin. rewrite Forall_forall in Hevs. exact (Hevs _ Hin).
Qed.

Lemma not_in_seq_below (i : nat) : i ∉ seq 0 i.
Proof. rewrite elem_of_seq. lia. Qed.

Lemma not_in_seq_above (i n : nat) : i ∉ seq (S i) n.
Proof. rewrite elem_of_seq. lia. Qed.

Lemma str_truthy_nonempty (s : string) : s <> EmptyString -> str_truthy s = true.
Proof. destruct s; [congruence|reflexivity]. Qed.

Lemma str_truthy_false (s : string) : str_truthy s = false -> s = EmptyString.
Proof. destruct s; [reflexivity|discriminate]. Qed.

(** An attempt is announced at a position only if the loop calls
    [generate_clip] there. *)
Lemma attempt_announced (env : Collaborators) (self : FilmGenerator.t) (w : World)
    (i : nat) (clip : VideoClip) :
  clips (FilmGenerator.state self) !! i = Some clip ->
  ClipAttempt i ∈ new_events w (FilmGenerator._generate_clips env self w).2 ->
  is_Some (loop_attempt env i self w).
Proof.
  intros Hclip Hin.
  destruct (loop_position env i clip self w Hclip)
    as (_ & _ & before & during & after & Hlog & Hbefore & Hafter & Hcase).
  rewrite (new_events_app _ _ _ Hlog) in Hin.
  destruct Hcase as [(-> & _)|(self_i & w_i & arg & evs & call & clip' & _ & _ & _ & _ & _ & -> & _)];
    [|eauto].
  exfalso. cbn [app] in Hin. apply elem_of_app in Hin as [Hin|Hin]; revert Hin.
  - eapply attempt_not_elsewhere; [apply not_in_seq_below|exact Hbefore].
  - eapply attempt_not_elsewhere; [apply not_in_seq_above|exact Hafter].
Qed.

(** ** What the loop does for one clip *)

Section OneClipOfTheLoop.

Context (env : Collaborators).

Local Abbreviation state := FilmGenerator.state.

(** The call the loop makes at a position, and what is left of it when
    the loop has ended. *)
Lemma attempt_recorded (self : FilmGenerator.t) (w : World) (i : nat)
    (arg : VideoClip) (w0 : World) :
  loop_attempt env i self w = Some (arg, w0) ->
  let n := Z.of_nat (length (clips (state self))) in
  let final := FilmGenerator._generate_clips env self w in
  let call := generate_clip env arg (FilmGenerator.config self) n w0 in
  exists clip self_i w_i,
    clips (state self) !! i = Some clip
    /\ loop_reaches env i self w = (Ok tt, self_i, w_i)
    /\ w0 = record (ClipAttempt i) w_i
    /\ FilmGenerator.already_completed clip w_i = false
    /\ prepared_clip n i self_i clip = Ok arg
    /\ loop_call env i self w = Some call
    /\ records_call i call final.1.2 final.2
    /\ ClipAttempt i ∈ new_events w final.2
    /\ start_image_path arg = seed_image i (state final.1.2) clip
    /\ (forall e, call.1.1 = Raise e ->
        ClipFailureNotice i (exn_str e) ∈ new_events w final.2).
Proof.
  intros Hatt n final call.
  assert (Hclip : exists clip, clips (state self) !! i = Some clip).
  { unfold loop_attempt in Hatt.
    destruct (loop_reaches env i self w) as [[[u|e] self_i] w_i] eqn:Hreach;
      [|discriminate].
    destruct (clips (state self_i) !! i) as [c|] eqn:Hc; [|discriminate].
    apply lookup_lt_Some in Hc.
    destruct (clips_loop_frame env _ _ self w _ _ _ Hreach) as (Ho & _).
    apply clips_only_fields in Ho as (_ & _ & _ & _ & _ & _ & Hlen).
    apply lookup_lt_is_Some_2. lia. }
  destruct Hclip as [clip Hclip].
  destruct (loop_position env i clip self w Hclip)
    as (_ & _ & before & during & after & Hlog & Hbefore & Hafter & Hcase).
  fold final in Hlog, Hcase.
  destruct Hcase as [(_ & _ & Hnone & _)
                    |(self_i & w_i & arg' & evs & call' & clip' & Hreach & _ & _ & Hnoskip
                      & Hprep & Hatt' & Hcall & Hclip' & -> & Hrec & _ & _ & Hseed & Harg & Hout)];
    [congruence|].
  rewrite Hatt in Hatt'. injection Hatt' as <- ->.
  fold n in Hcall, Hprep. fold call in Hcall. subst call'.
  exists clip, self_i, w_i.
  split; [exact Hclip|]. split; [exact Hreach|]. split; [reflexivity|].
  split; [exact Hnoskip|]. split; [exact Hprep|].
  split; [unfold loop_call; rewrite Hatt; reflexivity|].
  split; [exact Hrec|].
  rewrite (new_events_app _ _ _ Hlog).
  split; [rewrite !elem_of_app; right; left; constructor|].
  split; [congruence|].
  intros e He.
  destruct Hout as [(Hst & _)|(msg & evs0 & _ & Herr & -> & _)].
  - exfalso. rewrite Hclip' in Hst. destruct call as [[[u|e'] c1] w1]; cbn in He, Hst;
      discriminate.
  - rewrite Hclip' in Herr. destruct call as [[[u|e'] c1] w1]; cbn in He, Herr;
      [discriminate|].
    injection He as ->. injection Herr as <-.
    rewrite !elem_of_app. right. left.
    apply list_elem_of_further. rewrite elem_of_app. right. constructor.
Qed.

(** A clip for which the loop makes no call is as it was. *)
Lemma no_attempt_no_change (self : FilmGenerator.t) (w : World) (i : nat)
    (clip : VideoClip) :
  clips (state self) !! i = Some clip ->
  loop_attempt env i self w = None ->
  let final := FilmGenerator._generate_clips env self w in
  clips (state final.1.2) !! i = Some clip
  /\ (ClipAttempt i ∉ new_events w final.2)
  /\ (final.1.1 = Ok tt -> FilmGenerator.already_completed clip final.2 = true).
Proof.
  intros Hclip Hnone final.
  destruct (loop_position env i clip self w Hclip)
    as (_ & _ & before & during & after & Hlog & Hbefore & Hafter & Hcase).
  fold final in Hlog, Hcase.
  destruct Hcase as [(-> & Hsame & _ & Hskip)
                    |(self_i & w_i & arg' & evs & call' & clip' & _ & _ & _ & _
                      & _ & Hatt' & _)];
    [|congruence].
  split; [exact Hsame|]. split; [|exact Hskip].
  rewrite (new_events_app _ _ _ Hlog). cbn [app]. rewrite not_elem_of_app. split.
  - eapply attempt_not_elsewhere; [apply not_in_seq_below|exact Hbefore].
  - eapply attempt_not_elsewhere; [apply not_in_seq_above|exact Hafter].
Qed.

(** The loop is left by an exception only where a prompt cannot be
    built. *)
Lemma loop_returns (n : Z) (ps : list nat) (self : FilmGenerator.t) (w : World) :
  (forall j clip, clips (state self) !! j = Some clip ->
                  prompt_at_hand (premise (FilmGenerator.config self)) n clip) ->
  (FilmGenerator.clips_loop env n ps self w).1.1 = Ok tt.
Proof.
  revert self w. induction ps as [|i ps IH]; intros self w Hall; [reflexivity|].
  cbn [FilmGenerator.clips_loop].
  destruct (FilmGenerator.clip_iteration env n i self w) as [[r1 self1] w1] eqn:H1.
  apply clip_iteration_cases in H1
    as [(-> & -> & Hcase)
       |(c & arg & call & Hc & _ & Hprep & -> & Hcall & -> & ->)].
  - destruct (clips (state self) !! i) as [clip|] eqn:Hclip.
    + destruct Hcase as [(-> & _)|(_ & e & -> & Hprep)]; [apply IH, Hall|].
      destruct (prepared_clip_returns n i self clip (Hall _ _ Hclip)) as [arg Harg].
      congruence.
    + rewrite Hcase. apply IH, Hall.
  - apply IH. intros j clip Hj. cbn in Hj.
    apply list_lookup_insert_Some in Hj as [(-> & <- & _)|(_ & Hj)];
      [|exact (Hall _ _ Hj)].
    left.
    destruct (attempt_effect env _ _ _ _ _ _ Hcall) as (_ & Hpr & _).
    destruct (prepared_clip_fields _ _ _ _ _ Hprep) as (_ & Ppr & _).
    rewrite Hpr. destruct (str_truthy (prompt c)) eqn:Ht.
    + rewrite Ppr. exact Ht.
    + eapply create_video_prompt_nonempty, Ppr.
Qed.


End OneClipOfTheLoop.

(** ** Prompt freezing *)

(** C9.  The clip loop assigns a prompt to a clip only when the clip has
    none: a clip whose prompt is not empty keeps it, whatever the premise
    of the current config is, and a prompt that the loop changed was empty
    and is now the one [create_video_prompt] builds. *)
Theorem prompt_frozen (env : Collaborators) (self : FilmGenerator.t) (w : World)
    (i : nat) (clip : VideoClip) :
  clips (FilmGenerator.state self) !! i = Some clip ->
  exists clip',
    clips (FilmGenerator.state (FilmGenerator._generate_clips env self w).1.2) !! i
    = Some clip'
    /\ (prompt clip <> EmptyString -> prompt clip' = prompt clip)
    /\ (prompt clip' <> prompt clip ->
        prompt clip = EmptyString
        /\ create_video_prompt (premise (FilmGenerator.config self)) (index clip)
             (Z.of_nat (length (clips (FilmGenerator.state self))))
           = Ok (prompt clip')).
Proof.
  intros Hclip.
  destruct (loop_position env i clip self w Hclip)
    as (_ & _ & before & during & after & _ & _ & _ & Hcase).
  destruct Hcase as [(_ & Hsame & _)
                    |(self_i & w_i & arg & evs & call & clip' & _ & _ & _ & _ & _ & _
                      & _ & -> & _ & (Hnew & _) & _ & Hpr & _)].
  - exists clip. split; [exact Hsame|]. split; [reflexivity|congruence].
  - exists (clip_after_attempt call). split; [exact Hnew|].
    destruct (str_truthy (prompt clip)) eqn:Ht.
    + split; [intros _; exact Hpr|congruence].
    + split; [|intros _; split; [apply str_truthy_false, Ht|exact Hpr]].
      intros Hne. rewrite (str_truthy_nonempty _ Hne) in Ht. discriminate.
Qed.

Lemma prompt_frozen_witness :
  exists clip',
    clips (FilmGenerator.state
             (FilmGenerator._generate_clips Scenarios.reliable
                Scenarios.resumed_with_old_prompt Scenarios.empty_world).1.2) !! 0%nat
    = Some clip'
    /\ prompt clip' = "An old premise. Opening scene.".
Proof.
  destruct (prompt_frozen Scenarios.reliable Scenarios.resumed_with_old_prompt
              Scenarios.empty_world 0 _ eq_refl) as (clip' & Hclip & Hkeep & _).
  exists clip'. split; [exact Hclip|]. apply Hkeep. discriminate.
Defined.

(** ** Resume *)




(** The run over the checkpoint of a finished film whose second video was
    deleted asks the video back end for that clip again. *)
Example deleted_video_is_requested_again :
  let w := Scenarios.second_clip_deleted in
  let self := Scenarios.generator_over (Scenarios.openai_config 20) w in
  new_events w (FilmGenerator._generate_clips Scenarios.reliable self w).2
  = [ClipAttempt 1;
     VideoRequest OPENAI
       "A robot explores. Final scene, resolution. Dramatic conclusion."
       "sk-test" "out/clip_1.mp4" (Some "out/clip_0_last_frame.png") 10]
  /\ path_exists (FilmGenerator._generate_clips Scenarios.reliable self w).2
       "out/clip_1.mp4" = true.
Proof. vm_compute. split; reflexivity. Qed.

(** ** Partial failure *)

Section PartialFailure.

Context (env : Collaborators).

Local Abbreviation state := FilmGenerator.state.

Lemma completed_clips_filter (st : FilmState) :
  Forall (fun c => status c = COMPLETED -> is_Some (output_path c)) (clips st) ->
  map Some (FilmGenerator.completed_clips st)
  = map output_path (List.filter is_completed (clips st)).
Proof.
  unfold FilmGenerator.completed_clips.
  induction (clips st) as [|c l IH]; intros Hall; [reflexivity|].
  apply Forall_cons in Hall as [Hc Hl].
  cbn [flat_map List.filter]. rewrite map_app, (IH Hl).
  change (is_completed c) with (status_eqb (status c) COMPLETED).
  destruct (status c); cbn [status_eqb map app]; try reflexivity.
  destruct (Hc eq_refl) as [p ->]. reflexivity.
Qed.

Lemma already_completed_output clip w :
  FilmGenerator.already_completed clip w = true ->
  status clip = COMPLETED
  /\ exists out, output_path clip = Some out /\ path_exists w out = true.
Proof.
  unfold FilmGenerator.already_completed.
  destruct (status clip); try discriminate.
  destruct (output_path clip); [eauto|discriminate].
Qed.

Lemma generate_clips_fields self w :
  let loop := FilmGenerator._generate_clips env self w in
  FilmGenerator.config loop.1.2 = FilmGenerator.config self
  /\ FilmGenerator.output_dir loop.1.2 = FilmGenerator.output_dir self
  /\ FilmGenerator.state_manager loop.1.2 = FilmGenerator.state_manager self
  /\ starting_frame_path (state loop.1.2) = starting_frame_path (state self)
  /\ final_video_path (state loop.1.2) = final_video_path (state self)
  /\ completed (state loop.1.2) = completed (state self)
  /\ length (clips (state loop.1.2)) = length (clips (state self)).
Proof.
  intros loop.
  destruct (clips_loop_frame env _ _ self w _ _ _
              (triple_eta (FilmGenerator._generate_clips env self w)))
    as (Ho & _).
  apply clips_only_fields, Ho.
Qed.

(** When the loop has ended, every clip is settled: completed, with an
    output path that exists, or failed, with a message. *)
Lemma settled_after_loop self w i clip' :
  let final := FilmGenerator._generate_clips env self w in
  final.1.1 = Ok tt ->
  clips (state final.1.2) !! i = Some clip' ->
  (status clip' = COMPLETED
   /\ exists out, output_path clip' = Some out /\ path_exists final.2 out = true)
  \/ (status clip' = FAILED /\ exists msg, error clip' = Some msg).
Proof.
  intros final Hok Hfinal.
  assert (Hi : (i < length (clips (state self)))%nat).
  { apply lookup_lt_Some in Hfinal.
    destruct (generate_clips_fields self w) as (_ & _ & _ & _ & _ & _ & Hlen).
    fold final in Hlen. lia. }
  destruct (lookup_lt_is_Some_2 _ _ Hi) as [clip Hclip].
  destruct (loop_position env i clip self w Hclip)
    as (_ & _ & before & during & after & _ & _ & _ & Hcase).
  fold final in Hcase.
  destruct Hcase as [(_ & Hsame & _ & Hskip)
                    |(self_i & w_i & arg & evs & call & c & _ & _ & _ & _ & _ & _
                      & _ & Hc & _ & (Hnew & _) & _ & _ & _ & _ & Hout)].
  - rewrite Hfinal in Hsame. injection Hsame as ->.
    left. apply already_completed_output, Hskip, Hok.
  - assert (c = clip') as -> by congruence.
    destruct Hout as [(Hst & Hfile & _)|(msg & evs0 & Hst & Herr & _)]; [left|right]; eauto.
Qed.

(** After the loop, a completed clip has an output reference. *)
Lemma completed_after_loop_have_output self w :
  (FilmGenerator._generate_clips env self w).1.1 = Ok tt ->
  Forall (fun c => status c = COMPLETED -> is_Some (output_path c))
         (clips (state (FilmGenerator._generate_clips env self w).1.2)).
Proof.
  intros Hok. apply Forall_lookup_2. intros j c' Hj Hst.
  destruct (settled_after_loop self w j c' Hok Hj)
    as [(_ & out & Hout & _)|(Hfailed & _)]; [eauto|congruence].
Qed.

End PartialFailure.

(** C2, as stated, fails on a resumed run: in the second run over the
    checkpoint of a two-clip film whose first clip was refused, clip 0 fails
    again and clip 1, completed in the first run, gets no generation
    attempt.  It also fails where the loop is left by an exception of
    [create_video_prompt]: over the state file with the index [10^400],
    clip 0 is refused, the prompt of clip 1 cannot be built, and clip 2
    gets no attempt. *)
Lemma later_clip_skipped_after_failure :
  (let self := Scenarios.generator_over (Scenarios.openai_config 20) Scenarios.after_refusal in
   let final := FilmGenerator._generate_clips Scenarios.first_clip_refused self
                  Scenarios.after_refusal in
   length (clips (FilmGenerator.state self)) = 2%nat
   /\ new_events Scenarios.after_refusal final.2
      = [ClipAttempt 0;
         VideoRequest OPENAI
           "A robot explores. Opening scene, establishing shot. Smooth camera movement."
           "sk-test" "out/clip_0.mp4" (Some "out/starting_frame.png") 10;
         ClipFailureNotice 0 "content policy"]
   /\ status <$> clips (FilmGenerator.state final.1.2) = [FAILED; COMPLETED]
   /\ ClipAttempt 1 ∉ new_events Scenarios.after_refusal final.2)
  /\ (let w := Scenarios.checkpoint_of Scenarios.edited_index in
      let self := Scenarios.generator_over (Scenarios.openai_config 30) w in
      let final := FilmGenerator._generate_clips Scenarios.first_clip_refused self w in
      length (clips (FilmGenerator.state self)) = 3%nat
      /\ final.1.1
         = Raise (mk_exn OverflowError "integer division result too large for a float")
      /\ new_events w final.2
         = [ClipAttempt 0;
            VideoRequest OPENAI
              "A robot explores. Opening scene, establishing shot. Smooth camera movement."
              "sk-test" "out/clip_0.mp4" (Some "out/starting_frame.png") 10;
            ClipFailureNotice 0 "content policy"]
      /\ status <$> clips (FilmGenerator.state final.1.2) = [FAILED; PENDING; COMPLETED]
      /\ path_exists final.2 "out/clip_2.mp4" = false).
Proof.
  assert (Hev :
    new_events Scenarios.after_refusal
      (FilmGenerator._generate_clips Scenarios.first_clip_refused
         (Scenarios.generator_over (Scenarios.openai_config 20) Scenarios.after_refusal)
         Scenarios.after_refusal).2
    = [ClipAttempt 0;
       VideoRequest OPENAI
         "A robot explores. Opening scene, establishing shot. Smooth camera movement."
         "sk-test" "out/clip_0.mp4" (Some "out/starting_frame.png") 10;
       ClipFailureNotice 0 "content policy"]) by (vm_compute; reflexivity).
  cbv zeta. split.
  - split; [vm_compute; reflexivity|]. split; [exact Hev|].
    split; [vm_compute; reflexivity|].
    rewrite Hev. intros Hin.
    repeat (apply elem_of_cons in Hin as [Hin|Hin]; [discriminate|]).
    apply elem_of_nil in Hin. exact Hin.
  - vm_compute. repeat split; reflexivity.
Qed.

(** C2 (amended).  If, in a run of the clip loop, the call of
    [generate_clip] for clip [k] raises, clip [k] ends with status
    [FAILED] and the message of the error recorded, and the failure is
    announced.  The loop is not left because of it.  When the loop runs to
    its end, as it does if every clip has a prompt or one can be built for
    it, every later clip is generated (the loop calls [generate_clip] for
    it and stores the outcome), unless it is already completed with its
    output path present, in which case it is skipped and left as it is;
    and the list that [_stitch_clips] hands to the stitcher holds exactly
    the output paths of the clips whose status is [COMPLETED], in index
    order, clip [k] not among them. *)
Theorem partial_failure (env : Collaborators) (self : FilmGenerator.t) (w : World)
    (k : nat) (e : exn) (clip1 : VideoClip) (w1 : World) :
  let n := Z.of_nat (length (clips (FilmGenerator.state self))) in
  let final := FilmGenerator._generate_clips env self w in
  loop_call env k self w = Some (Raise e, clip1, w1) ->
  (clips (FilmGenerator.state final.1.2) !! k
   = Some (set_error (Some (exn_str e)) (set_status FAILED clip1))
   /\ is_completed (set_error (Some (exn_str e)) (set_status FAILED clip1)) = false
   /\ ClipFailureNotice k (exn_str e) ∈ new_events w final.2)
  /\ ((forall j clip, clips (FilmGenerator.state self) !! j = Some clip ->
         prompt_at_hand (premise (FilmGenerator.config self)) n clip) ->
      final.1.1 = Ok tt)
  /\ (final.1.1 = Ok tt ->
      (forall j clip,
         (k < j)%nat -> clips (FilmGenerator.state self) !! j = Some clip ->
         generated_by_loop env j self w
         \/ (FilmGenerator.already_completed clip final.2 = true
             /\ clips (FilmGenerator.state final.1.2) !! j = Some clip
             /\ loop_call env j self w = None))
      /\ map Some (FilmGenerator.completed_clips (FilmGenerator.state final.1.2))
         = map output_path
             (List.filter is_completed (clips (FilmGenerator.state final.1.2)))
      /\ (FilmGenerator.completed_clips (FilmGenerator.state final.1.2) <> [] ->
          FilmGenerator._stitch_clips env final.1.2 final.2
          = stitch_videos env
              (FilmGenerator.completed_clips (FilmGenerator.state final.1.2))
              (joinpath (FilmGenerator.output_dir final.1.2) "final_film.mp4")
              final.2)).
Proof.
  intros n final Hfail.
  split; [|split].
  - unfold loop_call in Hfail.
    destruct (loop_attempt env k self w) as [[arg w0]|] eqn:Hatt; [|discriminate].
    injection Hfail as Hcall.
    destruct (attempt_recorded env self w k arg w0 Hatt)
      as (clip & self_k & w_k & _ & _ & _ & _ & _ & _ & (Hrec & _) & _ & _ & Hnotice).
    rewrite Hcall in Hrec, Hnotice.
    split; [exact Hrec|]. split; [reflexivity|]. apply Hnotice. reflexivity.
  - intros Hall. apply loop_returns. exact Hall.
  - intros Hok. split; [|split].
    + intros j clip _ Hclip.
      destruct (loop_attempt env j self w) as [[arg w0]|] eqn:Hatt.
      * left.
        destruct (attempt_recorded env self w j arg w0 Hatt)
          as (c & s & w' & _ & _ & _ & _ & _ & Hcall & Hrec & _).
        eexists. split; [exact Hcall|exact Hrec].
      * right.
        destruct (no_attempt_no_change env self w j clip Hclip Hatt) as (Hsame & _ & Hskip).
        split; [exact (Hskip Hok)|]. split; [exact Hsame|].
        unfold loop_call. rewrite Hatt. reflexivity.
    + apply completed_clips_filter, completed_after_loop_have_output, Hok.
    + intros Hne. unfold FilmGenerator._stitch_clips.
      destruct (FilmGenerator.completed_clips (FilmGenerator.state final.1.2));
        [congruence|reflexivity].
Qed.

Lemma partial_failure_witness :
  let self := Scenarios.generator_over (Scenarios.openai_config 30) Scenarios.empty_world in
  let final := FilmGenerator._generate_clips Scenarios.second_clip_refused self
                 Scenarios.empty_world in
  exists clip_k,
    clips (FilmGenerator.state final.1.2) !! 1%nat = Some clip_k
    /\ status clip_k = FAILED /\ error clip_k = Some "content policy"
    /\ generated_by_loop Scenarios.second_clip_refused 2 self Scenarios.empty_world.
Proof.
  cbv zeta.
  pose (call := default (Ok tt, mkVideoClip 0 PENDING "" None None None 0 None,
                         Scenarios.empty_world)
                  (loop_call Scenarios.second_clip_refused 1
                     (Scenarios.generator_over (Scenarios.openai_config 30)
                        Scenarios.empty_world)
                     Scenarios.empty_world)).
  destruct (partial_failure Scenarios.second_clip_refused
              (Scenarios.generator_over (Scenarios.openai_config 30) Scenarios.empty_world)
              Scenarios.empty_world 1 (mk_exn GenericException "content policy")
              call.1.2 call.2)
    as ((Hk & _) & Hruns & Hlater).
  - vm_compute. reflexivity.
  - eexists. split; [exact Hk|]. split; [reflexivity|]. split; [reflexivity|].
    assert (Hok : (FilmGenerator._generate_clips Scenarios.second_clip_refused
                     (Scenarios.generator_over (Scenarios.openai_config 30)
                        Scenarios.empty_world)
                     Scenarios.empty_world).1.1 = Ok tt).
    { apply Hruns. intros j clip Hj. apply prompt_at_hand_in_range.
      vm_compute in Hj.
      match goal with
      | |- _ <= _ < ?n => set (total := n); vm_compute in total; subst total
      end.
      destruct j as [|[|[|j]]]; try discriminate Hj; injection Hj as <-;
        cbn [index]; lia. }
    destruct (proj1 (Hlater Hok) 2%nat _ ltac:(lia) ltac:(vm_compute; reflexivity))
      as [Hgen|(Hskip & _)]; [exact Hgen|].
    exfalso. apply already_completed_output in Hskip as (Hst & _).
    vm_compute in Hst. discriminate Hst.
Defined.

(** The scenario of the specification: three clips, the second one fails;
    the stitched list is clip 0 and clip 2 and the run completes. *)
Example three_clips_second_fails :
  match Scenarios.run Scenarios.second_clip_refused (Scenarios.openai_config 30)
          Scenarios.empty_world with
  | Ok (r, self, w) =>
      r = Ok "out/final_film.mp4"
      /\ status <$> clips (FilmGenerator.state self) = [COMPLETED; FAILED; COMPLETED]
      /\ FilmGenerator.completed_clips (FilmGenerator.state self)
         = ["out/clip_0.mp4"; "out/clip_2.mp4"]
      /\ completed (FilmGenerator.state self) = true
      /\ last (log w)
         = Some (Concatenation ["out/clip_0.mp4"; "out/clip_2.mp4"] "out/final_film.mp4")
  | Raise _ => False
  end.
Proof. vm_compute. repeat split; reflexivity. Qed.

(** ** Frame chaining *)




(** ** The stages of [generate] *)

Section Stages.

Context (env : Collaborators).

Local Abbreviation state := FilmGenerator.state.

Lemma generate_starting_frame_effect config out w r w' :
  generate_starting_frame env config out w = (r, w') ->
  exists evs, log w' = log w ++ evs /\ Forall stage_event evs.
Proof.
  unfold generate_starting_frame, generate_image_openai.
  destruct (openai_api_key config) as [k|].
  2:{ intros [= <- <-]. exists []. rewrite app_nil_r. split; constructor. }
  destruct (str_truthy k).
  2:{ intros [= <- <-]. exists []. rewrite app_nil_r. split; constructor. }
  destruct (image_backend env w _ k out); intros [= <- <-];
    eexists; (split; [reflexivity|]); repeat constructor.
Qed.

(** Step 1 touches the starting-frame reference only. *)
Lemma starting_frame_step_effect self w r self1 w1 :
  FilmGenerator.starting_frame_step env self w = (r, self1, w1) ->
  (exists sf,
      self1 = FilmGenerator.set_state (set_starting_frame_path sf (state self)) self)
  /\ exists evs, log w1 = log w ++ evs /\ Forall stage_event evs.
Proof.
  unfold FilmGenerator.starting_frame_step, FilmGenerator._generate_starting_frame.
  destruct (starting_frame_path (state self)) as [sf|] eqn:Hsf.
  - intros [= <- <- <-]. split.
    + exists (Some sf). rewrite <- Hsf.
      destruct self as [c o m [c' o' s l f d]]. reflexivity.
    + exists []. rewrite app_nil_r. split; constructor.
  - destruct (generate_starting_frame env _ _ w) as [[p|e] w2] eqn:Hg;
      apply generate_starting_frame_effect in Hg as (evs & Hlog & Hevs);
      intros [= <- <- <-].
    + split; [exists (Some p); reflexivity|]. exists evs. split; assumption.
    + split.
      * exists None. rewrite <- Hsf.
        destruct self as [c o m [c' o' s l f d]]. reflexivity.
      * exists evs. split; assumption.
Qed.

Lemma starting_frame_step_fields self w r self1 w1 :
  FilmGenerator.starting_frame_step env self w = (r, self1, w1) ->
  FilmGenerator.config self1 = FilmGenerator.config self
  /\ FilmGenerator.output_dir self1 = FilmGenerator.output_dir self
  /\ FilmGenerator.state_manager self1 = FilmGenerator.state_manager self
  /\ clips (state self1) = clips (state self)
  /\ final_video_path (state self1) = final_video_path (state self)
  /\ completed (state self1) = completed (state self).
Proof.
  intros H. apply starting_frame_step_effect in H as ((sf & ->) & _).
  repeat split; reflexivity.
Qed.

(** What [stitch_videos] adds to the log: nothing before its guards have
    passed, one concatenation after. *)
Lemma stitch_videos_log paths out w :
  log (stitch_videos env paths out w).2
  = log w ++ (if ffmpeg_installed env w
              then match paths with [] => [] | _ :: _ => [Concatenation paths out] end
              else []).
Proof.
  unfold stitch_videos, check_ffmpeg.
  destruct (ffmpeg_installed env w); cbn [negb]; [|symmetry; apply app_nil_r].
  destruct paths as [|p paths]; [symmetry; apply app_nil_r|].
  destruct (ffmpeg_concat env _ _ out); [reflexivity|].
  destruct (ffmpeg_leaves_output env _ _ out); reflexivity.
Qed.

Lemma stitch_videos_effect paths out w r w' :
  stitch_videos env paths out w = (r, w') ->
  exists evs, log w' = log w ++ evs /\ Forall stage_event evs.
Proof.
  intros H. pose proof (stitch_videos_log paths out w) as Hlog.
  rewrite H in Hlog. eexists. split; [exact Hlog|].
  destruct (ffmpeg_installed env w); [|constructor].
  destruct paths; repeat constructor.
Qed.

Lemma stitch_clips_effect self w r w' :
  FilmGenerator._stitch_clips env self w = (r, w') ->
  exists evs, log w' = log w ++ evs /\ Forall stage_event evs.
Proof.
  unfold FilmGenerator._stitch_clips.
  destruct (FilmGenerator.completed_clips (state self)) as [|p paths].
  - intros [= <- <-]. exists []. rewrite app_nil_r. split; constructor.
  - apply stitch_videos_effect.
Qed.

Lemma no_completed_clips (st : FilmState) :
  (forall clip, clip ∈ clips st -> status clip <> COMPLETED) ->
  FilmGenerator.completed_clips st = [].
Proof.
  unfold FilmGenerator.completed_clips.
  induction (clips st) as [|c l IH]; intros Hall; [reflexivity|].
  cbn [flat_map]. rewrite IH.
  - pose proof (Hall c (list_elem_of_here _ _)) as Hc.
    destruct (status c); try reflexivity. congruence.
  - intros clip Hin. apply Hall. apply list_elem_of_further, Hin.
Qed.

(** The four ways a run can end. *)
Lemma generate_outcomes self w :
  let run := FilmGenerator.generate env self w in
  (exists e self1 w1,
      FilmGenerator.starting_frame_step env self w = (Raise e, self1, w1)
      /\ run = (Raise e, self1, FilmGenerator._save_state self1 w1))
  \/ exists u self1 w1,
       FilmGenerator.starting_frame_step env self w = (Ok u, self1, w1)
       /\ let loop := FilmGenerator._generate_clips env self1 w1 in
          (exists e,
              loop.1.1 = Raise e
              /\ run = (Raise e, loop.1.2, FilmGenerator._save_state loop.1.2 loop.2))
          \/ (loop.1.1 = Ok tt
              /\ ((exists e w3,
                      FilmGenerator._stitch_clips env loop.1.2 loop.2 = (Raise e, w3)
                      /\ run = (Raise e, loop.1.2, FilmGenerator._save_state loop.1.2 w3))
                  \/ exists v w3,
                       FilmGenerator._stitch_clips env loop.1.2 loop.2 = (Ok v, w3)
                       /\ run = (Ok v,
                                 FilmGenerator.set_state
                                   (set_completed true
                                      (set_final_video_path (Some v) (state loop.1.2)))
                                   loop.1.2,
                                 FilmGenerator._save_state
                                   (FilmGenerator.set_state
                                      (set_completed true
                                         (set_final_video_path (Some v)
                                            (state loop.1.2))) loop.1.2)
                                   w3))).
Proof.
  intros run. unfold run, FilmGenerator.generate.
  destruct (FilmGenerator.starting_frame_step env self w) as [[[u|e] self1] w1].
  2:{ left. eauto. }
  right. exists u, self1, w1. split; [reflexivity|]. cbv zeta.
  destruct (FilmGenerator._generate_clips env self1 w1) as [[[[]|e] self2] w2];
    cbn [fst snd].
  2:{ left. eauto. }
  right. split; [reflexivity|].
  destruct (FilmGenerator._stitch_clips env self2 w2) as [[v|e] w3]; eauto.
Qed.

(** The run, stage by stage: the events of the first stage, of the clip
    loop and of the stitcher, in this order. *)
Lemma generate_stages self w :
  let run := FilmGenerator.generate env self w in
  exists r1 self1 w1 start_events,
    FilmGenerator.starting_frame_step env self w = (r1, self1, w1)
    /\ log w1 = log w ++ start_events
    /\ Forall stage_event start_events
    /\ FilmGenerator.config self1 = FilmGenerator.config self
    /\ match r1 with
       | Raise e => run = (Raise e, self1, FilmGenerator._save_state self1 w1)
       | Ok _ =>
           let loop := FilmGenerator._generate_clips env self1 w1 in
           exists loop_events stitch_events,
             log loop.2 = log w1 ++ loop_events
             /\ log run.2 = log loop.2 ++ stitch_events
             /\ Forall stage_event stitch_events
             /\ clips (state run.1.2) = clips (state loop.1.2)
       end.
Proof.
  intros run.
  destruct (FilmGenerator.starting_frame_step env self w) as [[r1 self1] w1] eqn:H1.
  pose proof (starting_frame_step_effect _ _ _ _ _ H1) as (_ & evs1 & Hlog1 & Hevs1).
  pose proof (starting_frame_step_fields _ _ _ _ _ H1) as (Hcfg & _).
  exists r1, self1, w1, evs1.
  split; [reflexivity|]. split; [exact Hlog1|]. split; [exact Hevs1|].
  split; [exact Hcfg|].
  destruct (generate_outcomes self w)
    as [(e & s & w' & H1' & Hrun)|(u & s & w' & H1' & Hrest)];
    fold run in Hrun || fold run in Hrest; rewrite H1 in H1'.
  - injection H1' as -> <- <-. exact Hrun.
  - injection H1' as -> <- <-. cbv zeta in Hrest |- *.
    destruct (clips_loop_frame env _ _ self1 w1 _ _ _
                (triple_eta (FilmGenerator._generate_clips env self1 w1)))
      as (_ & _ & _ & evs2 & Hlog2 & _).
    exists evs2.
    destruct Hrest as [(e & _ & Hrun)|(_ & [(e & w3 & Hst & Hrun)|(v & w3 & Hst & Hrun)])];
      fold run in Hrun; rewrite Hrun; cbn [fst snd].
    + exists []. rewrite app_nil_r. repeat split; (reflexivity || assumption || constructor).
    + apply stitch_clips_effect in Hst as (evs3 & Hlog3 & Hevs3).
      exists evs3. repeat split; assumption || reflexivity.
    + apply stitch_clips_effect in Hst as (evs3 & Hlog3 & Hevs3).
      exists evs3. repeat split; assumption || reflexivity.
Qed.


End Stages.




(** ** Fatal stitch *)

(** C6, as stated, fails on a resumed run over the checkpoint of a
    finished film whose videos were deleted: with the video service down
    both clips fail, no clip is completed after the clip stage and the run
    raises the error of the stitch stage; the final video reference and
    the completion flag are still those of the earlier run, set and
    true.  It also fails where the clip stage is left by an exception of
    [create_video_prompt]: over the state file with the index [10^400] no
    clip is completed, and the run raises that exception and never comes
    to the stitch stage. *)
Lemma stale_completion_after_fatal_empty :
  (let w := Scenarios.both_clips_deleted in
   let self := Scenarios.generator_over (Scenarios.openai_config 20) w in
   let run := FilmGenerator.generate Scenarios.video_down self w in
   run.1.1 = Raise (mk_exn GenericException "No completed clips to stitch")
   /\ status <$> clips (FilmGenerator.state run.1.2) = [FAILED; FAILED]
   /\ final_video_path (FilmGenerator.state run.1.2) = Some "out/final_film.mp4"
   /\ completed (FilmGenerator.state run.1.2) = true)
  /\ (let w := Scenarios.checkpoint_of Scenarios.edited_index_unfinished in
      let self := Scenarios.generator_over (Scenarios.openai_config 30) w in
      let run := FilmGenerator.generate Scenarios.video_down self w in
      run.1.1
      = Raise (mk_exn OverflowError "integer division result too large for a float")
      /\ status <$> clips (FilmGenerator.state run.1.2) = [FAILED; PENDING; PENDING]
      /\ new_events w run.2
         = [ClipAttempt 0;
            VideoRequest OPENAI
              "A robot explores. Opening scene, establishing shot. Smooth camera movement."
              "sk-test" "out/clip_0.mp4" (Some "out/starting_frame.png") 10;
            ClipFailureNotice 0 "service unavailable"]).
Proof. vm_compute. repeat split; reflexivity. Qed.

(** C6 (amended).  When the starting-frame step has passed, the clip
    stage has run to its end and no clip has status [COMPLETED] after it,
    [generate] raises the error of [_stitch_clips], [No completed clips to
    stitch], without calling the stitcher; the final video reference and
    the completion flag are what they were before the run: unset and
    false if they were so before, as they are on a first run. *)
Theorem fatal_empty (env : Collaborators) (self self1 self2 : FilmGenerator.t)
    (w w1 w2 : World) :
  FilmGenerator.starting_frame_step env self w = (Ok tt, self1, w1) ->
  FilmGenerator._generate_clips env self1 w1 = (Ok tt, self2, w2) ->
  (forall clip, clip ∈ clips (FilmGenerator.state self2) -> status clip <> COMPLETED) ->
  let run := FilmGenerator.generate env self w in
  run.1.1 = Raise (mk_exn GenericException "No completed clips to stitch")
  /\ run.1.2 = self2
  /\ final_video_path (FilmGenerator.state run.1.2)
     = final_video_path (FilmGenerator.state self)
  /\ completed (FilmGenerator.state run.1.2) = completed (FilmGenerator.state self)
  /\ log run.2 = log w2
  /\ (final_video_path (FilmGenerator.state self) = None ->
      completed (FilmGenerator.state self) = false ->
      final_video_path (FilmGenerator.state run.1.2) = None
      /\ completed (FilmGenerator.state run.1.2) = false).
Proof.
  intros Hstart Hloop Hnone run.
  assert (Hrun : run = (Raise (mk_exn GenericException "No completed clips to stitch"),
                        self2, FilmGenerator._save_state self2 w2)).
  { unfold run, FilmGenerator.generate. rewrite Hstart, Hloop.
    unfold FilmGenerator._stitch_clips. rewrite (no_completed_clips _ Hnone).
    reflexivity. }
  destruct (generate_clips_fields env self1 w1) as (_ & _ & _ & _ & Hfv & Hdone & _).
  rewrite Hloop in Hfv, Hdone. cbn [fst snd] in Hfv, Hdone.
  apply starting_frame_step_fields in Hstart as (_ & _ & _ & _ & Hfv1 & Hdone1).
  rewrite Hrun. cbn [fst snd].
  split; [reflexivity|]. split; [reflexivity|].
  split; [congruence|]. split; [congruence|]. split; [reflexivity|].
  intros Hunset Hfalse. split; congruence.
Qed.

Lemma fatal_empty_witness :
  let self := Scenarios.generator_over (Scenarios.openai_config 20) Scenarios.empty_world in
  let run := FilmGenerator.generate Scenarios.video_down self Scenarios.empty_world in
  run.1.1 = Raise (mk_exn GenericException "No completed clips to stitch")
  /\ final_video_path (FilmGenerator.state run.1.2) = None
  /\ completed (FilmGenerator.state run.1.2) = false.
Proof.
  cbv zeta.
  pose (start := FilmGenerator.starting_frame_step Scenarios.video_down
                   (Scenarios.generator_over (Scenarios.openai_config 20)
                      Scenarios.empty_world) Scenarios.empty_world).
  pose (loop := FilmGenerator._generate_clips Scenarios.video_down start.1.2 start.2).
  destruct (fatal_empty Scenarios.video_down
              (Scenarios.generator_over (Scenarios.openai_config 20) Scenarios.empty_world)
              start.1.2 loop.1.2 Scenarios.empty_world start.2 loop.2)
    as (Hr & _ & _ & _ & _ & Hunset).
  - vm_compute. reflexivity.
  - vm_compute. reflexivity.
  - vm_compute. intros clip Hin.
    repeat (apply elem_of_cons in Hin as [->|Hin]; [discriminate|]).
    apply elem_of_nil in Hin. contradiction.
  - split; [exact Hr|]. apply Hunset; vm_compute; reflexivity.
Defined.

(** ** Credentials *)

Lemma generate_starting_frame_without_key (env : Collaborators) (config : FilmConfig)
    (output_path : Path) (w : World) :
  opt_str_truthy (openai_api_key config) = false ->
  generate_starting_frame env config output_path w
  = (Raise (mk_exn ValueError "OpenAI API key required for image generation"), w).
Proof.
  intros Hkey. unfold generate_starting_frame. unfold opt_str_truthy in Hkey.
  destruct (openai_api_key config) as [k|]; [rewrite Hkey|]; reflexivity.
Qed.

Lemma starting_frame_needs_openai_key_aux (env : Collaborators) (config : FilmConfig)
    (w : World) :
  opt_str_truthy (openai_api_key config) = false ->
  forall self,
    FilmGenerator.config self = config ->
    starting_frame_path (FilmGenerator.state self) = None ->
    let run := FilmGenerator.generate env self w in
    run.1.1 = Raise (mk_exn ValueError "OpenAI API key required for image generation")
    /\ run.1.2 = self
    /\ new_events w run.2 = [].
Proof.
  intros Hkey self Hcfg Hsf run. unfold run, FilmGenerator.generate,
    FilmGenerator.starting_frame_step, FilmGenerator._generate_starting_frame.
  rewrite Hsf, Hcfg, (generate_starting_frame_without_key _ _ _ _ Hkey). cbn [fst snd].
  split; [reflexivity|]. split; [reflexivity|].
  apply new_events_app. cbn. rewrite app_nil_r. reflexivity.
Qed.

(** C10.  The starting frame is always asked of the OpenAI image back end:
    without an OpenAI key, [generate_starting_frame] raises the missing-key
    error and makes no call, whichever provider is selected and whether or
    not the key of that provider is present; a run that has no starting
    frame yet then fails with that error at the starting-frame stage,
    before any clip is attempted. *)
Theorem starting_frame_needs_openai_key (env : Collaborators) (config : FilmConfig)
    (output_path : Path) (w : World) :
  opt_str_truthy (openai_api_key config) = false ->
  generate_starting_frame env config output_path w
  = (Raise (mk_exn ValueError "OpenAI API key required for image generation"), w)
  /\ forall self,
       FilmGenerator.config self = config ->
       starting_frame_path (FilmGenerator.state self) = None ->
       let run := FilmGenerator.generate env self w in
       run.1.1 = Raise (mk_exn ValueError "OpenAI API key required for image generation")
       /\ run.1.2 = self
       /\ new_events w run.2 = [].
Proof.
  intros Hkey. split.
  - apply generate_starting_frame_without_key, Hkey.
  - apply starting_frame_needs_openai_key_aux, Hkey.
Qed.

Lemma starting_frame_needs_openai_key_witness :
  generate_starting_frame Scenarios.reliable Scenarios.gemini_only
    "out/starting_frame.png" Scenarios.empty_world
  = (Raise (mk_exn ValueError "OpenAI API key required for image generation"),
     Scenarios.empty_world).
Proof.
  apply (starting_frame_needs_openai_key Scenarios.reliable Scenarios.gemini_only).
  reflexivity.
Defined.

(** A first run with Gemini selected and its key present, and no OpenAI
    key, fails at the starting-frame stage. *)
Example gemini_run_without_openai_key :
  match Scenarios.run Scenarios.reliable Scenarios.gemini_only Scenarios.empty_world with
  | Ok (r, self, w) =>
      r = Raise (mk_exn ValueError "OpenAI API key required for image generation")
      /\ log w = []
      /\ status <$> clips (FilmGenerator.state self) = [PENDING]
  | Raise _ => False
  end.
Proof. vm_compute. repeat split; reflexivity. Qed.

Section MissingCredential.

Context (env : Collaborators).

Local Abbreviation state := FilmGenerator.state.

Lemma console_not_backend e : console_event e -> ~ backend_event e.
Proof. destruct e; cbn; tauto. Qed.

Lemma stage_not_backend e : stage_event e -> ~ backend_event e.
Proof. destruct e; cbn; tauto. Qed.

(** Without the key of the selected provider the loop prints its two
    messages and calls no collaborator. *)
Lemma clips_loop_absent n ps self w r self' w' :
  credential_absent (FilmGenerator.config self) ->
  FilmGenerator.clips_loop env n ps self w = (r, self', w') ->
  exists evs, log w' = log w ++ evs /\ Forall console_event evs.
Proof.
  revert self w. induction ps as [|i ps IH]; intros self w Habs.
  - intros [= <- <- <-]. exists []. rewrite app_nil_r. split; constructor.
  - cbn [FilmGenerator.clips_loop].
    destruct (FilmGenerator.clip_iteration env n i self w) as [[r1 self1] w1] eqn:H1.
    pose proof (clip_iteration_frame env _ _ _ _ _ _ _ H1) as (Ho & _).
    apply clips_only_fields in Ho as (Hcfg & _).
    assert (Hturn : exists evs1, log w1 = log w ++ evs1 /\ Forall console_event evs1).
    { apply clip_iteration_cases in H1
        as [(_ & -> & _)|(clip & arg & call & _ & _ & _ & _ & Hcall & _ & ->)].
      - exists []. rewrite app_nil_r. split; constructor.
      - destruct (attempt_effect env _ _ _ _ _ _ Hcall)
          as (_ & _ & _ & _ & _ & evs & Hlog & _ & Hout).
        destruct Hout as [(_ & _ & _ & Hno)|(msg & evs0 & _ & _ & -> & _ & Hkey)];
          [contradiction|].
        destruct (Hkey Habs) as (-> & _).
        eexists. split; [exact Hlog|]. cbn [app]. repeat constructor. }
    destruct Hturn as (evs1 & Hlog1 & Hevs1).
    destruct r1 as [u|e].
    + intros H2. rewrite <- Hcfg in Habs.
      destruct (IH _ _ Habs H2) as (evs2 & Hlog2 & Hevs2).
      exists (evs1 ++ evs2). split; [rewrite Hlog2, Hlog1, app_assoc; reflexivity|].
      apply Forall_app. split; assumption.
    + intros [= <- <- <-]. exists evs1. split; assumption.
Qed.

Lemma attempt_position self w i :
  ClipAttempt i ∈ new_events w (FilmGenerator._generate_clips env self w).2 ->
  (i < length (clips (state self)))%nat.
Proof.
  destruct (clips_loop_frame env _ _ self w _ _ _
              (triple_eta (FilmGenerator._generate_clips env self w)))
    as (_ & _ & _ & evs & Hlog & Hevs).
  rewrite (new_events_app _ _ _ Hlog). intros Hin.
  rewrite Forall_forall in Hevs. apply Hevs in Hin. cbn in Hin.
  apply elem_of_seq in Hin. lia.
Qed.

(** Without the key, every attempt of the loop ends as a failure of that
    clip, with the message of the missing key. *)
Lemma attempts_fail_without_credential self w i :
  credential_absent (FilmGenerator.config self) ->
  let final := FilmGenerator._generate_clips env self w in
  ClipAttempt i ∈ new_events w final.2 ->
  ClipFailureNotice i (missing_key_message (FilmGenerator.config self))
    ∈ new_events w final.2
  /\ exists clip,
       clips (state final.1.2) !! i = Some clip
       /\ status clip = FAILED
       /\ error clip = Some (missing_key_message (FilmGenerator.config self)).
Proof.
  intros Habs final Hin.
  pose proof (attempt_position self w i Hin) as Hi.
  destruct (lookup_lt_is_Some_2 _ _ Hi) as [clip Hclip].
  destruct (loop_position env i clip self w Hclip)
    as (_ & _ & before & during & after & Hlog & Hbefore & Hafter & Hcase).
  fold final in Hlog, Hcase.
  rewrite (new_events_app _ _ _ Hlog) in Hin |- *.
  destruct Hcase as [(-> & _)
                    |(self_i & w_i & arg & evs & call & clip' & _ & _ & _ & _ & _ & _
                      & _ & -> & -> & (Hnew & _) & _ & _ & _ & _ & Hout)].
  - exfalso. cbn [app] in Hin. apply elem_of_app in Hin as [Hin|Hin]; revert Hin.
    + eapply attempt_not_elsewhere; [apply not_in_seq_below|exact Hbefore].
    + eapply attempt_not_elsewhere; [apply not_in_seq_above|exact Hafter].
  - destruct Hout as [(_ & _ & _ & Hno)|(msg & evs0 & Hst & Herr & -> & _ & Hkey)];
      [contradiction|].
    destruct (Hkey Habs) as (-> & ->). split.
    + rewrite !elem_of_app. right. left. cbn [app].
      apply list_elem_of_further, list_elem_of_here.
    + exists (clip_after_attempt call). split; [exact Hnew|split; assumption].
Qed.

End MissingCredential.

(** C1, as stated, fails when Gemini is selected without its key and the
    OpenAI key is present: the starting-frame stage runs and requests an
    image; the loop records the missing key on the clip as a failure of
    that clip; the run ends with the error of the stitch stage, not with a
    configuration error. *)
Lemma missing_gemini_key_is_clip_local :
  match Scenarios.run Scenarios.reliable Scenarios.gemini_without_key
          Scenarios.empty_world with
  | Ok (r, self, w) =>
      r = Raise (mk_exn GenericException "No completed clips to stitch")
      /\ log w
         = [ImageRequest
              "A robot explores. sci-fi, futuristic, neon lights, high tech. Opening shot, establishing scene. High quality, detailed."
              "sk-test" "out/starting_frame.png";
            ClipAttempt 0;
            ClipFailureNotice 0 "Gemini API key required"]
      /\ (fun c => (status c, error c)) <$> clips (FilmGenerator.state self)
         = [(FAILED, Some "Gemini API key required")]
      /\ starting_frame_path (FilmGenerator.state self) = Some "out/starting_frame.png"
  | Raise _ => False
  end.
Proof. vm_compute. repeat split; reflexivity. Qed.

(** C1 (amended).  When the credential of the selected provider is absent,
    a run makes no request to a video back end (and extracts no frame):
    [generate_clip] raises the missing-key error before any call.  The
    clip loop does not propagate that error: every clip it attempts ends
    with status [FAILED] and the message of the missing key recorded on
    it, as a failure of that clip.  When the selected provider is OpenAI
    and the run has no starting frame yet, the run raises the missing-key
    error of the starting-frame stage before any call at all. *)
Theorem missing_credential (env : Collaborators) (self : FilmGenerator.t) (w : World) :
  credential_absent (FilmGenerator.config self) ->
  let run := FilmGenerator.generate env self w in
  Forall (fun e => ~ backend_event e) (new_events w run.2)
  /\ (forall i,
        ClipAttempt i ∈ new_events w run.2 ->
        ClipFailureNotice i (missing_key_message (FilmGenerator.config self))
          ∈ new_events w run.2
        /\ exists clip,
             clips (FilmGenerator.state run.1.2) !! i = Some clip
             /\ status clip = FAILED
             /\ error clip = Some (missing_key_message (FilmGenerator.config self)))
  /\ (provider (FilmGenerator.config self) = OPENAI ->
      starting_frame_path (FilmGenerator.state self) = None ->
      run.1.1 = Raise (mk_exn ValueError "OpenAI API key required for image generation")
      /\ new_events w run.2 = []).
Proof.
  intros Habs run.
  destruct (generate_stages env self w)
    as (r1 & self1 & w1 & evs1 & H1 & Hlog1 & Hevs1 & Hcfg & Hrest).
  fold run in Hrest.
  split; [|split].
  - destruct r1 as [u|e].
    + cbv zeta in Hrest. destruct Hrest as (evs2 & evs3 & Hlog2 & Hlogr & Hevs3 & _).
      destruct (clips_loop_absent env _ _ self1 w1 _ _ _
                  ltac:(rewrite Hcfg; exact Habs)
                  (triple_eta (FilmGenerator._generate_clips env self1 w1)))
        as (evs2' & Hlog2' & Hevs2').
      rewrite Hlog2 in Hlog2'. apply app_inv_head in Hlog2'. subst evs2'.
      rewrite (new_events_app w run.2 (evs1 ++ evs2 ++ evs3)).
      2:{ rewrite Hlogr, Hlog2, Hlog1, <- !app_assoc. reflexivity. }
      rewrite !Forall_app. split; [|split].
      * eapply Forall_impl; [exact Hevs1|]. apply stage_not_backend.
      * eapply Forall_impl; [exact Hevs2'|]. apply console_not_backend.
      * eapply Forall_impl; [exact Hevs3|]. apply stage_not_backend.
    + rewrite (new_events_app w run.2 evs1).
      2:{ rewrite Hrest. cbn. exact Hlog1. }
      eapply Forall_impl; [exact Hevs1|]. apply stage_not_backend.
  - intros i Hin. destruct r1 as [u|e].
    + cbv zeta in Hrest.
      destruct Hrest as (evs2 & evs3 & Hlog2 & Hlogr & Hevs3 & Hclips).
      assert (Hall : new_events w run.2 = evs1 ++ evs2 ++ evs3).
      { apply new_events_app.
        rewrite Hlogr, Hlog2, Hlog1, <- !app_assoc. reflexivity. }
      rewrite Hall in Hin |- *. rewrite Hclips.
      assert (Hin2 : ClipAttempt i ∈ evs2).
      { rewrite !elem_of_app in Hin. destruct Hin as [Hin|[Hin|Hin]]; [|exact Hin|].
        - rewrite Forall_forall in Hevs1. apply Hevs1 in Hin. contradiction.
        - rewrite Forall_forall in Hevs3. apply Hevs3 in Hin. contradiction. }
      rewrite <- (new_events_app _ _ _ Hlog2) in Hin2.
      rewrite <- Hcfg in Habs |- *.
      destruct (attempts_fail_without_credential env self1 w1 i Habs Hin2)
        as (Hnotice & Hclip).
      split; [|exact Hclip].
      rewrite (new_events_app _ _ _ Hlog2) in Hnotice.
      rewrite !elem_of_app. right. left. exact Hnotice.
    + exfalso. rewrite (new_events_app w run.2 evs1) in Hin.
      2:{ rewrite Hrest. cbn. exact Hlog1. }
      rewrite Forall_forall in Hevs1. apply Hevs1 in Hin. contradiction.
  - intros Hprov Hsf. unfold credential_absent in Habs. rewrite Hprov in Habs.
    destruct (starting_frame_needs_openai_key_aux env (FilmGenerator.config self) w Habs
                self eq_refl Hsf) as (Hr & _ & Hev).
    split; assumption.
Qed.

Lemma missing_credential_witness :
  let self := Scenarios.generator_over Scenarios.gemini_without_key Scenarios.empty_world in
  let run := FilmGenerator.generate Scenarios.reliable self Scenarios.empty_world in
  Forall (fun e => ~ backend_event e) (new_events Scenarios.empty_world run.2).
Proof.
  cbv zeta.
  refine (proj1 (missing_credential Scenarios.reliable
                   (Scenarios.generator_over Scenarios.gemini_without_key
                      Scenarios.empty_world)
                   Scenarios.empty_world _)).
  vm_compute. reflexivity.
Defined.

(** * Further properties of the code *)

(** ** state.py: the checkpoint file *)

Lemma load_after_save (mgr : StateManager.t) (st : FilmState) (w : World) :
  StateManager.load mgr (StateManager.save mgr st w) = Ok (Some st).
Proof.
  unfold StateManager.load, StateManager.save, write_file. cbn [fs].
  rewrite lookup_insert_eq, model_validate_dump. reflexivity.
Qed.

(** X1.  After [clear], [load] finds no checkpoint, whatever the state file
    held before, a document that does not parse included. *)
Theorem load_after_clear (mgr : StateManager.t) (w : World) :
  StateManager.load mgr (StateManager.clear mgr w) = Ok None.
Proof.
  unfold StateManager.load, StateManager.clear, path_exists.
  destruct (fs w !! StateManager.state_file mgr) as [c|] eqn:Hfile.
  - unfold unlink. cbn [fs]. rewrite lookup_delete_eq. reflexivity.
  - rewrite Hfile. reflexivity.
Qed.

(** X2.  [save] overwrites: of two saves in a row only the second one is
    left, so saving the same state twice is saving it once. *)
Theorem save_overwrites (mgr : StateManager.t) (st1 st2 : FilmState) (w : World) :
  StateManager.save mgr st2 (StateManager.save mgr st1 w) = StateManager.save mgr st2 w.
Proof.
  unfold StateManager.save, write_file, mkdir_parents. cbn [fs log].
  rewrite mkdir_present.
  - rewrite insert_insert_eq. reflexivity.
  - intros p Hp.
    destruct (mkdir_made _ p (fs w) Hp) as [c Hc].
    destruct (decide (StateManager.state_file mgr = p)) as [->|Hne].
    + rewrite lookup_insert_eq. eauto.
    + rewrite lookup_insert_ne by exact Hne. eauto.
Qed.



(** The first save of a run makes the output directory. *)
Example save_makes_the_output_directory :
  let w := StateManager.save (StateManager.__init__ "films/robot")
             (mkFilmState (Scenarios.openai_config 30) "films/robot" None [] None false)
             Scenarios.empty_world in
  fs w !! "films" = Some Directory /\ fs w !! "films/robot" = Some Directory
  /\ path_exists w "films/robot/state.json" = true.
Proof. vm_compute. repeat split; reflexivity. Qed.

(** ** generator.py: the constructor *)

(** X4.  A generator constructed with [resume] over a saved checkpoint
    takes the state of the checkpoint and replaces its config by the
    requested one: the clip list, the starting frame, the final video and
    the completion flag are those of the checkpoint, and the number of
    clips is not recomputed from the new durations. *)
Theorem resume_takes_checkpoint (config : FilmConfig) (output_dir : Path)
    (st : FilmState) (w : World) :
  FilmGenerator.__init__ config output_dir true
    (StateManager.save (StateManager.__init__ output_dir) st w)
  = Ok (FilmGenerator.mk config output_dir (StateManager.__init__ output_dir)
          (mkFilmState config (Models.output_dir st) (starting_frame_path st)
                       (clips st) (final_video_path st) (completed st))).
Proof.
  unfold FilmGenerator.__init__. rewrite load_after_save. reflexivity.
Qed.

(** X5.  Without [resume] the constructor does not read the world; with
    [resume] and no state file it builds the same fresh state; and with
    [resume] over a state file that cannot be loaded it raises the error
    of [load] instead of starting afresh. *)
Theorem constructor_without_checkpoint (config : FilmConfig) (output_dir : Path)
    (w : World) :
  (forall w', FilmGenerator.__init__ config output_dir false w
              = FilmGenerator.__init__ config output_dir false w')
  /\ (fs w !! joinpath output_dir "state.json" = None ->
      FilmGenerator.__init__ config output_dir true w
      = FilmGenerator.__init__ config output_dir false w)
  /\ (forall e,
        StateManager.load (StateManager.__init__ output_dir) w = Raise e ->
        FilmGenerator.__init__ config output_dir true w = Raise e).
Proof.
  split; [reflexivity|]. split.
  - intros Hnone. unfold FilmGenerator.__init__, StateManager.load.
    cbn [StateManager.__init__ StateManager.state_file]. rewrite Hnone. reflexivity.
  - intros e He. unfold FilmGenerator.__init__. rewrite He. reflexivity.
Qed.

Lemma constructor_without_checkpoint_witness :
  FilmGenerator.__init__ (Scenarios.openai_config 30) "out" true Scenarios.empty_world
  = FilmGenerator.__init__ (Scenarios.openai_config 30) "out" false Scenarios.empty_world.
Proof.
  apply (constructor_without_checkpoint (Scenarios.openai_config 30) "out"
           Scenarios.empty_world).
  vm_compute. reflexivity.
Defined.

(** A state file that holds a video instead of a document stops the
    constructor. *)
Example constructor_over_foreign_file :
  match FilmGenerator.__init__ (Scenarios.openai_config 30) "out" true
          (write_file "out/state.json" Media Scenarios.empty_world) with
  | Raise e => exn_class e = UnicodeDecodeError
  | Ok _ => False
  end.
Proof. vm_compute. reflexivity. Qed.

(** ** config.py *)

Section CreateFilmConfig.

Import Pydantic.

Lemma FilmStyle_value_of s v : FilmStyle_of s = Ok v -> FilmStyle_value v = s.
Proof.
  unfold FilmStyle_of.
  repeat match goal with
         | |- context [String.eqb s ?x] =>
             destruct (String.eqb_spec s x) as [->|_]; [intros [= <-]; reflexivity|]
         end.
  discriminate.
Qed.

Lemma MusicVibe_value_of s v : MusicVibe_of s = Ok v -> MusicVibe_value v = s.
Proof.
  unfold MusicVibe_of.
  repeat match goal with
         | |- context [String.eqb s ?x] =>
             destruct (String.eqb_spec s x) as [->|_]; [intros [= <-]; reflexivity|]
         end.
  discriminate.
Qed.

Lemma VideoProvider_value_of s v :
  VideoProvider_of s = Ok v -> VideoProvider_value v = s.
Proof.
  unfold VideoProvider_of.
  repeat match goal with
         | |- context [String.eqb s ?x] =>
             destruct (String.eqb_spec s x) as [->|_]; [intros [= <-]; reflexivity|]
         end.
  discriminate.
Qed.

End CreateFilmConfig.

(** X6.  [create_film_config] accepts exactly the values of the three
    enums: given the values of a style, a vibe and a provider it returns
    the config with these members, the premise and target duration as
    given, a clip duration of 10 seconds, and the two keys as the
    environment holds them (unset gives [None]). *)
Theorem create_film_config_of_values (environ : gmap string string)
    (premise : string) (s : FilmStyle) (m : MusicVibe) (p : VideoProvider)
    (target_duration : float) :
  Config.create_film_config environ premise (Pydantic.FilmStyle_value s)
    (Pydantic.MusicVibe_value m) (Pydantic.VideoProvider_value p) target_duration
  = Ok (mkFilmConfig premise s m target_duration 10 p
          (environ !! "OPENAI_API_KEY") (environ !! "GEMINI_API_KEY")).
Proof.
  unfold Config.create_film_config, Config.load_api_keys,
    Config.FilmStyle_call, Config.MusicVibe_call, Config.VideoProvider_call.
  rewrite FilmStyle_of_value, MusicVibe_of_value, VideoProvider_of_value.
  reflexivity.
Qed.

(** X7.  Whatever strings it is given, [create_film_config] either returns
    a config whose style, vibe and provider have exactly the given strings
    as values and whose clip duration is 10, or raises a [ValueError]
    whose message ends with the name of the enum that has no such value;
    the style is checked first, then the vibe, then the provider. *)
Theorem create_film_config_validates (environ : gmap string string)
    (premise style music_vibe provider : string) (target_duration : float) :
  match Config.create_film_config environ premise style music_vibe provider
          target_duration with
  | Ok config =>
      Pydantic.FilmStyle_value (Models.style config) = style
      /\ Pydantic.MusicVibe_value (Models.music_vibe config) = music_vibe
      /\ Pydantic.VideoProvider_value (Models.provider config) = provider
      /\ clip_duration config = 10%float
  | Raise e =>
      exn_class e = ValueError
      /\ exists shown,
           exn_str e
           = shown +:+ " is not a valid "
               +:+ (match Pydantic.FilmStyle_of style with
                    | Raise _ => "FilmStyle"
                    | Ok _ =>
                        match Pydantic.MusicVibe_of music_vibe with
                        | Raise _ => "MusicVibe"
                        | Ok _ => "VideoProvider"
                        end
                    end)
  end.
Proof.
  unfold Config.create_film_config, Config.load_api_keys,
    Config.FilmStyle_call, Config.MusicVibe_call, Config.VideoProvider_call.
  destruct (Pydantic.FilmStyle_of style) as [s|e1] eqn:Hs; cbn; [|eauto].
  destruct (Pydantic.MusicVibe_of music_vibe) as [m|e2] eqn:Hm; cbn; [|eauto].
  destruct (Pydantic.VideoProvider_of provider) as [p|e3] eqn:Hp; cbn; [|eauto].
  auto using FilmStyle_value_of, MusicVibe_value_of, VideoProvider_value_of.
Qed.

(** The message shows the rejected value as [repr] does. *)
Example create_film_config_rejects_a_style :
  Config.create_film_config ∅ "A robot explores" "western" "epic" "openai" 30
  = Raise (mk_exn ValueError "'western' is not a valid FilmStyle").
Proof. vm_compute. reflexivity. Qed.

(** X8.  A key that the environment sets to the empty string counts as
    absent: for a config made by [create_film_config], the credential of
    the selected provider is absent exactly when the variable of that
    provider is unset or empty. *)
Theorem empty_key_is_absent (environ : gmap string string)
    (premise style music_vibe provider : string) (target_duration : float)
    (config : FilmConfig) :
  Config.create_film_config environ premise style music_vibe provider target_duration
  = Ok config ->
  let variable :=
    match Models.provider config with
    | OPENAI => "OPENAI_API_KEY"
    | GEMINI => "GEMINI_API_KEY"
    end in
  credential_absent config
  <-> (environ !! variable = None \/ environ !! variable = Some EmptyString).
Proof.
  unfold Config.create_film_config, Config.load_api_keys.
  destruct (Config.FilmStyle_call style) as [s|e1]; cbn; [|discriminate].
  destruct (Config.MusicVibe_call music_vibe) as [m|e2]; cbn; [|discriminate].
  destruct (Config.VideoProvider_call provider) as [p|e3]; cbn; [|discriminate].
  intros [= <-]. unfold credential_absent. cbn.
  destruct p; cbn.
  - destruct (environ !! "OPENAI_API_KEY") as [[|c k]|]; cbn; split;
      try discriminate; auto; intros [H|H]; discriminate.
  - destruct (environ !! "GEMINI_API_KEY") as [[|c k]|]; cbn; split;
      try discriminate; auto; intros [H|H]; discriminate.
Qed.

Lemma empty_key_is_absent_witness :
  credential_absent
    (mkFilmConfig "A robot explores" NOIR DARK 30 10 GEMINI None (Some EmptyString))
  <-> (({[ "GEMINI_API_KEY" := EmptyString ]} : gmap string string) !! "GEMINI_API_KEY"
       = None
       \/ ({[ "GEMINI_API_KEY" := EmptyString ]} : gmap string string) !! "GEMINI_API_KEY"
          = Some EmptyString).
Proof.
  apply (empty_key_is_absent {[ "GEMINI_API_KEY" := EmptyString ]}
           "A robot explores" "noir" "dark" "gemini" 30).
  vm_compute. reflexivity.
Defined.

(** ** video_gen.py: one clip *)

(** X9.  When [generate_clip] returns, it has made exactly one request to
    the back end of the selected provider, with the prompt, the seed image
    and the duration of the clip and the key of that provider; the video
    is on disk at the output path of the clip, which is unchanged.  For a
    clip that is not the last one it has then extracted the last frame
    into [clip_<index>_last_frame.png] beside the video and recorded it;
    for the last clip it extracts nothing and leaves the last-frame
    reference alone.  An error message left from an earlier failure stays
    on the clip. *)
Theorem generate_clip_success (env : Collaborators) (clip : VideoClip)
    (config : FilmConfig) (n : Z) (w : World) (clip' : VideoClip) (w' : World) :
  generate_clip env clip config n w = (Ok tt, clip', w') ->
  exists out key,
    output_path clip = Some out /\ output_path clip' = Some out
    /\ selected_key config = Some key
    /\ path_exists w' out = true
    /\ error clip' = error clip
    /\ let request :=
         VideoRequest (provider config) (prompt clip) key out
                      (start_image_path clip) (duration clip) in
       if index clip <? n - 1 then
         last_frame_path clip' = Some (last_frame_file out (index clip))
         /\ path_exists w' (last_frame_file out (index clip)) = true
         /\ new_events w w'
            = [request; FrameExtraction out (last_frame_file out (index clip))]
       else
         last_frame_path clip' = last_frame_path clip
         /\ new_events w w' = [request].
Proof.
  unfold generate_clip.
  destruct (select_backend env config) as [[f k]|e] eqn:Hs; [|discriminate].
  apply select_backend_selected in Hs as (-> & Hkey & _).
  destruct (output_path clip) as [out|] eqn:Hout; [|discriminate].
  destruct (generate_video env _ _ k out _ _ w) as [[p|e] w1] eqn:Hv; [|discriminate].
  apply generate_video_effect in Hv as (_ & Hlog1 & Hp).
  destruct (Hp p eq_refl) as (-> & Hfile).
  cbn [set_output_path index].
  destruct (index clip <? n - 1).
  - destruct (extract_last_frame env out _ w1) as [[frame|e] w2] eqn:He; [|discriminate].
    apply extract_last_frame_effect in He as (Hfs2 & Hlog2 & Hf).
    destruct (Hf frame eq_refl) as (-> & Hframe).
    intros Heq. inversion Heq; subst. exists out, k.
    split; [reflexivity|]. split; [reflexivity|]. split; [exact Hkey|].
    split; [apply Hfs2, Hfile|].
    split; [reflexivity|]. cbv zeta.
    split; [reflexivity|]. split; [exact Hframe|].
    apply new_events_app. rewrite Hlog2, Hlog1, <- app_assoc. reflexivity.
  - intros Heq. inversion Heq; subst. exists out, k.
    split; [reflexivity|]. split; [reflexivity|]. split; [exact Hkey|].
    split; [exact Hfile|].
    split; [reflexivity|]. cbv zeta.
    split; [reflexivity|]. apply new_events_app. exact Hlog1.
Qed.

Lemma generate_clip_success_witness :
  exists out key,
    Some "out/clip_0.mp4" = Some out
    /\ selected_key (Scenarios.openai_config 30) = Some key.
Proof.
  destruct (generate_clip_success Scenarios.reliable
              (mkVideoClip 0 GENERATING "A robot explores. Opening scene." None
                           (Some "out/clip_0.mp4") None 10 None)
              (Scenarios.openai_config 30) 3 Scenarios.empty_world
              (generate_clip Scenarios.reliable
                 (mkVideoClip 0 GENERATING "A robot explores. Opening scene." None
                              (Some "out/clip_0.mp4") None 10 None)
                 (Scenarios.openai_config 30) 3 Scenarios.empty_world).1.2
              (generate_clip Scenarios.reliable
                 (mkVideoClip 0 GENERATING "A robot explores. Opening scene." None
                              (Some "out/clip_0.mp4") None 10 None)
                 (Scenarios.openai_config 30) 3 Scenarios.empty_world).2)
    as (out & key & Hout & _ & Hkey & _).
  - vm_compute. reflexivity.
  - exists out, key. split; [exact Hout|exact Hkey].
Defined.

(** X10.  When [generate_clip] raises, the output and last-frame
    references of the clip are what they were.  If the key of the selected
    provider is absent, the clip and the world are untouched and the error
    is the missing-key [ValueError]; otherwise the message of the error is
    recorded on the clip.  If the frame extractor was called, the video of
    the clip is on disk although the call raised. *)
Theorem generate_clip_failure (env : Collaborators) (clip : VideoClip)
    (config : FilmConfig) (n : Z) (w : World) (e : exn) (clip' : VideoClip)
    (w' : World) :
  generate_clip env clip config n w = (Raise e, clip', w') ->
  output_path clip' = output_path clip
  /\ last_frame_path clip' = last_frame_path clip
  /\ (credential_absent config ->
      clip' = clip /\ w' = w
      /\ e = mk_exn ValueError (missing_key_message config))
  /\ (~ credential_absent config -> error clip' = Some (exn_str e))
  /\ (forall video frame out,
        FrameExtraction video frame ∈ new_events w w' ->
        output_path clip = Some out ->
        video = out /\ path_exists w' out = true).
Proof.
  unfold generate_clip.
  destruct (select_backend env config) as [[f k]|e0] eqn:Hs.
  2:{ intros [= <- <- <-]. split; [reflexivity|]. split; [reflexivity|].
      split; [|split].
      - intros Habs. rewrite (select_backend_absent env _ Habs) in Hs.
        injection Hs as <-. auto.
      - intros Hpres. destruct (select_backend_present env _ Hpres) as (f & k & Hok).
        congruence.
      - intros video frame out Hin. unfold new_events in Hin.
        rewrite drop_all in Hin. apply elem_of_nil in Hin. contradiction. }
  assert (Hpres : ~ credential_absent config).
  { intros Habs. rewrite (select_backend_absent env _ Habs) in Hs. discriminate. }
  apply select_backend_selected in Hs as (-> & _ & _).
  destruct (output_path clip) as [out|] eqn:Hout.
  2:{ intros [= <- <- <-]. cbn. split; [exact Hout|]. split; [reflexivity|].
      split; [contradiction|]. split; [reflexivity|].
      intros video frame out Hin. unfold new_events in Hin.
      rewrite drop_all in Hin. apply elem_of_nil in Hin. contradiction. }
  destruct (generate_video env _ _ k out _ _ w) as [[p|e1] w1] eqn:Hv;
    apply generate_video_effect in Hv as (_ & Hlog1 & Hp).
  2:{ intros [= <- <- <-]. cbn. split; [exact Hout|]. split; [reflexivity|].
      split; [contradiction|]. split; [reflexivity|].
      intros video frame out' Hin.
      rewrite (new_events_app _ _ _ Hlog1) in Hin.
      apply list_elem_of_singleton in Hin. discriminate. }
  destruct (Hp p eq_refl) as (-> & Hfile).
  cbn [set_output_path index].
  destruct (index clip <? n - 1); [|discriminate].
  destruct (extract_last_frame env out _ w1) as [[frame|e2] w2] eqn:He; [discriminate|].
  apply extract_last_frame_effect in He as (Hfs2 & Hlog2 & _).
  intros [= <- <- <-]. cbn. split; [reflexivity|]. split; [reflexivity|].
  split; [contradiction|]. split; [reflexivity|].
  intros video frame out' Hin [= <-].
  rewrite (new_events_app w w2
             [VideoRequest (provider config) (prompt clip) k out
                (start_image_path clip) (duration clip);
              FrameExtraction out (last_frame_file out (index clip))]) in Hin.
  2:{ rewrite Hlog2, Hlog1, <- app_assoc. reflexivity. }
  apply elem_of_cons in Hin as [Hin|Hin]; [discriminate|].
  apply list_elem_of_singleton in Hin. injection Hin as -> _.
  split; [reflexivity|]. apply Hfs2, Hfile.
Qed.

Lemma generate_clip_failure_witness :
  let clip := mkVideoClip 0 GENERATING "A robot explores. Opening scene." None
                          (Some "out/clip_0.mp4") None 10 None in
  output_path (generate_clip Scenarios.video_down clip (Scenarios.openai_config 30) 3
                 Scenarios.empty_world).1.2
  = output_path clip.
Proof.
  cbv zeta.
  refine (proj1 (generate_clip_failure Scenarios.video_down _
                   (Scenarios.openai_config 30) 3 Scenarios.empty_world
                   (mk_exn GenericException "service unavailable") _ _ _)).
  vm_compute. reflexivity.
Defined.

(** A video that was generated and whose last frame could not be
    extracted: the clip fails, the video stays on disk. *)
Example extraction_failure_fails_the_clip :
  let env := mkCollaborators (fun _ _ _ _ => Succeeds) (fun _ _ _ _ _ _ _ => Succeeds)
               (fun _ _ _ => Fails (mk_exn GenericException "Failed to extract last frame"))
               (fun _ => true) (fun _ _ _ => Succeeds) (fun _ _ _ => false) in
  let final := FilmGenerator._generate_clips env
                 (Scenarios.generator_over (Scenarios.openai_config 20)
                    Scenarios.empty_world) Scenarios.empty_world in
  (fun c => (status c, error c)) <$> clips (FilmGenerator.state final.1.2)
  = [(FAILED, Some "Failed to extract last frame"); (COMPLETED, None)]
  /\ path_exists final.2 "out/clip_0.mp4" = true.
Proof. vm_compute. split; reflexivity. Qed.

(** ** stitcher.py *)

(** X11.  [stitch_videos] checks for ffmpeg before it looks at its input:
    without ffmpeg it raises a [RuntimeError], for an empty list too, and
    with ffmpeg an empty list raises a [ValueError]; in both cases it
    writes nothing and calls nothing. *)
Theorem stitch_videos_guards (env : Collaborators) (paths : list Path)
    (out : Path) (w : World) :
  (ffmpeg_installed env w = false ->
   exists e, stitch_videos env paths out w = (Raise e, w)
             /\ exn_class e = RuntimeError)
  /\ (ffmpeg_installed env w = true ->
      exists e, stitch_videos env [] out w = (Raise e, w)
                /\ exn_class e = ValueError).
Proof.
  unfold stitch_videos, check_ffmpeg. split; intros ->; cbn [negb]; eauto.
Qed.

Lemma stitch_videos_guards_witness :
  exists e,
    stitch_videos Scenarios.reliable [] "out/final_film.mp4" Scenarios.empty_world
    = (Raise e, Scenarios.empty_world)
    /\ exn_class e = ValueError.
Proof.
  apply (stitch_videos_guards Scenarios.reliable [] "out/final_film.mp4"
           Scenarios.empty_world).
  reflexivity.
Defined.



(** ** Names of the files of a run *)

Lemma str_last_append (a b : string) :
  b <> EmptyString -> str_last (a +:+ b) = str_last b.
Proof.
  intros Hb. induction a as [|c a IH]; [reflexivity|].
  change (String c a +:+ b) with (String c (a +:+ b)). cbn [str_last].
  rewrite IH. destruct (a +:+ b) eqn:Hab; [|reflexivity].
  destruct a; [exfalso; apply Hb; exact Hab|discriminate Hab].
Qed.

Lemma str_last_joinpath (d : Path) (name : string) :
  name <> EmptyString -> str_last (joinpath d name) = str_last name.
Proof.
  intros Hn. unfold joinpath.
  destruct (String.eqb d "."); [reflexivity|].
  destruct (String.eqb d "/").
  - apply str_last_append, Hn.
  - rewrite str_last_append; [apply str_last_append, Hn|].
    destruct name; [congruence|discriminate].
Qed.

Lemma final_film_is_not_the_list (d : Path) :
  joinpath d "final_film.mp4"
  <> joinpath (parent (joinpath d "final_film.mp4")) "concat_list.txt".
Proof.
  intros Heq. apply (f_equal str_last) in Heq.
  rewrite !str_last_joinpath in Heq by discriminate. discriminate.
Qed.

(** ** generator.py: what a run leaves behind *)

Section RunOutcome.

Context (env : Collaborators).

Local Abbreviation state := FilmGenerator.state.

Lemma stitch_videos_returns paths out w p w' :
  stitch_videos env paths out w = (Ok p, w') ->
  p = out /\ paths <> []
  /\ log w' = log w ++ [Concatenation paths out]
  /\ (out <> joinpath (parent out) "concat_list.txt" -> path_exists w' out = true).
Proof.
  unfold stitch_videos, check_ffmpeg.
  destruct (ffmpeg_installed env w); cbn [negb]; [|discriminate].
  destruct paths as [|p0 paths]; [discriminate|].
  destruct (ffmpeg_concat env _ (p0 :: paths) out); [|discriminate].
  intros [= <- <-]. split; [reflexivity|]. split; [discriminate|].
  split; [reflexivity|].
  intros Hout. unfold path_exists, unlink, write_file, record. cbn.
  rewrite lookup_delete_ne by congruence. rewrite lookup_insert_eq. reflexivity.
Qed.

End RunOutcome.

(** X13.  However a run of [generate] ends, with the film or with an
    error of any stage, the last thing it does is save: the checkpoint on
    disk is the state the generator ends with, so the next run resumes
    from it. *)
Theorem checkpoint_after_run (env : Collaborators) (self : FilmGenerator.t)
    (w : World) :
  let run := FilmGenerator.generate env self w in
  FilmGenerator.state_manager run.1.2 = FilmGenerator.state_manager self
  /\ StateManager.load (FilmGenerator.state_manager self) run.2
     = Ok (Some (FilmGenerator.state run.1.2)).
Proof.
  intros run.
  destruct (generate_outcomes env self w)
    as [(e & self1 & w1 & H1 & Hrun)|(u & self1 & w1 & H1 & Hrest)]; fold run in Hrun || idtac.
  - apply starting_frame_step_fields in H1 as (_ & _ & Hmgr & _).
    rewrite Hrun. cbn [fst snd]. split; [exact Hmgr|].
    unfold FilmGenerator._save_state. rewrite Hmgr. apply load_after_save.
  - apply starting_frame_step_fields in H1 as (_ & _ & Hmgr1 & _).
    destruct (generate_clips_fields env self1 w1) as (_ & _ & Hmgr2 & _).
    cbv zeta in Hrest.
    destruct Hrest as [(e & _ & Hrun)|(_ & [(e & w3 & _ & Hrun)|(v & w3 & _ & Hrun)])];
      fold run in Hrun; rewrite Hrun; cbn [fst snd];
      unfold FilmGenerator._save_state;
      cbn [FilmGenerator.state_manager FilmGenerator.set_state FilmGenerator.state];
      rewrite Hmgr2, Hmgr1; (split; [reflexivity|apply load_after_save]).
Qed.

(** X14.  When [generate] returns, the value is [final_film.mp4] in the
    output directory of the generator; the state has that path as its
    final video and the completion flag set; at least one clip is
    completed; the last call of the run is the concatenation of the
    completed clips, in index order, into that file; and the film is on
    disk. *)
Theorem run_success (env : Collaborators) (self : FilmGenerator.t) (w : World)
    (v : Path) :
  let run := FilmGenerator.generate env self w in
  run.1.1 = Ok v ->
  v = joinpath (FilmGenerator.output_dir self) "final_film.mp4"
  /\ final_video_path (FilmGenerator.state run.1.2) = Some v
  /\ completed (FilmGenerator.state run.1.2) = true
  /\ FilmGenerator.completed_clips (FilmGenerator.state run.1.2) <> []
  /\ last (new_events w run.2)
     = Some (Concatenation
               (FilmGenerator.completed_clips (FilmGenerator.state run.1.2)) v)
  /\ path_exists run.2 v = true.
Proof.
  intros run Hok.
  destruct (generate_outcomes env self w)
    as [(e & self1 & w1 & H1 & Hrun)|(u & self1 & w1 & H1 & Hrest)].
  { fold run in Hrun. rewrite Hrun in Hok. discriminate. }
  cbv zeta in Hrest.
  destruct Hrest as [(e & _ & Hrun)|(_ & [(e & w3 & _ & Hrun)|(v' & w3 & Hstitch & Hrun)])];
    fold run in Hrun; rewrite Hrun in Hok |- *; cbn [fst snd] in Hok |- *;
    [discriminate|discriminate|].
  injection Hok as ->.
  pose proof (starting_frame_step_effect env _ _ _ _ _ H1)
    as (_ & evs1 & Hlog1 & _).
  apply starting_frame_step_fields in H1 as (_ & Hdir1 & _).
  destruct (generate_clips_fields env self1 w1) as (_ & Hdir2 & _).
  destruct (clips_loop_frame env _ _ self1 w1 _ _ _
              (triple_eta (FilmGenerator._generate_clips env self1 w1)))
    as (_ & _ & _ & evs2 & Hlog2 & _).
  unfold FilmGenerator._stitch_clips in Hstitch.
  destruct (FilmGenerator.completed_clips
              (FilmGenerator.state (FilmGenerator._generate_clips env self1 w1).1.2))
    as [|p0 paths] eqn:Hpaths; [discriminate|].
  apply stitch_videos_returns in Hstitch as (-> & _ & Hlog3 & Hfile).
  rewrite Hdir2, Hdir1 in Hlog3, Hfile |- *.
  split; [reflexivity|]. split; [reflexivity|]. split; [reflexivity|].
  unfold FilmGenerator.completed_clips in Hpaths |- *.
  cbn [FilmGenerator.state FilmGenerator.set_state clips set_completed set_final_video_path].
  rewrite Hpaths.
  split; [discriminate|]. split.
  - rewrite (new_events_app w _ ((evs1 ++ evs2) ++ [Concatenation (p0 :: paths)
               (joinpath (FilmGenerator.output_dir self) "final_film.mp4")])).
    + apply last_snoc.
    + cbn [log FilmGenerator._save_state StateManager.save write_file mkdir_parents].
      rewrite Hlog3, Hlog2, Hlog1, <- !app_assoc. reflexivity.
  - apply save_state_effect, Hfile, final_film_is_not_the_list.
Qed.

Lemma run_success_witness :
  final_video_path
    (FilmGenerator.state
       (FilmGenerator.generate Scenarios.reliable
          (Scenarios.generator_over (Scenarios.openai_config 30) Scenarios.empty_world)
          Scenarios.empty_world).1.2)
  = Some "out/final_film.mp4".
Proof.
  refine (proj1 (proj2 (run_success Scenarios.reliable
                          (Scenarios.generator_over (Scenarios.openai_config 30)
                             Scenarios.empty_world)
                          Scenarios.empty_world "out/final_film.mp4" _))).
  vm_compute. reflexivity.
Defined.

(** X15.  The completion flag is set by a successful stitch only: if it
    was false before a run and is true after it, the run returned the
    final video and recorded it. *)
Theorem completion_flag_sound (env : Collaborators) (self : FilmGenerator.t)
    (w : World) :
  let run := FilmGenerator.generate env self w in
  completed (FilmGenerator.state self) = false ->
  completed (FilmGenerator.state run.1.2) = true ->
  exists v,
    run.1.1 = Ok v /\ final_video_path (FilmGenerator.state run.1.2) = Some v.
Proof.
  intros run Hbefore Hafter.
  destruct (generate_outcomes env self w)
    as [(e & self1 & w1 & H1 & Hrun)|(u & self1 & w1 & H1 & Hrest)].
  - fold run in Hrun. rewrite Hrun in Hafter. cbn [fst snd] in Hafter.
    apply starting_frame_step_fields in H1 as (_ & _ & _ & _ & _ & Hdone).
    congruence.
  - apply starting_frame_step_fields in H1 as (_ & _ & _ & _ & _ & Hdone1).
    destruct (generate_clips_fields env self1 w1) as (_ & _ & _ & _ & _ & Hdone2 & _).
    cbv zeta in Hrest.
    destruct Hrest as [(e & _ & Hrun)|(_ & [(e & w3 & _ & Hrun)|(v & w3 & _ & Hrun)])];
      fold run in Hrun; rewrite Hrun in Hafter |- *; cbn [fst snd] in Hafter |- *.
    + congruence.
    + congruence.
    + exists v. split; reflexivity.
Qed.

Lemma completion_flag_sound_witness :
  exists v,
    (FilmGenerator.generate Scenarios.reliable
       (Scenarios.generator_over (Scenarios.openai_config 30) Scenarios.empty_world)
       Scenarios.empty_world).1.1 = Ok v
    /\ final_video_path
         (FilmGenerator.state
            (FilmGenerator.generate Scenarios.reliable
               (Scenarios.generator_over (Scenarios.openai_config 30)
                  Scenarios.empty_world)
               Scenarios.empty_world).1.2) = Some v.
Proof.
  apply (completion_flag_sound Scenarios.reliable
           (Scenarios.generator_over (Scenarios.openai_config 30) Scenarios.empty_world)
           Scenarios.empty_world); vm_compute; reflexivity.
Defined.

(** ** generator.py: the order and the number of the calls *)

Section CallCounts.

Context (env : Collaborators).

Lemma attempted_app (a b : list event) : attempted (a ++ b) = attempted a ++ attempted b.
Proof.
  induction a as [|e a IH]; [reflexivity|].
  destruct e; cbn; rewrite IH; reflexivity.
Qed.

Lemma video_requests_app (a b : list event) :
  video_requests (a ++ b) = (video_requests a + video_requests b)%nat.
Proof.
  induction a as [|e a IH]; [reflexivity|].
  destruct e; cbn; rewrite IH; reflexivity.
Qed.

(** One call of [generate_clip] asks a video back end once at most and
    announces nothing. *)
Lemma generate_clip_calls clip config n w r clip' w' :
  generate_clip env clip config n w = (r, clip', w') ->
  exists evs,
    log w' = log w ++ evs /\ attempted evs = [] /\ (video_requests evs <= 1)%nat.
Proof.
  unfold generate_clip.
  destruct (select_backend env config) as [[f k]|e] eqn:Hs.
  2:{ intros [= <- <- <-]. exists []. rewrite app_nil_r. cbn. auto. }
  destruct (select_backend_ok _ _ _ _ Hs) as [b ->].
  destruct (output_path clip) as [out|].
  2:{ intros [= <- <- <-]. exists []. rewrite app_nil_r. cbn. auto. }
  destruct (generate_video env b _ _ _ _ _ w) as [[p|e] w1] eqn:Hv;
    apply generate_video_effect in Hv as (_ & Hlog1 & _).
  2:{ intros [= <- <- <-]. eexists. split; [exact Hlog1|]. cbn. auto. }
  cbn [set_output_path index].
  destruct (index clip <? n - 1).
  - destruct (extract_last_frame env p _ w1) as [[frame|e] w2] eqn:He;
      apply extract_last_frame_effect in He as (_ & Hlog2 & _);
      intros [= <- <- <-]; eexists;
      (split; [rewrite Hlog2, Hlog1, <- app_assoc; reflexivity|]); cbn; auto.
  - intros [= <- <- <-]. eexists. split; [exact Hlog1|]. cbn. auto.
Qed.

(** One turn of the loop announces its own position once at most, and asks
    a video back end no more often than it announces. *)
Lemma clip_iteration_calls n i self w r self' w' :
  FilmGenerator.clip_iteration env n i self w = (r, self', w') ->
  exists evs,
    log w' = log w ++ evs
    /\ (attempted evs = [] \/ attempted evs = [i])
    /\ (video_requests evs <= length (attempted evs))%nat.
Proof.
  intros H. apply clip_iteration_cases in H
    as [(_ & -> & _)|(clip & arg & call & _ & _ & _ & _ & Hcall & _ & ->)].
  - exists []. rewrite app_nil_r. cbn. auto.
  - destruct call as [[r1 clip1] w1]. symmetry in Hcall.
    apply generate_clip_calls in Hcall as (evs & Hlog & Hatt & Hreq).
    cbn [log record] in Hlog.
    destruct r1 as [u|e]; cbn [world_after_attempt].
    + exists (ClipAttempt i :: evs). cbn [attempted video_requests].
      split; [cbn; rewrite Hlog, <- app_assoc; reflexivity|].
      rewrite Hatt. cbn. auto.
    + exists (ClipAttempt i :: evs ++ [ClipFailureNotice i (exn_str e)]).
      cbn [attempted video_requests]. rewrite attempted_app, video_requests_app, Hatt.
      split; [cbn; rewrite Hlog, <- !app_assoc; reflexivity|].
      cbn. split; [auto|lia].
Qed.

Lemma clips_loop_calls n ps self w r self' w' :
  FilmGenerator.clips_loop env n ps self w = (r, self', w') ->
  exists evs,
    log w' = log w ++ evs
    /\ attempted evs `sublist_of` ps
    /\ (video_requests evs <= length (attempted evs))%nat.
Proof.
  revert self w. induction ps as [|i ps IH]; intros self w.
  - intros [= <- <- <-]. exists []. rewrite app_nil_r. cbn. auto.
  - cbn [FilmGenerator.clips_loop].
    destruct (FilmGenerator.clip_iteration env n i self w) as [[r1 self1] w1] eqn:H1.
    apply clip_iteration_calls in H1 as (evs1 & Hlog1 & Hatt1 & Hreq1).
    destruct r1 as [u|e].
    + intros H2.
      apply IH in H2 as (evs2 & Hlog2 & Hatt2 & Hreq2).
      exists (evs1 ++ evs2).
      split; [rewrite Hlog2, Hlog1, app_assoc; reflexivity|].
      rewrite attempted_app, video_requests_app, length_app.
      split; [|lia].
      destruct Hatt1 as [->| ->]; cbn [app].
      * apply sublist_cons, Hatt2.
      * apply sublist_skip, Hatt2.
    + intros [= <- <- <-]. exists evs1. split; [exact Hlog1|]. split; [|exact Hreq1].
      destruct Hatt1 as [->| ->].
      * apply sublist_nil_l.
      * apply sublist_skip, sublist_nil_l.
Qed.

End CallCounts.

(** X16.  The clip loop works through the clips in index order and comes
    to each clip once: the positions for which it announces an attempt,
    in the order of the announcements, are a sublist of
    [0, 1, ..., n - 1]. *)
Theorem attempts_in_index_order (env : Collaborators) (self : FilmGenerator.t)
    (w : World) :
  let final := FilmGenerator._generate_clips env self w in
  attempted (new_events w final.2)
    `sublist_of` seq 0 (length (clips (FilmGenerator.state self))).
Proof.
  intros final.
  destruct (clips_loop_calls env _ _ self w _ _ _
              (triple_eta (FilmGenerator._generate_clips env self w)))
    as (evs & Hlog & Hsub & _).
  fold final in Hlog. rewrite (new_events_app _ _ _ Hlog). exact Hsub.
Qed.

(** X17.  The orchestrator does not retry: the clip loop sends at most one
    request to a video back end for each attempt it announces, and so no
    more requests than there are clips. *)
Theorem one_request_per_attempt (env : Collaborators) (self : FilmGenerator.t)
    (w : World) :
  let final := FilmGenerator._generate_clips env self w in
  (video_requests (new_events w final.2)
   <= length (attempted (new_events w final.2)))%nat
  /\ (length (attempted (new_events w final.2))
      <= length (clips (FilmGenerator.state self)))%nat.
Proof.
  intros final.
  destruct (clips_loop_calls env _ _ self w _ _ _
              (triple_eta (FilmGenerator._generate_clips env self w)))
    as (evs & Hlog & Hsub & Hreq).
  fold final in Hlog. rewrite (new_events_app _ _ _ Hlog).
  split; [exact Hreq|].
  apply sublist_length in Hsub. rewrite length_seq in Hsub. exact Hsub.
Qed.

(** ** generator.py: the clips after the loop *)

(** X18.  When the clip loop has run to its end, no clip is left pending
    or generating: every clip is either completed, with an output
    reference that exists on disk, or failed, with an error message
    recorded.  The loop runs to its end if every clip has a prompt or one
    can be built for it. *)
Theorem clips_settled_after_loop (env : Collaborators) (self : FilmGenerator.t)
    (w : World) :
  let n := Z.of_nat (length (clips (FilmGenerator.state self))) in
  let final := FilmGenerator._generate_clips env self w in
  ((forall j clip, clips (FilmGenerator.state self) !! j = Some clip ->
      prompt_at_hand (premise (FilmGenerator.config self)) n clip) ->
   final.1.1 = Ok tt)
  /\ (final.1.1 = Ok tt ->
      forall i clip',
        clips (FilmGenerator.state final.1.2) !! i = Some clip' ->
        (status clip' = COMPLETED
         /\ exists out, output_path clip' = Some out /\ path_exists final.2 out = true)
        \/ (status clip' = FAILED /\ exists msg, error clip' = Some msg)).
Proof.
  intros n final. split.
  - apply loop_returns.
  - intros Hok i clip'. apply settled_after_loop, Hok.
Qed.

Lemma clips_settled_after_loop_witness :
  let final :=
    FilmGenerator._generate_clips Scenarios.second_clip_refused
      (Scenarios.generator_over (Scenarios.openai_config 30) Scenarios.empty_world)
      Scenarios.empty_world in
  exists clip',
    clips (FilmGenerator.state final.1.2) !! 1%nat = Some clip'
    /\ ((status clip' = COMPLETED
         /\ exists out, output_path clip' = Some out /\ path_exists final.2 out = true)
        \/ (status clip' = FAILED /\ exists msg, error clip' = Some msg)).
Proof.
  cbv zeta. eexists. split; [vm_compute; reflexivity|].
  refine (proj2 (clips_settled_after_loop Scenarios.second_clip_refused
                   (Scenarios.generator_over (Scenarios.openai_config 30)
                      Scenarios.empty_world)
                   Scenarios.empty_world) _ 1%nat _ _).
  - vm_compute. reflexivity.
  - vm_compute. reflexivity.
Defined.

(** ** generator.py: runs that meet no failure *)

Section SmoothRuns.

Context (env : Collaborators).

Local Abbreviation state := FilmGenerator.state.

Lemma starting_frame_step_ok self w :
  always_succeeds env ->
  (starting_frame_path (state self) = None ->
   opt_str_truthy (openai_api_key (FilmGenerator.config self)) = true) ->
  exists self1 w1, FilmGenerator.starting_frame_step env self w = (Ok tt, self1, w1).
Proof.
  intros (Himage & _) Hkey.
  unfold FilmGenerator.starting_frame_step, FilmGenerator._generate_starting_frame,
    generate_starting_frame, generate_image_openai.
  destruct (starting_frame_path (state self)); [eauto|].
  specialize (Hkey eq_refl). unfold opt_str_truthy in Hkey.
  destruct (openai_api_key (FilmGenerator.config self)) as [k|]; [|discriminate].
  rewrite Hkey, Himage. eauto.
Qed.

Lemma generate_clip_succeeds clip config n w :
  always_succeeds env -> ~ credential_absent config -> is_Some (output_path clip) ->
  exists clip' w', generate_clip env clip config n w = (Ok tt, clip', w').
Proof.
  intros (_ & Hvideo & Hframe & _) Hkey [out Hout].
  destruct (select_backend_present env _ Hkey) as (f & k & Hs).
  unfold generate_clip. rewrite Hs, Hout.
  destruct (select_backend_ok _ _ _ _ Hs) as [b ->].
  unfold generate_video. rewrite Hvideo. cbn [set_output_path index].
  destruct (index clip <? n - 1); [|eauto].
  unfold extract_last_frame. rewrite Hframe. eauto.
Qed.

Lemma all_completed_after_loop self w :
  always_succeeds env -> ~ credential_absent (FilmGenerator.config self) ->
  (forall clip, clip ∈ clips (state self) -> is_Some (output_path clip)) ->
  (FilmGenerator._generate_clips env self w).1.1 = Ok tt ->
  forall clip', clip' ∈ clips (state (FilmGenerator._generate_clips env self w).1.2) ->
                status clip' = COMPLETED.
Proof.
  intros Henv Hkey Hout Hok clip' Hin.
  apply list_elem_of_lookup in Hin as [i Hfinal].
  assert (Hi : (i < length (clips (state self)))%nat).
  { apply lookup_lt_Some in Hfinal.
    destruct (generate_clips_fields env self w) as (_ & _ & _ & _ & _ & _ & Hlen). lia. }
  destruct (lookup_lt_is_Some_2 _ _ Hi) as [clip Hclip].
  destruct (loop_position env i clip self w Hclip)
    as (_ & _ & before & during & after & _ & _ & _ & Hcase).
  destruct Hcase as [(_ & Hsame & _ & Hskip)
                    |(self_i & w_i & arg & evs & call & c & _ & _ & _ & _ & Hprep & _
                      & Hcall & Hc & _ & (Hnew & _) & _)].
  - rewrite Hfinal in Hsame. injection Hsame as ->.
    apply already_completed_output in Hskip as (Hst & _); [exact Hst|exact Hok].
  - rewrite Hfinal in Hnew. injection Hnew as ->.
    destruct (prepared_clip_fields _ _ _ _ _ Hprep) as (_ & _ & _ & Pout).
    destruct (generate_clip_succeeds arg (FilmGenerator.config self)
                (Z.of_nat (length (clips (state self))))
                (record (ClipAttempt i) w_i) Henv Hkey) as (clip1 & w1 & Hg).
    { rewrite Pout. apply Hout. apply list_elem_of_lookup. eauto. }
    rewrite Hcall, Hg. reflexivity.
Qed.

Lemma skipping_loop n ps self w :
  (forall clip, clip ∈ clips (state self) ->
                FilmGenerator.already_completed clip w = true) ->
  FilmGenerator.clips_loop env n ps self w = (Ok tt, self, w).
Proof.
  intros Hall. induction ps as [|i ps IH]; [reflexivity|].
  cbn [FilmGenerator.clips_loop]. rewrite clip_iteration_unfold.
  destruct (clips (state self) !! i) as [clip|] eqn:Hclip; [|exact IH].
  rewrite Hall; [exact IH|]. apply list_elem_of_lookup. eauto.
Qed.

Lemma stitch_clips_calls self w r w' :
  FilmGenerator._stitch_clips env self w = (r, w') ->
  log w' = log w
  \/ exists out,
       log w' = log w ++ [Concatenation (FilmGenerator.completed_clips (state self)) out].
Proof.
  unfold FilmGenerator._stitch_clips.
  destruct (FilmGenerator.completed_clips (state self)) as [|p paths].
  - intros [= <- <-]. left. reflexivity.
  - intros H. pose proof (stitch_videos_log env (p :: paths)
                            (joinpath (FilmGenerator.output_dir self) "final_film.mp4") w)
      as Hlog.
    rewrite H in Hlog. cbn [snd] in Hlog.
    destruct (ffmpeg_installed env w).
    + right. eexists. exact Hlog.
    + left. rewrite Hlog. apply app_nil_r.
Qed.

End SmoothRuns.

(** X19.  If every collaborator succeeds, the key of the selected provider
    is present, the OpenAI key is present when the starting frame is still
    to be made, there is at least one clip, every clip has an output path
    and every clip has a prompt or one can be built for it, then the run
    returns [final_film.mp4], every clip is completed and the completion
    flag is set. *)
Theorem run_completes (env : Collaborators) (self : FilmGenerator.t) (w : World) :
  always_succeeds env ->
  ~ credential_absent (FilmGenerator.config self) ->
  (starting_frame_path (FilmGenerator.state self) = None ->
   opt_str_truthy (openai_api_key (FilmGenerator.config self)) = true) ->
  clips (FilmGenerator.state self) <> [] ->
  (forall clip, clip ∈ clips (FilmGenerator.state self) -> is_Some (output_path clip)) ->
  (forall j clip,
      clips (FilmGenerator.state self) !! j = Some clip ->
      prompt_at_hand (premise (FilmGenerator.config self))
        (Z.of_nat (length (clips (FilmGenerator.state self)))) clip) ->
  let run := FilmGenerator.generate env self w in
  run.1.1 = Ok (joinpath (FilmGenerator.output_dir self) "final_film.mp4")
  /\ (forall clip, clip ∈ clips (FilmGenerator.state run.1.2) -> status clip = COMPLETED)
  /\ completed (FilmGenerator.state run.1.2) = true.
Proof.
  intros Henv Hkey Hopenai Hne Hout Hprompt run.
  destruct (starting_frame_step_ok env self w Henv Hopenai) as (self1 & w1 & H1).
  pose proof (starting_frame_step_fields env _ _ _ _ _ H1)
    as (Hcfg1 & Hdir1 & _ & Hclips1 & _).
  rewrite <- Hcfg1 in Hkey, Hprompt. rewrite <- Hclips1 in Hout, Hne, Hprompt.
  assert (Hok : (FilmGenerator._generate_clips env self1 w1).1.1 = Ok tt)
    by (apply loop_returns, Hprompt).
  pose proof (all_completed_after_loop env self1 w1 Henv Hkey Hout Hok) as Hall.
  pose proof (completed_after_loop_have_output env self1 w1 Hok) as Hhave.
  destruct (generate_clips_fields env self1 w1) as (_ & Hdir2 & _ & _ & _ & _ & Hlen).
  unfold run, FilmGenerator.generate. rewrite H1.
  destruct (FilmGenerator._generate_clips env self1 w1) as [[r2 self2] w2].
  cbn [fst snd] in *. subst r2.
  unfold FilmGenerator._stitch_clips.
  destruct (FilmGenerator.completed_clips (FilmGenerator.state self2))
    as [|p paths] eqn:Hpaths.
  { exfalso. unfold FilmGenerator.completed_clips in Hpaths.
    destruct (clips (FilmGenerator.state self2)) as [|c l] eqn:Hl.
    - destruct (clips (FilmGenerator.state self1)); [congruence|discriminate].
    - cbn [flat_map] in Hpaths.
      rewrite (Hall c (list_elem_of_here _ _)) in Hpaths.
      apply Forall_cons in Hhave as [Hc _].
      destruct (Hc (Hall c (list_elem_of_here _ _))) as [out Hsome].
      rewrite Hsome in Hpaths. discriminate. }
  destruct Henv as (_ & _ & _ & Hff & Hconcat).
  unfold stitch_videos, check_ffmpeg. rewrite Hff, Hconcat. cbn [negb fst snd].
  split; [rewrite Hdir2, Hdir1; reflexivity|].
  split; [exact Hall|reflexivity].
Qed.

Lemma run_completes_witness :
  (FilmGenerator.generate Scenarios.reliable
     (Scenarios.generator_over (Scenarios.openai_config 30) Scenarios.empty_world)
     Scenarios.empty_world).1.1
  = Ok "out/final_film.mp4".
Proof.
  refine (proj1 (run_completes Scenarios.reliable
                   (Scenarios.generator_over (Scenarios.openai_config 30)
                      Scenarios.empty_world)
                   Scenarios.empty_world _ _ _ _ _ _)).
  - repeat split; intros; reflexivity.
  - vm_compute. discriminate.
  - intros _. reflexivity.
  - vm_compute. discriminate.
  - vm_compute. intros clip Hin.
    repeat (apply elem_of_cons in Hin as [->|Hin]; [eexists; reflexivity|]).
    apply elem_of_nil in Hin. contradiction.
  - intros j clip Hj. apply prompt_at_hand_in_range.
    vm_compute in Hj.
    match goal with
    | |- _ <= _ < ?n => set (total := n); vm_compute in total; subst total
    end.
    destruct j as [|[|[|j]]]; try discriminate Hj; injection Hj as <-;
      cbn [index]; lia.
Defined.

(** X20.  Over a checkpoint in which the starting frame is set and every
    clip is completed with its output file on disk, a run generates
    nothing again: the starting-frame step and the clip loop change
    neither the state nor the world, and the only call the run can make is
    the concatenation of the completed clips. *)
Theorem completed_checkpoint_is_left_alone (env : Collaborators)
    (self : FilmGenerator.t) (w : World) :
  is_Some (starting_frame_path (FilmGenerator.state self)) ->
  (forall clip, clip ∈ clips (FilmGenerator.state self) ->
                FilmGenerator.already_completed clip w = true) ->
  let run := FilmGenerator.generate env self w in
  FilmGenerator.starting_frame_step env self w = (Ok tt, self, w)
  /\ FilmGenerator._generate_clips env self w = (Ok tt, self, w)
  /\ (new_events w run.2 = []
      \/ exists out,
           new_events w run.2
           = [Concatenation (FilmGenerator.completed_clips (FilmGenerator.state self))
                            out]).
Proof.
  intros [sf Hsf] Hall run.
  assert (H1 : FilmGenerator.starting_frame_step env self w = (Ok tt, self, w)).
  { unfold FilmGenerator.starting_frame_step. rewrite Hsf. reflexivity. }
  assert (H2 : FilmGenerator._generate_clips env self w = (Ok tt, self, w)).
  { apply skipping_loop, Hall. }
  split; [exact H1|]. split; [exact H2|].
  unfold run, FilmGenerator.generate. rewrite H1, H2.
  destruct (FilmGenerator._stitch_clips env self w) as [r w3] eqn:H3.
  apply stitch_clips_calls in H3.
  assert (Hlog : forall s, log (FilmGenerator._save_state s w3) = log w3) by reflexivity.
  destruct r as [v|e]; cbn [fst snd];
    (destruct H3 as [H3|[out H3]];
     [left; apply new_events_app; rewrite Hlog, H3, app_nil_r; reflexivity
     |right; exists out; apply new_events_app; rewrite Hlog, H3; reflexivity]).
Qed.

Lemma completed_checkpoint_is_left_alone_witness :
  let w := Scenarios.world_after Scenarios.reliable (Scenarios.openai_config 20)
             Scenarios.empty_world in
  let self := Scenarios.generator_over (Scenarios.openai_config 20) w in
  FilmGenerator._generate_clips Scenarios.video_down self w = (Ok tt, self, w).
Proof.
  cbv zeta.
  refine (proj1 (proj2 (completed_checkpoint_is_left_alone Scenarios.video_down
                          (Scenarios.generator_over (Scenarios.openai_config 20)
                             (Scenarios.world_after Scenarios.reliable
                                (Scenarios.openai_config 20) Scenarios.empty_world))
                          (Scenarios.world_after Scenarios.reliable
                             (Scenarios.openai_config 20) Scenarios.empty_world) _ _))).
  - vm_compute. eexists. reflexivity.
  - vm_compute. intros clip Hin.
    repeat (apply elem_of_cons in Hin as [->|Hin]; [reflexivity|]).
    apply elem_of_nil in Hin. contradiction.
Defined.

(** ** generator.py: prompts and the starting frame *)

(** X21.  Every clip the loop attempts has a prompt afterwards, whether
    the attempt succeeded or failed; a later run therefore finds it set
    and does not build it again. *)
Theorem attempted_clip_has_prompt (env : Collaborators) (self : FilmGenerator.t)
    (w : World) (i : nat) :
  let final := FilmGenerator._generate_clips env self w in
  ClipAttempt i ∈ new_events w final.2 ->
  exists clip',
    clips (FilmGenerator.state final.1.2) !! i = Some clip'
    /\ str_truthy (prompt clip') = true.
Proof.
  intros final Hin.
  pose proof (attempt_position env self w i Hin) as Hi.
  destruct (lookup_lt_is_Some_2 _ _ Hi) as [clip Hclip].
  destruct (loop_position env i clip self w Hclip)
    as (_ & _ & before & during & after & Hlog & Hbefore & Hafter & Hcase).
  fold final in Hlog, Hcase.
  rewrite (new_events_app _ _ _ Hlog) in Hin.
  destruct Hcase as [(-> & _)
                    |(self_i & w_i & arg & evs & call & clip' & _ & _ & _ & _ & _ & _
                      & _ & -> & _ & (Hnew & _) & _ & Hpr & _)].
  - exfalso. cbn [app] in Hin. apply elem_of_app in Hin as [Hin|Hin]; revert Hin.
    + eapply attempt_not_elsewhere; [apply not_in_seq_below|exact Hbefore].
    + eapply attempt_not_elsewhere; [apply not_in_seq_above|exact Hafter].
  - exists (clip_after_attempt call). split; [exact Hnew|].
    destruct (str_truthy (prompt clip)) eqn:Ht; [rewrite Hpr; exact Ht|].
    eapply create_video_prompt_nonempty, Hpr.
Qed.

Lemma attempted_clip_has_prompt_witness :
  let final :=
    FilmGenerator._generate_clips Scenarios.video_down
      (Scenarios.generator_over (Scenarios.openai_config 20) Scenarios.empty_world)
      Scenarios.empty_world in
  exists clip',
    clips (FilmGenerator.state final.1.2) !! 1%nat = Some clip'
    /\ str_truthy (prompt clip') = true.
Proof.
  cbv zeta.
  apply (attempted_clip_has_prompt Scenarios.video_down
           (Scenarios.generator_over (Scenarios.openai_config 20) Scenarios.empty_world)
           Scenarios.empty_world 1).
  apply list_elem_of_In. vm_compute.
  right. right. right. left. reflexivity.
Defined.

(** X22.  When a run has no starting frame yet and the starting-frame step
    passes, the step has asked the OpenAI image back end exactly once, with
    the image prompt of the premise and style of the config and the OpenAI
    key, whichever video provider is selected; the frame is
    [starting_frame.png] in the output directory, it is on disk, the state
    refers to it, and the checkpoint holds that state. *)
Theorem starting_frame_step_success (env : Collaborators) (self self1 : FilmGenerator.t)
    (w w1 : World) :
  starting_frame_path (FilmGenerator.state self) = None ->
  FilmGenerator.starting_frame_step env self w = (Ok tt, self1, w1) ->
  let frame := joinpath (FilmGenerator.output_dir self) "starting_frame.png" in
  starting_frame_path (FilmGenerator.state self1) = Some frame
  /\ path_exists w1 frame = true
  /\ (exists key,
        openai_api_key (FilmGenerator.config self) = Some key
        /\ new_events w w1
           = [ImageRequest
                (create_image_prompt (premise (FilmGenerator.config self))
                                     (style (FilmGenerator.config self)))
                key frame])
  /\ StateManager.load (FilmGenerator.state_manager self) w1
     = Ok (Some (FilmGenerator.state self1)).
Proof.
  intros Hnone. unfold FilmGenerator.starting_frame_step,
    FilmGenerator._generate_starting_frame, generate_starting_frame,
    generate_image_openai.
  rewrite Hnone.
  destruct (openai_api_key (FilmGenerator.config self)) as [k|]; [|discriminate].
  destruct (str_truthy k); [|discriminate].
  destruct (image_backend env w _ k _); [|discriminate].
  intros Heq. inversion Heq; subst. cbv zeta.
  split; [reflexivity|].
  split; [apply save_state_effect, path_exists_write|].
  split; [exists k; split; [reflexivity|apply new_events_app; reflexivity]|].
  apply load_after_save.
Qed.

Lemma starting_frame_step_success_witness :
  starting_frame_path
    (FilmGenerator.state
       (FilmGenerator.starting_frame_step Scenarios.reliable
          (Scenarios.generator_over Scenarios.gemini_without_key Scenarios.empty_world)
          Scenarios.empty_world).1.2)
  = Some (joinpath "out" "starting_frame.png").
Proof.
  refine (proj1 (starting_frame_step_success Scenarios.reliable
                   (Scenarios.generator_over Scenarios.gemini_without_key
                      Scenarios.empty_world) _ Scenarios.empty_world
                   (FilmGenerator.starting_frame_step Scenarios.reliable
                      (Scenarios.generator_over Scenarios.gemini_without_key
                         Scenarios.empty_world) Scenarios.empty_world).2 _ _));
    vm_compute; reflexivity.
Defined.

(** ** generator.py: the files of a fresh state *)

Section FreshState.

Lemma str_length_append (a b : string) :
  String.length (a +:+ b) = (String.length a + String.length b)%nat.
Proof.
  induction a as [|c a IH]; [reflexivity|].
  change (String c a +:+ b) with (String c (a +:+ b)).
  cbn [String.length]. rewrite IH. reflexivity.
Qed.

Lemma append_inv_tail (a b t : string) : a +:+ t = b +:+ t -> a = b.
Proof.
  revert b. induction a as [|c a IH]; intros [|d b] H.
  - reflexivity.
  - exfalso. apply (f_equal String.length) in H.
    rewrite !str_length_append in H. cbn [String.length] in H. lia.
  - exfalso. apply (f_equal String.length) in H.
    rewrite !str_length_append in H. cbn [String.length] in H. lia.
  - change (String c a +:+ t) with (String c (a +:+ t)) in H.
    change (String d b +:+ t) with (String d (b +:+ t)) in H.
    injection H as -> H. f_equal. apply IH, H.
Qed.

Lemma append_inv_head (a x y : string) : a +:+ x = a +:+ y -> x = y.
Proof.
  induction a as [|c a IH]; [auto|].
  change (String c a +:+ x) with (String c (a +:+ x)).
  change (String c a +:+ y) with (String c (a +:+ y)).
  intros [= H]. apply IH, H.
Qed.

Lemma joinpath_inj (d : Path) (x y : string) : joinpath d x = joinpath d y -> x = y.
Proof.
  unfold joinpath.
  destruct (String.eqb d "."); [auto|].
  destruct (String.eqb d "/").
  - apply append_inv_head.
  - intros H. apply append_inv_head in H. apply append_inv_head in H. exact H.
Qed.

Lemma clip_file_inj (d : Path) (i j : nat) :
  joinpath d ("clip_" +:+ str_int (Z.of_nat i) +:+ ".mp4")
  = joinpath d ("clip_" +:+ str_int (Z.of_nat j) +:+ ".mp4") ->
  i = j.
Proof.
  intros H. apply joinpath_inj, append_inv_head, append_inv_tail in H.
  apply Nat2Z.inj. apply (inj pretty). exact H.
Qed.

End FreshState.

(** X23.  In a freshly created state every clip is pending, has no prompt,
    no seed image, no last frame and no error, and has the clip duration of
    the config; clip [i] is to be written to [clip_<i>.mp4] in the output
    directory, and no two clips share an output path. *)
Theorem fresh_state_clips (config : FilmConfig) (output_dir : Path) (st : FilmState) :
  FilmGenerator._create_new_state config output_dir = Ok st ->
  (forall i clip,
      clips st !! i = Some clip ->
      clip = mkVideoClip (Z.of_nat i) PENDING EmptyString None
               (Some (joinpath output_dir
                        ("clip_" +:+ str_int (Z.of_nat i) +:+ ".mp4")))
               None (clip_duration config) None)
  /\ NoDup (map output_path (clips st))
  /\ Models.config st = config /\ Models.output_dir st = output_dir
  /\ starting_frame_path st = None /\ final_video_path st = None
  /\ completed st = false.
Proof.
  unfold FilmGenerator._create_new_state.
  destruct (py_truediv _ _) as [q|e]; cbn [mbind result_mbind result_bind];
    [|discriminate].
  destruct (math_ceil q) as [n|e]; cbn [mbind result_mbind result_bind];
    [|discriminate].
  intros [= <-]. cbn [clips Models.config Models.output_dir starting_frame_path
                      final_video_path completed].
  split; [|split; [|auto]].
  - intros i clip Hi. unfold py_range in Hi.
    change (@map nat VideoClip) with (@fmap list _ nat VideoClip) in Hi.
    rewrite list_lookup_fmap in Hi.
    destruct (seq 0 (Z.to_nat n) !! i) as [k|] eqn:Hk; [|discriminate].
    apply lookup_seq in Hk as [-> _]. cbn in Hi. injection Hi as <-. reflexivity.
  - rewrite map_map. cbn [output_path].
    change (@map nat (option Path)) with (@fmap list _ nat (option Path)).
    apply NoDup_fmap_2; [|apply NoDup_seq].
    intros i j [= H]. apply (clip_file_inj _ _ _ H).
Qed.

Lemma fresh_state_clips_witness :
  match FilmGenerator._create_new_state (Scenarios.openai_config 30) "out" with
  | Ok st => NoDup (map output_path (clips st))
  | Raise _ => False
  end.
Proof.
  destruct (FilmGenerator._create_new_state (Scenarios.openai_config 30) "out")
    as [st|e] eqn:Hst.
  - exact (proj1 (proj2 (fresh_state_clips (Scenarios.openai_config 30) "out" st Hst))).
  - vm_compute in Hst. discriminate Hst.
Defined.

(** ** generator.py: the checkpoint between two turns of the loop *)

Section CheckpointInLoop.

Context (env : Collaborators).

Lemma clips_loop_checkpoint n ps self w :
  let after := FilmGenerator.clips_loop env n ps self w in
  (after.1.2, after.2) = (self, w)
  \/ StateManager.load (FilmGenerator.state_manager self) after.2
     = Ok (Some (FilmGenerator.state after.1.2)).
Proof.
  revert self w. induction ps as [|i ps IH]; intros self w; [left; reflexivity|].
  cbn [FilmGenerator.clips_loop].
  destruct (FilmGenerator.clip_iteration env n i self w) as [[r1 self1] w1] eqn:H1.
  pose proof (clip_iteration_frame env _ _ _ _ _ _ _ H1) as (Ho & _).
  apply clips_only_fields in Ho as (_ & _ & Hmgr & _).
  assert (Hturn : (self1, w1) = (self, w)
                  \/ StateManager.load (FilmGenerator.state_manager self) w1
                     = Ok (Some (FilmGenerator.state self1))).
  { apply clip_iteration_cases in H1
      as [(-> & -> & _)|(clip & arg & call & _ & _ & _ & _ & _ & Hself1 & ->)].
    - left. reflexivity.
    - right. unfold FilmGenerator._save_state. rewrite Hmgr. apply load_after_save. }
  cbv zeta. destruct r1 as [u|e]; [|exact Hturn].
  destruct (IH self1 w1) as [Hsame|Hsaved].
  2:{ right. rewrite <- Hmgr. exact Hsaved. }
  cbv zeta in Hsame. injection Hsame as -> ->. exact Hturn.
Qed.

End CheckpointInLoop.

(** X24.  The clip loop saves after every attempt: whenever it comes to a
    position, either it has attempted nothing so far and state and world
    are as at the start, or the checkpoint on disk holds exactly the state
    that the loop has reached.  A crash between two clips loses no
    finished clip. *)
Theorem checkpoint_between_turns (env : Collaborators) (self : FilmGenerator.t)
    (w : World) (i : nat) :
  let reached := loop_reaches env i self w in
  (reached.1.2, reached.2) = (self, w)
  \/ StateManager.load (FilmGenerator.state_manager self) reached.2
     = Ok (Some (FilmGenerator.state reached.1.2)).
Proof. apply clips_loop_checkpoint. Qed.

(** After the second of three clips, with the third still to come, the
    checkpoint records the first two. *)
Example checkpoint_after_two_of_three :
  let reached :=
    loop_reaches Scenarios.second_clip_refused 2
      (Scenarios.generator_over (Scenarios.openai_config 30) Scenarios.empty_world)
      Scenarios.empty_world in
  match StateManager.load (StateManager.__init__ "out") reached.2 with
  | Ok (Some st) => status <$> clips st = [COMPLETED; FAILED; PENDING]
  | _ => False
  end.
Proof. vm_compute. reflexivity. Qed.

(** ** image_gen.py: the image prompt *)

Lemma str_startswith_append (a b : string) : str_startswith a (a +:+ b) = true.
Proof.
  induction a as [|c a IH]; [reflexivity|].
  change (String c a +:+ b) with (String c (a +:+ b)).
  cbn [str_startswith]. rewrite Ascii.eqb_refl. exact IH.
Qed.

(** X25.  The image prompt begins with the premise, and the style is
    visible in it: for one premise, two different styles never give the
    same prompt. *)
Theorem create_image_prompt_shows_style (premise : string) (s1 s2 : FilmStyle) :
  str_startswith premise (create_image_prompt premise s1) = true
  /\ (create_image_prompt premise s1 = create_image_prompt premise s2 -> s1 = s2).
Proof.
  split; [apply str_startswith_append|].
  unfold create_image_prompt. intros H. apply append_inv_head in H.
  destruct s1, s2; try reflexivity; vm_compute in H; discriminate H.
Qed.

Lemma create_image_prompt_shows_style_witness :
  str_startswith "A detective" (create_image_prompt "A detective" NOIR) = true.
Proof.
  exact (proj1 (create_image_prompt_shows_style "A detective" NOIR NOIR)).
Defined.
